(** * RTL-SDR Fosphor Spectrum Analyzer: a model of [rtlsdr_fosphor.py]

    The script wires third-party blocks (the osmosdr source, the fosphor
    sinks, the qtgui sinks, Qt widgets, the GNU Radio runtime) together.
    None of these collaborators is part of the script, so the model keeps
    them opaque: every call that leaves the script is appended to a trace,
    together with how it ended, and an oracle, which sees the trace so
    far, decides whether the call returns or raises.  The script's own
    control flow (try/except, the fallback chain, the enumeration loop,
    sys.exit) is written out as functions in a small monad of state,
    Python exceptions and exit.

    setup_dll_paths, which runs before everything else and only edits
    os.environ['PATH'] and prints, is modelled on its own, as a function
    of the value of PATH.

    argparse is kept opaque as well: what parser.parse_args() makes of
    the command line (a namespace, or the end of the process) is given.
    External calls raise exceptions of class Exception only.

    Not modelled: the rendering of floats in printed lines. *)

From Stdlib Require Import ZArith String List Ascii Bool Lia.
From Stdlib Require Import DecimalString DecimalZ DecimalPos.
From Stdlib Require Import PrimFloat.
Import ListNotations.

Set Warnings "-inexact-float".
Open Scope string_scope.
Open Scope Z_scope.

(** ** Python values that cross the boundary of the script *)

(** The blocks of the flowgraph the script can create. *)
Inductive block : Type :=
| rtlsdr_source
| fosphor_qt_sink      (* self.fosphor_sink = fosphor.qt_sink_c() *)
| fosphor_glfw_sink    (* self.fosphor_sink = fosphor.glfw_sink_c() *)
| qtgui_freq_sink
| qtgui_waterfall_sink.

(** The Qt widgets the script holds. *)
Inductive widget : Type :=
| main_window
| fosphor_win
| qtgui_freq_sink_win
| qtgui_waterfall_sink_win.

Inductive pyval : Type :=
| VInt (z : Z)
| VFloat (f : float)
| VStr (s : string)
| VBool (b : bool)
| VName (qualname : string)   (* a constant of a library, by its dotted name *)
| VBlock (b : block)
| VHandle (b : block)         (* what b.qwidget() returned *)
| VWidget (w : widget).

(** Receivers of method calls. *)
Inductive object : Type :=
| OBlock (b : block)
| OTop                         (* self, as gr.top_block *)
| OApp                         (* self.app *)
| OWidget (w : widget)
| OLayout.                     (* self.main_layout *)

(** Exceptions: only subclasses of Exception are modelled; the class
    matters for [except ImportError], the message for [str(e)]. *)
Inductive exn_class : Type := ImportError | UnboundLocalError | OtherError.

Record exn : Type := mkExn { exn_class_of : exn_class; exn_msg : string }.

(** Calls that leave the script. *)
Inductive call : Type :=
| Import (module name : string)                 (* from module import name *)
| New (callee : string) (args : list pyval)     (* a constructor or a function *)
| Invoke (recv : object) (meth : string) (args : list pyval).

(** One printed line is a list of pieces; floats are not rendered. *)
Inductive piece : Type :=
| Text (s : string)
| Show (v : pyval)            (* str(v) inside an f-string *)
| Fixed3 (f : float).         (* f"{f:.3f}" *)

Inductive event : Type :=
| Print (line : list piece)
| PrintExc (e : exn)                       (* traceback.print_exc() *)
| Called (c : call) (raised : option exn)  (* the call and how it ended *)
| SysExit (code : Z).                      (* sys.exit(code) *)

(** The environment: given the trace so far, does this call raise? *)
Definition oracle : Type := list event -> call -> option exn.

(** ** Text helpers *)

Definition nl : string := String (ascii_of_nat 10) "".

(** str(i) for a Python int. *)
Definition dec (i : Z) : string := NilZero.string_of_int (Z.to_int i).

(** [needle in hay] on Python strings. *)
Fixpoint contains (needle hay : string) : bool :=
  if String.prefix needle hay then true
  else match hay with
       | EmptyString => false
       | String _ rest => contains needle rest
       end.

(** ** The state of the script *)

(** The attributes of the RtlsdrFosphor instance that the script sets, the
    widgets added to self.main_layout and the connections made so far. *)
Record state : Type := mkState {
  trace : list event;
  samp_rate : float;
  center_freq : float;
  gain : pyval;
  device_index : Z;
  fosphor_sink : option block;
  layout : list widget;
  edges : list (block * block)
}.

Definition log (ev : event) (st : state) : state :=
  mkState (trace st ++ [ev]) (samp_rate st) (center_freq st) (gain st)
          (device_index st) (fosphor_sink st) (layout st) (edges st).

Definition set_config (sr cf : float) (g : pyval) (d : Z) (st : state) : state :=
  mkState (trace st) sr cf g d (fosphor_sink st) (layout st) (edges st).

Definition set_fosphor_sink (b : block) (st : state) : state :=
  mkState (trace st) (samp_rate st) (center_freq st) (gain st)
          (device_index st) (Some b) (layout st) (edges st).

Definition add_widget (w : widget) (st : state) : state :=
  mkState (trace st) (samp_rate st) (center_freq st) (gain st)
          (device_index st) (fosphor_sink st) (layout st ++ [w]) (edges st).

Definition add_edge (src dst : block) (st : state) : state :=
  mkState (trace st) (samp_rate st) (center_freq st) (gain st)
          (device_index st) (fosphor_sink st) (layout st) (edges st ++ [(src, dst)]).

Definition initial_state : state :=
  mkState [] 0%float 0%float (VInt 0) 0 None [] [].

(** ** The monad: state, Python exceptions, sys.exit *)

Inductive outcome (A : Type) : Type :=
| Normal (a : A)
| Raised (e : exn)
| Exited (code : Z).   (* SystemExit: no [except Exception] catches it *)

Arguments Normal {A} a.
Arguments Raised {A} e.
Arguments Exited {A} code.

Definition M (A : Type) : Type := state -> outcome A * state.

Definition ret {A} (a : A) : M A := fun st => (Normal a, st).

Definition bind {A B} (m : M A) (k : A -> M B) : M B :=
  fun st =>
    match m st with
    | (Normal a, st') => k a st'
    | (Raised e, st') => (Raised e, st')
    | (Exited c, st') => (Exited c, st')
    end.

Declare Scope py_scope.
Delimit Scope py_scope with py.
Notation "x <- m ;; k" := (bind m (fun x => k))
  (at level 61, m at next level, right associativity) : py_scope.
Notation "m ;; k" := (bind m (fun _ => k))
  (at level 61, right associativity) : py_scope.
Open Scope py_scope.

Definition get : M state := fun st => (Normal st, st).
Definition modify (f : state -> state) : M unit := fun st => (Normal tt, f st).

Definition print (line : list piece) : M unit := modify (log (Print line)).
Definition print_exc (e : exn) : M unit := modify (log (PrintExc e)).

Definition raise {A} (e : exn) : M A := fun st => (Raised e, st).

Definition sys_exit {A} (code : Z) : M A :=
  fun st => (Exited code, log (SysExit code) st).

(** try: body / except Exception as e: handler e *)
Definition try_except {A} (body : M A) (handler : exn -> M A) : M A :=
  fun st =>
    match body st with
    | (Raised e, st') => handler e st'
    | r => r
    end.

(** The exit status of the interpreter for an outcome of the main module:
    an uncaught exception ends the process with status 1. *)
Definition exit_status {A} (o : outcome A) : Z :=
  match o with
  | Normal _ => 0
  | Raised _ => 1
  | Exited c => c
  end.

(** What the script observes of its surroundings besides raised
    exceptions. *)
Record world : Type := mkWorld {
  raises : oracle;
  qapp_exists : bool;           (* QtWidgets.QApplication.instance() is not None *)
  qtgui_in_sys_modules : bool;  (* 'qtgui' in sys.modules *)
  has_get_tuner_type : bool;    (* hasattr(self.rtlsdr_source, 'get_tuner_type') *)
  tuner_type : string;          (* what get_tuner_type() returns *)
  unbound_local_message : string
    (* str(e) of the UnboundLocalError the interpreter raises when the
       local name qtgui is read before it is bound; the wording depends
       on the version of Python *)
}.

Section Script.

Variable w : world.

(** An external call: recorded with its result, which the oracle decides. *)
Definition do (c : call) : M unit :=
  fun st =>
    match raises w (trace st) c with
    | None => (Normal tt, log (Called c None) st)
    | Some e => (Raised e, log (Called c (Some e)) st)
    end.

(** ** detect_rtlsdr_devices *)

Definition not_found_signature : string := "Failed to open rtlsdr device".

(** source(args=f"rtl={i}") *)
Definition open_source (i : Z) : call := New "source" [VStr ("rtl=" ++ dec i)].

Definition range (n : nat) : list Z := map Z.of_nat (seq 0 n).

Inductive flow : Type := Next | Break.

(** The body of the for loop, for index [i]. *)
Definition probe (i : Z) (devices : list (Z * string))
  : M (flow * list (Z * string)) :=
  try_except
    (do (open_source i) ;;
     let device_name := "RTL-SDR #" ++ dec i in
     print [Text ("  Found device #" ++ dec i ++ ": " ++ device_name)] ;;
     ret (Next, (devices ++ [(i, device_name)])%list))
    (fun e =>
       if contains not_found_signature (exn_msg e) then
         (if i =? 0 then print [Text "  No RTL-SDR devices found"] else ret tt) ;;
         ret (Break, devices)
       else
         print [Text ("  Error checking device #" ++ dec i ++ ": " ++ exn_msg e)] ;;
         ret (Next, devices)).

Fixpoint probe_all (idxs : list Z) (devices : list (Z * string))
  : M (list (Z * string)) :=
  match idxs with
  | [] => ret devices
  | i :: rest =>
      r <- probe i devices ;;
      match fst r with
      | Next => probe_all rest (snd r)
      | Break => ret (snd r)
      end
  end.

Definition detect_rtlsdr_devices : M (list (Z * string)) :=
  print [Text (nl ++ "Detecting RTL-SDR devices...")] ;;
  probe_all (range 10) [].

(** ** The import block of the module (lines 47 to 89) *)

Definition import_ (module name : string) : M unit := do (Import module name).

(** The inner try around [from gnuradio import fosphor]: it computes the
    global [use_fosphor]. *)
Definition import_fosphor : M bool :=
  try_except
    (import_ "gnuradio" "fosphor" ;;
     print [Text "Successfully imported fosphor module!"] ;;
     ret true)
    (fun e =>
       match exn_class_of e with
       | ImportError =>
           print [Text ("Error importing fosphor module: " ++ exn_msg e)] ;;
           print [Text "Falling back to standard GNU Radio blocks..."] ;;
           import_ "gnuradio" "qtgui" ;;
           ret false
       | _ =>
           print [Text ("Unexpected error importing fosphor module: " ++ exn_msg e)] ;;
           print_exc e ;;
           print [Text "Falling back to standard GNU Radio blocks..."] ;;
           import_ "gnuradio" "qtgui" ;;
           ret false
       end).

(** The inner try around [from osmosdr import source]. *)
Definition import_osmosdr : M unit :=
  try_except
    (import_ "osmosdr" "source" ;;
     print [Text "Successfully imported osmosdr module!"])
    (fun e =>
       match exn_class_of e with
       | ImportError =>
           print [Text ("Error importing osmosdr module: " ++ exn_msg e)] ;;
           print [Text "Make sure gr-osmosdr is properly installed."] ;;
           sys_exit 1
       | _ =>
           print [Text ("Unexpected error importing osmosdr module: " ++ exn_msg e)] ;;
           print_exc e ;;
           sys_exit 1
       end).

(** The whole import block; its value is [use_fosphor]. *)
Definition import_modules : M bool :=
  try_except
    (import_ "gnuradio" "gr" ;;
     import_ "gnuradio" "blocks" ;;
     import_ "gnuradio.filter" "firdes" ;;
     import_ "gnuradio.fft" "window" ;;
     import_ "PyQt5" "QtGui, QtCore, QtWidgets" ;;
     import_ "" "sip" ;;
     import_ "" "numpy" ;;
     use_fosphor <- import_fosphor ;;
     import_osmosdr ;;
     ret use_fosphor)
    (fun e =>
       print [Text ("Error importing required modules: " ++ exn_msg e)] ;;
       print_exc e ;;
       sys_exit 1).

(** ** class RtlsdrFosphor *)

Definition title : string := "RTL-SDR Fosphor Spectrum Analyzer".

(** self.connect(self.rtlsdr_source, sink) *)
Definition connect (sink : block) : M unit :=
  do (Invoke OTop "connect" [VBlock rtlsdr_source; VBlock sink]) ;;
  modify (add_edge rtlsdr_source sink).

(** win = sip.wrapinstance(sink.qwidget(), QtWidgets.QWidget) *)
Definition wrapinstance (sink : block) : M unit :=
  do (Invoke (OBlock sink) "qwidget" []) ;;
  do (New "sip.wrapinstance" [VHandle sink; VName "QtWidgets.QWidget"]).

(** self.main_layout.addWidget(win) *)
Definition addWidget (win : widget) : M unit :=
  do (Invoke OLayout "addWidget" [VWidget win]) ;;
  modify (add_widget win).

(** The local name [qtgui] of setup_standard_visualization is bound only
    by the import in its body; when that import is skipped, reading the
    name raises UnboundLocalError, with the interpreter's message. *)
Definition qtgui_unbound : exn :=
  mkExn UnboundLocalError (unbound_local_message w).

Definition setup_standard_visualization : M unit :=
  print [Text (nl ++ "Setting up standard GNU Radio visualization...")] ;;
  try_except
    (st <- get ;;
     (if qtgui_in_sys_modules w then raise qtgui_unbound
      else import_ "gnuradio" "qtgui") ;;
     do (New "qtgui.freq_sink_c"
           [VInt 2048; VName "window.WIN_BLACKMAN_hARRIS";
            VFloat (center_freq st); VFloat (samp_rate st);
            VStr "RTL-SDR Spectrum"; VInt 1]) ;;
     do (Invoke (OBlock qtgui_freq_sink) "set_update_time" [VFloat 0.05]) ;;
     do (Invoke (OBlock qtgui_freq_sink) "set_y_axis" [VInt (-140); VInt 10]) ;;
     do (Invoke (OBlock qtgui_freq_sink) "set_y_label"
           [VStr "Relative Gain"; VStr "dB"]) ;;
     do (Invoke (OBlock qtgui_freq_sink) "enable_autoscale" [VBool false]) ;;
     do (Invoke (OBlock qtgui_freq_sink) "enable_grid" [VBool true]) ;;
     do (Invoke (OBlock qtgui_freq_sink) "set_fft_average" [VFloat 0.2]) ;;
     do (Invoke (OBlock qtgui_freq_sink) "enable_axis_labels" [VBool true]) ;;
     do (Invoke (OBlock qtgui_freq_sink) "enable_control_panel" [VBool true]) ;;
     do (New "qtgui.waterfall_sink_c"
           [VInt 2048; VName "window.WIN_BLACKMAN_hARRIS";
            VFloat (center_freq st); VFloat (samp_rate st);
            VStr "RTL-SDR Waterfall"; VInt 1]) ;;
     do (Invoke (OBlock qtgui_waterfall_sink) "set_update_time" [VFloat 0.05]) ;;
     do (Invoke (OBlock qtgui_waterfall_sink) "enable_grid" [VBool true]) ;;
     do (Invoke (OBlock qtgui_waterfall_sink) "enable_axis_labels" [VBool true]) ;;
     do (Invoke (OBlock qtgui_waterfall_sink) "set_intensity_range"
           [VInt (-140); VInt 10]) ;;
     wrapinstance qtgui_freq_sink ;;
     wrapinstance qtgui_waterfall_sink ;;
     addWidget qtgui_freq_sink_win ;;
     addWidget qtgui_waterfall_sink_win ;;
     connect qtgui_freq_sink ;;
     connect qtgui_waterfall_sink ;;
     print [Text "Standard visualization setup complete"])
    (fun e =>
       print [Text ("Error setting up standard visualization: " ++ exn_msg e)] ;;
       print_exc e ;;
       sys_exit 1).

(** self.fosphor_sink.set_frequency_range(self.center_freq, self.samp_rate) *)
Definition set_frequency_range (sink : block) : M unit :=
  st <- get ;;
  do (Invoke (OBlock sink) "set_frequency_range"
        [VFloat (center_freq st); VFloat (samp_rate st)]).

Definition setup_fosphor_visualization : M unit :=
  print [Text (nl ++ "Setting up Fosphor visualization...")] ;;
  try_except
    (do (New "fosphor.qt_sink_c" []) ;;
     modify (set_fosphor_sink fosphor_qt_sink) ;;
     set_frequency_range fosphor_qt_sink ;;
     wrapinstance fosphor_qt_sink ;;
     addWidget fosphor_win ;;
     connect fosphor_qt_sink ;;
     print [Text "Using Fosphor QT sink for visualization"])
    (fun e =>
       print [Text ("Could not create Fosphor QT sink: " ++ exn_msg e)] ;;
       print_exc e ;;
       try_except
         (print [Text "Trying Fosphor GLFW sink as fallback..."] ;;
          do (New "fosphor.glfw_sink_c" []) ;;
          modify (set_fosphor_sink fosphor_glfw_sink) ;;
          set_frequency_range fosphor_glfw_sink ;;
          print [Text "Using Fosphor GLFW Sink"] ;;
          connect fosphor_glfw_sink)
         (fun e' =>
            print [Text ("Could not create Fosphor GLFW sink: " ++ exn_msg e')] ;;
            print_exc e' ;;
            print [Text "Falling back to standard visualization..."] ;;
            setup_standard_visualization)).

(** The try block of __init__ that creates and configures the source. *)
Definition create_source : M unit :=
  st <- get ;;
  print [Text (nl ++ "Creating RTL-SDR source with device #"
                 ++ dec (device_index st) ++ "...")] ;;
  try_except
    (do (open_source (device_index st)) ;;
     do (Invoke (OBlock rtlsdr_source) "set_sample_rate" [VFloat (samp_rate st)]) ;;
     do (Invoke (OBlock rtlsdr_source) "set_center_freq" [VFloat (center_freq st)]) ;;
     do (Invoke (OBlock rtlsdr_source) "set_freq_corr" [VInt 0]) ;;
     do (Invoke (OBlock rtlsdr_source) "set_gain" [gain st]) ;;
     do (Invoke (OBlock rtlsdr_source) "set_if_gain" [VInt 20]) ;;
     do (Invoke (OBlock rtlsdr_source) "set_bb_gain" [VInt 20]) ;;
     do (Invoke (OBlock rtlsdr_source) "set_antenna" [VStr ""]) ;;
     do (Invoke (OBlock rtlsdr_source) "set_bandwidth" [VInt 0]) ;;
     print [Text ("Using RTL-SDR device #" ++ dec (device_index st))] ;;
     try_except
       (if has_get_tuner_type w then
          do (Invoke (OBlock rtlsdr_source) "get_tuner_type" []) ;;
          print [Text ("Tuner type: " ++ tuner_type w)]
        else ret tt)
       (fun _ => ret tt))
    (fun e =>
       print [Text ("Error creating RTL-SDR source: " ++ exn_msg e)] ;;
       print_exc e ;;
       sys_exit 1).

(** The GUI application, the main window and its layout. *)
Definition create_window : M unit :=
  do (New "QtWidgets.QApplication.instance" []) ;;
  (if qapp_exists w then ret tt
   else do (New "QtWidgets.QApplication" [VName "sys.argv"])) ;;
  do (New "QtWidgets.QWidget" []) ;;
  do (Invoke (OWidget main_window) "setWindowTitle" [VStr title]) ;;
  do (Invoke (OWidget main_window) "resize" [VInt 1200; VInt 800]) ;;
  do (New "QtWidgets.QVBoxLayout" [VWidget main_window]).

(** RtlsdrFosphor.__init__; [use_fosphor] is the module's global. *)
Definition RtlsdrFosphor (use_fosphor : bool)
    (center_freq sample_rate : float) (gain : pyval) (device_index : Z) : M unit :=
  do (Invoke OTop "__init__" [VStr title]) ;;
  modify (set_config sample_rate center_freq gain device_index) ;;
  create_window ;;
  create_source ;;
  (if use_fosphor then setup_fosphor_visualization
   else setup_standard_visualization) ;;
  do (Invoke (OWidget main_window) "show" []) ;;
  print [Text "Flowgraph connected successfully"].

(** ** main *)

(** The namespace argparse returns. *)
Record args : Type := mkArgs {
  arg_freq : float;       (* -f/--freq, type=float, default 100e6 *)
  arg_samp_rate : float;  (* -s/--samp-rate, type=float, default 2e6 *)
  arg_gain : pyval;       (* -g/--gain, type=float, default the int 20 *)
  arg_device : Z;         (* -d/--device, type=int, default 0 *)
  arg_detect : bool       (* --detect *)
}.

Definition default_args : args := mkArgs 100e6 2e6 (VInt 20) 0 false.

Fixpoint print_devices (devices : list (Z * string)) : M unit :=
  match devices with
  | [] => ret tt
  | (idx, name) :: rest =>
      print [Text ("  Device #" ++ dec idx ++ ": " ++ name)] ;;
      print_devices rest
  end.

(** The [if args.detect:] branch. *)
Definition detect_and_exit : M unit :=
  devices <- detect_rtlsdr_devices ;;
  (match devices with
   | [] => ret tt
   | _ :: _ =>
       print [Text (nl ++ "Found " ++ dec (Z.of_nat (length devices))
                      ++ " RTL-SDR device(s):")] ;;
       print_devices devices ;;
       print [Text (nl ++ "To use a specific device, run with the -d/--device option.")]
   end) ;;
  sys_exit 0.

(** main from the parsed namespace (line 271) up to and including
    tb.start() (line 305).  What precedes is the parser, [parse_args]
    below; what follows, tb.app.exec_() and sig_handler(), is the life
    cycle, [started] and [whole_run] below. *)
Definition main (use_fosphor : bool) (a : args) : M unit :=
  (if arg_detect a then detect_and_exit else ret tt) ;;
  RtlsdrFosphor use_fosphor (arg_freq a) (arg_samp_rate a) (arg_gain a) (arg_device a) ;;
  do (New "signal.signal" [VName "signal.SIGINT"; VName "sig_handler"]) ;;
  do (New "signal.signal" [VName "signal.SIGTERM"; VName "sig_handler"]) ;;
  print [Text (nl ++ "Starting RTL-SDR" ++ (if use_fosphor then " Fosphor" else "")
                 ++ " Spectrum Analyzer with:")] ;;
  print [Text ("  Device Index: " ++ dec (arg_device a))] ;;
  print [Text "  Center Frequency: "; Fixed3 (arg_freq a / 1e6)%float; Text " MHz"] ;;
  print [Text "  Sample Rate: "; Fixed3 (arg_samp_rate a / 1e6)%float; Text " MHz"] ;;
  print [Text "  Gain: "; Show (arg_gain a); Text " dB"] ;;
  print [Text "Press Ctrl+C to exit"] ;;
  do (Invoke OTop "start" []).

(** The module from its import block to tb.start(), for a command line
    that the parser turns into the namespace [a]. *)
Definition script (a : args) : M unit :=
  use_fosphor <- import_modules ;;
  main use_fosphor a.

(** What parser.parse_args() (line 268) makes of the command line.
    argparse is not part of the script: it returns the namespace, or it
    ends the process itself, with status 0 after -h/--help and with
    status 2 for a command line it rejects. *)
Inductive parsed : Type :=
| Namespace (a : args)
| ParserExit (code : Z).

(** args = parser.parse_args() *)
Definition parse_args (p : parsed) : M args :=
  match p with
  | Namespace a => ret a
  | ParserExit code => sys_exit code
  end.

(** The module run as a program, from its import block to tb.start():
    the import block, then main, which begins with the parser. *)
Definition program (p : parsed) : M unit :=
  use_fosphor <- import_modules ;;
  a <- parse_args p ;;
  main use_fosphor a.

End Script.

(** ** setup_dll_paths (lines 18 to 44)

    The function runs before the import block.  It reads and writes only
    os.environ['PATH'] and prints, so it is modelled on its own: from
    the value of PATH ([None] when the variable is not set) to the new
    value and the lines printed. *)

(** What setup_dll_paths reads of the operating system. *)
Record os : Type := mkOs {
  exe_dir : string;                             (* os.path.dirname(sys.executable) *)
  path_join : string -> list string -> string;  (* os.path.join *)
  path_exists : string -> bool;                 (* os.path.exists *)
  pathsep : ascii                               (* os.pathsep, one character *)
}.

(** s.split(sep) for a separator of one character: never empty, the
    empty string gives one empty field. *)
Fixpoint split (sep : ascii) (s : string) : list string :=
  match s with
  | EmptyString => [EmptyString]
  | String c rest =>
      if Ascii.eqb c sep then EmptyString :: split sep rest
      else match split sep rest with
           | [] => [String c EmptyString]
           | field :: fields => String c field :: fields
           end
  end.

(** os.environ.get('PATH', '') *)
Definition get_path (environ : option string) : string :=
  match environ with
  | Some p => p
  | None => EmptyString
  end.

(** One of the four blocks: if the directory exists and is not among the
    entries of PATH, put it in front and say so. *)
Definition add_to_path (o : os) (dir : string) (env : option string * list event)
  : option string * list event :=
  if path_exists o dir
     && negb (existsb (String.eqb dir) (split (pathsep o) (get_path (fst env))))
  then (Some (dir ++ String (pathsep o) (get_path (fst env))),
        (snd env ++ [Print [Text ("Added " ++ dir ++ " to PATH")]])%list)
  else env.

(** The four directories, in the order the function looks at them. *)
Definition dll_dirs (o : os) : list string :=
  [ path_join o (exe_dir o) ["Library"; "bin"];
    path_join o (exe_dir o) ["DLLs"];
    path_join o (exe_dir o) ["Lib"; "site-packages"; "gnuradio"; "fosphor"];
    path_join o (exe_dir o) ["Library"; "lib"] ].

Definition setup_dll_paths (o : os) (environ : option string)
  : option string * list event :=
  let conda_lib_bin := path_join o (exe_dir o) ["Library"; "bin"] in
  let env := add_to_path o conda_lib_bin (environ, []) in
  let conda_dlls := path_join o (exe_dir o) ["DLLs"] in
  let env := add_to_path o conda_dlls env in
  let gr_fosphor_lib :=
    path_join o (exe_dir o) ["Lib"; "site-packages"; "gnuradio"; "fosphor"] in
  let env := add_to_path o gr_fosphor_lib env in
  let conda_lib := path_join o (exe_dir o) ["Library"; "lib"] in
  add_to_path o conda_lib env.

(** Does the character occur in the string? *)
Fixpoint has_char (c : ascii) (s : string) : bool :=
  match s with
  | EmptyString => false
  | String c' rest => Ascii.eqb c' c || has_char c rest
  end.

(** The blocks of setup_dll_paths for a list of directories, one after
    the other. *)
Definition add_dirs (o : os) (dirs : list string) (env : option string * list event)
  : option string * list event :=
  fold_left (fun env dir => add_to_path o dir env) dirs env.

(** The text in front of the old PATH after the directories [added]
    were put there one by one, the head of the list first: the one added
    last comes first. *)
Fixpoint path_prefix (sep : ascii) (added : list string) : string :=
  match added with
  | [] => EmptyString
  | dir :: later => path_prefix sep later ++ dir ++ String sep EmptyString
  end.

Definition added_line (dir : string) : event :=
  Print [Text ("Added " ++ dir ++ " to PATH")].

(** A POSIX system with a conda environment in /opt/conda/bin that has
    only the DLLs and Library/lib directories. *)
Definition posix_join (dir : string) (parts : list string) : string :=
  fold_left (fun acc part => acc ++ "/" ++ part) parts dir.

Definition conda_os : os :=
  mkOs "/opt/conda/bin" posix_join
    (fun d => String.eqb d "/opt/conda/bin/DLLs"
              || String.eqb d "/opt/conda/bin/Library/lib")
    ":"%char.

(** The same directories under a directory whose name holds a colon. *)
Definition colon_os : os :=
  mkOs "/opt/py:3" posix_join (fun d => String.eqb d "/opt/py:3/DLLs") ":"%char.

(** ** The life cycle after tb.start() (lines 289 to 307)

    After tb.start() the main thread sits in tb.app.exec_().  The handler
    registered for SIGINT and SIGTERM is an ordinary Python function:
    the interpreter calls it in the main thread at a statement boundary,
    also when an earlier call of it has not finished yet.  A process is
    therefore a stack of unfinished handler calls on top of main. *)

Inductive stmt : Type := tb_stop | tb_wait | sys_exit_0.

(** def sig_handler(sig=None, frame=None): tb.stop(); tb.wait(); sys.exit(0) *)
Definition sig_handler : list stmt := [tb_stop; tb_wait; sys_exit_0].

Inductive signum : Type := SIGINT | SIGTERM.

Record process : Type := mkProcess {
  frames : list (list stmt);  (* unfinished calls of sig_handler, innermost first *)
  in_exec : bool;             (* main is still inside tb.app.exec_() *)
  pstate : state;
  ended : option Z            (* the exit status once the process has ended *)
}.

(** The process right after tb.start() returned in state [st]. *)
Definition running (st : state) : process := mkProcess [] true st None.

Inductive occurrence : Type :=
| Signal (s : signum)   (* a signal is delivered *)
| Quit                  (* the Qt event loop returns: tb.app.exec_() is over *)
| Step.                 (* the main thread executes its next statement *)

Section Lifecycle.

Variable w : world.

(** One statement of the handler. *)
Definition exec_stmt (s : stmt) : M unit :=
  match s with
  | tb_stop => do w (Invoke OTop "stop" [])
  | tb_wait => do w (Invoke OTop "wait" [])
  | sys_exit_0 => sys_exit 0
  end.

(** The main thread executes the next statement of the innermost
    unfinished call; an exception that nothing catches ends the process
    with status 1. *)
Definition step (p : process) : process :=
  match frames p with
  | [] => p
  | [] :: outer => mkProcess outer (in_exec p) (pstate p) None
  | (s :: rest) :: outer =>
      match exec_stmt s (pstate p) with
      | (Normal _, st') => mkProcess (rest :: outer) (in_exec p) st' None
      | (Raised e, st') => mkProcess [] false (log (PrintExc e) st') (Some 1)
      | (Exited c, st') => mkProcess [] false st' (Some c)
      end
  end.

(** A signal starts a call of the handler, whatever is running; when
    the event loop returns, main calls sig_handler() itself (line 307);
    nothing happens to a process that has ended. *)
Definition occur (p : process) (o : occurrence) : process :=
  match ended p with
  | Some _ => p
  | None =>
      match o with
      | Signal _ => mkProcess (sig_handler :: frames p) (in_exec p) (pstate p) None
      | Quit =>
          match frames p, in_exec p with
          | [], true => mkProcess [sig_handler] false (pstate p) None
          | _, _ => p
          end
      | Step => step p
      end
  end.

Definition occur_all (p : process) (os : list occurrence) : process :=
  fold_left occur os p.

End Lifecycle.

(** The process once the program has run up to tb.start(): when start
    returned, main sits in tb.app.exec_() (line 306) and calls
    sig_handler() after it (line 307); a sys.exit before that has ended
    the process with its status, an exception that nothing caught with
    status 1 after the traceback. *)
Definition started (r : outcome unit * state) : process :=
  match r with
  | (Normal _, st) => running st
  | (Raised e, st) => mkProcess [] false (log (PrintExc e) st) (Some 1)
  | (Exited c, st) => mkProcess [] false st (Some c)
  end.

(** A whole run of the program: up to tb.start(), then what occurs. *)
Definition whole_run (w : world) (p : parsed) (os : list occurrence) (st : state)
  : process :=
  occur_all w (started (program w p st)) os.

(** ** Reading a trace *)

(** The events a computation appends when it runs from [st]. *)
Definition events_of {A} (m : M A) (st : state) : list event :=
  skipn (length (trace st)) (trace (snd (m st))).

(** A call that returned. *)
Definition ok (c : call) : event := Called c None.

(** The calls of a trace, in order, without their results. *)
Fixpoint calls (tr : list event) : list call :=
  match tr with
  | [] => []
  | Called c _ :: rest => c :: calls rest
  | _ :: rest => calls rest
  end.

(** Is this event the call of the constructor or function [name]? *)
Definition is_new (name : string) (ev : event) : bool :=
  match ev with
  | Called (New callee _) _ => String.eqb callee name
  | _ => false
  end.

Definition count_new (name : string) (tr : list event) : nat :=
  length (filter (is_new name) tr).

(** The argument lists of all calls of [name], in order. *)
Fixpoint news (name : string) (tr : list event) : list (list pyval) :=
  match tr with
  | [] => []
  | Called (New callee args) _ :: rest =>
      if String.eqb callee name then args :: news name rest else news name rest
  | _ :: rest => news name rest
  end.

Definition block_eqb (a b : block) : bool :=
  match a, b with
  | rtlsdr_source, rtlsdr_source
  | fosphor_qt_sink, fosphor_qt_sink
  | fosphor_glfw_sink, fosphor_glfw_sink
  | qtgui_freq_sink, qtgui_freq_sink
  | qtgui_waterfall_sink, qtgui_waterfall_sink => true
  | _, _ => false
  end.

(** The argument lists of all calls of method [meth] on block [b]. *)
Fixpoint invocations (b : block) (meth : string) (tr : list event)
  : list (list pyval) :=
  match tr with
  | [] => []
  | Called (Invoke (OBlock b') m args) _ :: rest =>
      if block_eqb b' b && String.eqb m meth
      then args :: invocations b meth rest
      else invocations b meth rest
  | _ :: rest => invocations b meth rest
  end.

(** Is this event a call on the flowgraph object itself (its __init__,
    connect, start, stop or wait)? *)
Definition is_top (ev : event) : bool :=
  match ev with
  | Called (Invoke OTop _ _) _ => true
  | _ => false
  end.

(** Is this event a call of method [meth] on the flowgraph itself? *)
Definition is_top_call (meth : string) (ev : event) : bool :=
  match ev with
  | Called (Invoke OTop m _) _ => String.eqb m meth
  | _ => false
  end.

Definition count_top (meth : string) (tr : list event) : nat :=
  length (filter (is_top_call meth) tr).

Definition is_exit (ev : event) : bool :=
  match ev with SysExit _ => true | _ => false end.

(** All events of [evs] satisfy [P]. *)
Definition only {A} (P : event -> Prop) (m : M A) : Prop :=
  forall st, exists evs, trace (snd (m st)) = (trace st ++ evs)%list /\ Forall P evs.

(** A computation that, when it ends the process, ends it with status 1. *)
Definition exits_1 {A} (m : M A) : Prop :=
  forall st c, fst (m st) = Exited c -> c = 1.

(** ** The enumeration in a trace *)

(** What the enumeration records for a device that opened. *)
Definition found (i : Z) : Z * string := (i, "RTL-SDR #" ++ dec i).

Definition device_line (d : Z * string) : event :=
  Print [Text ("  Device #" ++ dec (fst d) ++ ": " ++ snd d)].

(** What main prints about the devices the enumeration returned. *)
Definition report (devices : list (Z * string)) : list event :=
  match devices with
  | [] => []
  | _ :: _ =>
      (Print [Text (nl ++ "Found " ++ dec (Z.of_nat (length devices))
                      ++ " RTL-SDR device(s):")]
       :: map device_line devices
       ++ [Print [Text (nl ++ "To use a specific device, run with the -d/--device option.")]])%list
  end.

(** The command line [--detect]. *)
Definition detect_args : args := mkArgs 100e6 2e6 (VInt 20) 0 true.

(** The device index an argument string [rtl=<n>] denotes. *)
Definition parse_index (s : string) : option Z :=
  if String.prefix "rtl=" s
  then option_map Z.of_int (NilZero.int_of_string (substring 4 (String.length s - 4)%nat s))
  else None.

(** ** The construction in a trace *)

(** The calls that create the application (unless one exists), the main
    window and its layout. *)
Definition window_calls (w : world) : list call :=
  (New "QtWidgets.QApplication.instance" []
   :: (if qapp_exists w then [] else [New "QtWidgets.QApplication" [VName "sys.argv"]])
   ++ [ New "QtWidgets.QWidget" [];
        Invoke (OWidget main_window) "setWindowTitle" [VStr title];
        Invoke (OWidget main_window) "resize" [VInt 1200; VInt 800];
        New "QtWidgets.QVBoxLayout" [VWidget main_window] ])%list.

(** The calls that create and configure the source, for the
    configuration held in [st]. *)
Definition source_calls (st : state) : list call :=
  [ open_source (device_index st);
    Invoke (OBlock rtlsdr_source) "set_sample_rate" [VFloat (samp_rate st)];
    Invoke (OBlock rtlsdr_source) "set_center_freq" [VFloat (center_freq st)];
    Invoke (OBlock rtlsdr_source) "set_freq_corr" [VInt 0];
    Invoke (OBlock rtlsdr_source) "set_gain" [gain st];
    Invoke (OBlock rtlsdr_source) "set_if_gain" [VInt 20];
    Invoke (OBlock rtlsdr_source) "set_bb_gain" [VInt 20];
    Invoke (OBlock rtlsdr_source) "set_antenna" [VStr ""];
    Invoke (OBlock rtlsdr_source) "set_bandwidth" [VInt 0] ].

(** The events of creating and configuring the source, up to the
    optional query of the tuner type. *)
Definition source_events (st : state) : list event :=
  (Print [Text (nl ++ "Creating RTL-SDR source with device #"
                  ++ dec (device_index st) ++ "...")]
   :: map ok (source_calls st)
   ++ [Print [Text ("Using RTL-SDR device #" ++ dec (device_index st))]])%list.

(** What the optional query of the tuner type can leave in the trace. *)
Definition tuner_query (w : world) (evs : list event) : Prop :=
  evs = [] \/
  evs = [ok (Invoke (OBlock rtlsdr_source) "get_tuner_type" []);
         Print [Text ("Tuner type: " ++ tuner_type w)]] \/
  exists e, evs = [Called (Invoke (OBlock rtlsdr_source) "get_tuner_type" []) (Some e)].

(** Does the event create the source or call one of its setters (the
    query get_tuner_type apart)? *)
Definition touches_source (ev : event) : bool :=
  match ev with
  | Called (New callee _) _ => String.eqb callee "source"
  | Called (Invoke (OBlock b) m _) _ =>
      block_eqb b rtlsdr_source && negb (String.eqb m "get_tuner_type")
  | _ => false
  end.

Definition standard_banner : event :=
  Print [Text (nl ++ "Setting up standard GNU Radio visualization...")].

(** The calls of a standard visualization that is set up completely. *)
Definition standard_calls (st : state) : list call :=
  [ Import "gnuradio" "qtgui";
    New "qtgui.freq_sink_c"
      [VInt 2048; VName "window.WIN_BLACKMAN_hARRIS";
       VFloat (center_freq st); VFloat (samp_rate st);
       VStr "RTL-SDR Spectrum"; VInt 1];
    Invoke (OBlock qtgui_freq_sink) "set_update_time" [VFloat 0.05];
    Invoke (OBlock qtgui_freq_sink) "set_y_axis" [VInt (-140); VInt 10];
    Invoke (OBlock qtgui_freq_sink) "set_y_label" [VStr "Relative Gain"; VStr "dB"];
    Invoke (OBlock qtgui_freq_sink) "enable_autoscale" [VBool false];
    Invoke (OBlock qtgui_freq_sink) "enable_grid" [VBool true];
    Invoke (OBlock qtgui_freq_sink) "set_fft_average" [VFloat 0.2];
    Invoke (OBlock qtgui_freq_sink) "enable_axis_labels" [VBool true];
    Invoke (OBlock qtgui_freq_sink) "enable_control_panel" [VBool true];
    New "qtgui.waterfall_sink_c"
      [VInt 2048; VName "window.WIN_BLACKMAN_hARRIS";
       VFloat (center_freq st); VFloat (samp_rate st);
       VStr "RTL-SDR Waterfall"; VInt 1];
    Invoke (OBlock qtgui_waterfall_sink) "set_update_time" [VFloat 0.05];
    Invoke (OBlock qtgui_waterfall_sink) "enable_grid" [VBool true];
    Invoke (OBlock qtgui_waterfall_sink) "enable_axis_labels" [VBool true];
    Invoke (OBlock qtgui_waterfall_sink) "set_intensity_range" [VInt (-140); VInt 10];
    Invoke (OBlock qtgui_freq_sink) "qwidget" [];
    New "sip.wrapinstance" [VHandle qtgui_freq_sink; VName "QtWidgets.QWidget"];
    Invoke (OBlock qtgui_waterfall_sink) "qwidget" [];
    New "sip.wrapinstance" [VHandle qtgui_waterfall_sink; VName "QtWidgets.QWidget"];
    Invoke OLayout "addWidget" [VWidget qtgui_freq_sink_win];
    Invoke OLayout "addWidget" [VWidget qtgui_waterfall_sink_win];
    Invoke OTop "connect" [VBlock rtlsdr_source; VBlock qtgui_freq_sink];
    Invoke OTop "connect" [VBlock rtlsdr_source; VBlock qtgui_waterfall_sink] ].


(** How __init__ ends. *)
Definition shown : list event :=
  [ok (Invoke (OWidget main_window) "show" []);
   Print [Text "Flowgraph connected successfully"]].

Definition is_gpu_ctor (ev : event) : bool :=
  is_new "fosphor.qt_sink_c" ev || is_new "fosphor.glfw_sink_c" ev.

(** Does the event belong to setup_standard_visualization's two sinks? *)
Definition is_standard_ctor (ev : event) : bool :=
  is_new "qtgui.freq_sink_c" ev || is_new "qtgui.waterfall_sink_c" ev.

(** Is this event the construction of a sink of any kind? *)
Definition is_sink_ctor (ev : event) : bool := is_gpu_ctor ev || is_standard_ctor ev.

Definition is_banner (ev : event) : bool :=
  match ev with
  | Print [Text s] =>
      String.eqb s (nl ++ "Setting up standard GNU Radio visualization...")
  | _ => false
  end.

(** Events that only setup_standard_visualization produces first. *)
Definition is_standard (ev : event) : bool := is_banner ev || is_standard_ctor ev.

(** ** The GPU attempts in a trace *)

Definition qt_ctor : call := New "fosphor.qt_sink_c" [].
Definition glfw_ctor : call := New "fosphor.glfw_sink_c" [].

(** Did this event record that the constructor [name] raised? *)
Definition ctor_raised (name : string) (ev : event) : bool :=
  match ev with
  | Called (New callee _) (Some _) => String.eqb callee name
  | _ => false
  end.

(** The calls of the try block that builds the Qt sink: its constructor,
    the calls on the sink, wrapping and adding its widget, connecting it. *)
Definition in_qt_attempt (c : call) : bool :=
  match c with
  | New callee args =>
      String.eqb callee "fosphor.qt_sink_c"
      || (String.eqb callee "sip.wrapinstance"
          && match args with VHandle fosphor_qt_sink :: _ => true | _ => false end)
  | Invoke (OBlock fosphor_qt_sink) _ _ => true
  | Invoke OLayout _ [VWidget fosphor_win] => true
  | Invoke OTop _ [_; VBlock fosphor_qt_sink] => true
  | _ => false
  end.

(** The calls of the try block that builds the GLFW sink. *)
Definition in_glfw_attempt (c : call) : bool :=
  match c with
  | New callee _ => String.eqb callee "fosphor.glfw_sink_c"
  | Invoke (OBlock fosphor_glfw_sink) _ _ => true
  | Invoke OTop _ [_; VBlock fosphor_glfw_sink] => true
  | _ => false
  end.

(** Did this event record that a call selected by [which] raised? *)
Definition raised_in (which : call -> bool) (ev : event) : bool :=
  match ev with
  | Called c (Some _) => which c
  | _ => false
  end.

(** The events before the first one that belongs to the standard
    visualization. *)
Fixpoint before_standard (evs : list event) : list event :=
  match evs with
  | [] => []
  | ev :: rest => if is_standard ev then [] else ev :: before_standard rest
  end.

(** What the trace shows between the failure of the Qt constructor with
    [e] and the call of the GLFW constructor. *)
Definition fallback_prefix (e : exn) : list event :=
  [ Print [Text (nl ++ "Setting up Fosphor visualization...")];
    Called qt_ctor (Some e);
    Print [Text ("Could not create Fosphor QT sink: " ++ exn_msg e)];
    PrintExc e;
    Print [Text "Trying Fosphor GLFW sink as fallback..."] ].



(** The second sentence of the claim about the fallback order, read
    literally: the standard visualization is attempted only when both
    fosphor constructors have raised. *)
Definition standard_only_after_both_constructors_raised (evs : list event) : Prop :=
  existsb is_standard evs = true ->
  existsb (ctor_raised "fosphor.qt_sink_c") evs = true /\
  existsb (ctor_raised "fosphor.glfw_sink_c") evs = true.


(** ** The import block in a trace *)

(** Did this event record that importing the name [name] raised? *)
Definition import_raised (name : string) (ev : event) : bool :=
  match ev with
  | Called (Import _ n) (Some _) => String.eqb n name
  | _ => false
  end.

(** The events after the first failed import of [name]. *)
Fixpoint after_failed_import (name : string) (evs : list event) : list event :=
  match evs with
  | [] => []
  | ev :: rest =>
      if import_raised name ev then rest else after_failed_import name rest
  end.

(** Output only: a printed line or a printed traceback. *)
Definition is_diagnostic (ev : event) : bool :=
  match ev with
  | Print _ | PrintExc _ => true
  | _ => false
  end.

Definition is_print (ev : event) : bool :=
  match ev with Print _ => true | _ => false end.

(** ** The shutdown in a trace *)

Definition stop_call : call := Invoke OTop "stop" [].
Definition wait_call : call := Invoke OTop "wait" [].

(** What an unfinished call of sig_handler has done so far, given the
    statements it has left. *)
Definition progress (f : list stmt) : list event :=
  match f with
  | [tb_wait; sys_exit_0] => [ok stop_call]
  | [sys_exit_0] => [ok stop_call; ok wait_call]
  | _ => []
  end.

(** The statements an unfinished call of sig_handler can have left. *)
Definition valid_frame (f : list stmt) : Prop :=
  f = sig_handler \/ f = [tb_wait; sys_exit_0] \/ f = [sys_exit_0].

Definition is_stop_or_wait (ev : event) : bool :=
  match ev with
  | Called (Invoke OTop m []) None => String.eqb m "stop" || String.eqb m "wait"
  | _ => false
  end.

(** What holds of every process reached from [running st0]. *)
Definition shutdown_inv (st0 : state) (p : process) : Prop :=
  match ended p with
  | Some c =>
      c = 0%Z ->
      exists pre,
        trace (pstate p) = (trace st0 ++ pre ++ [ok stop_call; ok wait_call; SysExit 0])%list /\
        forallb is_stop_or_wait pre = true
  | None =>
      Forall valid_frame (frames p) /\
      exists pre,
        trace (pstate p) = (trace st0 ++ pre ++ progress (hd sig_handler (frames p)))%list /\
        forallb is_stop_or_wait pre = true
  end.

(** The claim about repeated signals, read literally: in a run that ends
    with status 0, stop, wait and exit have each happened exactly once. *)
Definition shutdown_exactly_once (w : world) (st : state) (os : list occurrence)
  : Prop :=
  let p := occur_all w (running st) os in
  ended p = Some 0 ->
  count_top "stop" (skipn (length (trace st)) (trace (pstate p))) = 1%nat /\
  count_top "wait" (skipn (length (trace st)) (trace (pstate p))) = 1%nat /\
  length (filter is_exit (skipn (length (trace st)) (trace (pstate p)))) = 1%nat.

(** Ctrl+C is pressed a second time right after tb.stop() has returned. *)
Definition impatient : list occurrence :=
  [Signal SIGINT; Step; Signal SIGINT; Step; Step; Step].

(** The claim about a missing GPU capability, read literally: when the
    import of fosphor raises and the import of the osmosdr source does
    not, the import block returns with use_fosphor = False. *)
Definition gpu_failure_selects_standard (w : world) (st : state) : Prop :=
  let evs := events_of (import_modules w) st in
  existsb (import_raised "fosphor") evs = true ->
  existsb (import_raised "source") evs = false ->
  fst (import_modules w st) = Normal false.

(** ** Sample surroundings *)

(** No call ever raises. *)
Definition quiet : oracle := fun _ _ => None.

(** The call [c] raises [e], whenever it is made; nothing else raises. *)
Definition call_is_new (name : string) (c : call) : bool :=
  match c with New callee _ => String.eqb callee name | _ => false end.

Definition call_is_import (name : string) (c : call) : bool :=
  match c with Import _ n => String.eqb n name | _ => false end.

Definition call_is_method (b : block) (meth : string) (c : call) : bool :=
  match c with
  | Invoke (OBlock b') m _ => block_eqb b' b && String.eqb m meth
  | _ => false
  end.

Definition call_is_open (i : Z) (c : call) : bool :=
  match c with
  | New callee [VStr a] => String.eqb callee "source" && String.eqb a ("rtl=" ++ dec i)
  | _ => false
  end.

Definition failing (which : call -> bool) (e : exn) : oracle :=
  fun _ c => if which c then Some e else None.

(** The message of CPython 3.11 and later; up to 3.10 it reads
    "local variable 'qtgui' referenced before assignment". *)
Definition python_3_11_message : string :=
  "cannot access local variable 'qtgui' where it is not associated with a value".

Definition python_3_10_message : string :=
  "local variable 'qtgui' referenced before assignment".

Definition plain (o : oracle) : world :=
  mkWorld o false false false "" python_3_11_message.

Definition no_device : exn :=
  mkExn OtherError "Failed to open rtlsdr device #2.".

(** Two dongles are plugged in: index 2 is the first that is not there. *)
Definition two_devices : world := plain (failing (call_is_open 2) no_device).

(** gr-fosphor is not installed. *)
Definition no_fosphor : world :=
  plain (failing (call_is_import "fosphor")
           (mkExn ImportError "cannot import name 'fosphor' from 'gnuradio'")).

(** Neither gr-fosphor nor gr-qtgui is installed. *)
Definition no_visualization : world :=
  plain (fun _ c =>
           if call_is_import "fosphor" c || call_is_import "qtgui" c
           then Some (mkExn ImportError "cannot import name from 'gnuradio'")
           else None).

(** gr-osmosdr is not installed. *)
Definition no_osmosdr : world :=
  plain (failing (call_is_import "source")
           (mkExn ImportError "No module named 'osmosdr'")).

(** The Qt constructor raises; the GLFW sink is constructed, but
    configuring it raises. *)
Definition glfw_configure_fails : world :=
  plain (fun _ c =>
           if call_is_new "fosphor.qt_sink_c" c
           then Some (mkExn OtherError "no OpenGL context")
           else if call_is_method fosphor_glfw_sink "set_frequency_range" c
           then Some (mkExn OtherError "bad range")
           else None).

(** The Qt constructor raises; the GLFW sink works. *)
Definition qt_fails : world :=
  plain (failing (call_is_new "fosphor.qt_sink_c") (mkExn OtherError "no OpenGL context")).

(** No dongle is plugged in. *)
Definition no_dongle : world := plain (failing (call_is_open 0) no_device).

(** Both fosphor constructors raise. *)
Definition fosphor_fails : world :=
  plain (fun _ c =>
           if call_is_new "fosphor.qt_sink_c" c || call_is_new "fosphor.glfw_sink_c" c
           then Some (mkExn OtherError "no OpenGL context")
           else None).

(** ** Further readers of traces, and further surroundings *)

(** A call that returned, in a trace. *)
Definition returned (ev : event) : bool :=
  match ev with
  | Called _ None => true
  | _ => false
  end.

Definition detecting_line : event := Print [Text (nl ++ "Detecting RTL-SDR devices...")].

Definition no_devices_line : event := Print [Text "  No RTL-SDR devices found"].

(** A computation out of which no exception comes. *)
Definition never_raises {A} (m : M A) : Prop :=
  forall st e, fst (m st) <> Raised e.

(** An exception that comes out of [m] was raised by the last call [m]
    made, and this call is one of [U]. *)
Definition raises_from (U : call -> Prop) {A} (m : M A) : Prop :=
  forall st e,
    fst (m st) = Raised e ->
    exists evs c,
      trace (snd (m st)) = (trace st ++ evs ++ [Called c (Some e)])%list /\ U c.

(** The calls of __init__ that stand outside every try: the constructor
    of the base class, the Qt application, window and layout, and
    show(). *)
Definition unguarded (w : world) (c : call) : Prop :=
  c = Invoke OTop "__init__" [VStr title] \/
  In c (window_calls w) \/
  c = Invoke (OWidget main_window) "show" [].

(** Did connect(self.rtlsdr_source, b) return? *)
Definition is_connected (b : block) (ev : event) : bool :=
  match ev with
  | Called (Invoke OTop m [VBlock src; VBlock b']) None =>
      String.eqb m "connect" && block_eqb src rtlsdr_source && block_eqb b' b
  | _ => false
  end.

(** There is no display: the main window cannot be created. *)
Definition no_display : world :=
  plain (failing (call_is_new "QtWidgets.QWidget")
           (mkExn OtherError "could not connect to display")).

(** The driver has get_tuner_type, but the query fails. *)
Definition tuner_query_fails : world :=
  mkWorld (failing (call_is_method rtlsdr_source "get_tuner_type")
             (mkExn OtherError "tuner not ready"))
    false false true "" python_3_11_message.

(** A module named qtgui was imported at top level by something else;
    the interpreter is CPython 3.10. *)
Definition stray_qtgui : world :=
  mkWorld quiet false true false "" python_3_10_message.

(** signal.signal(signal.SIGINT, sig_handler) and the same for SIGTERM *)
Definition signal_registrations : list call :=
  [New "signal.signal" [VName "signal.SIGINT"; VName "sig_handler"];
   New "signal.signal" [VName "signal.SIGTERM"; VName "sig_handler"]].

(** What main prints before it starts the flowgraph. *)
Definition start_banner (use_fosphor : bool) (a : args) : list event :=
  [Print [Text (nl ++ "Starting RTL-SDR" ++ (if use_fosphor then " Fosphor" else "")
                  ++ " Spectrum Analyzer with:")];
   Print [Text ("  Device Index: " ++ dec (arg_device a))];
   Print [Text "  Center Frequency: "; Fixed3 (arg_freq a / 1e6)%float; Text " MHz"];
   Print [Text "  Sample Rate: "; Fixed3 (arg_samp_rate a / 1e6)%float; Text " MHz"];
   Print [Text "  Gain: "; Show (arg_gain a); Text " dB"];
   Print [Text "Press Ctrl+C to exit"]].

Definition start_call : call := Invoke OTop "start" [].

(** The imports every run needs (lines 48 to 54), in order. *)
Definition required_imports : list call :=
  [Import "gnuradio" "gr";
   Import "gnuradio" "blocks";
   Import "gnuradio.filter" "firdes";
   Import "gnuradio.fft" "window";
   Import "PyQt5" "QtGui, QtCore, QtWidgets";
   Import "" "sip";
   Import "" "numpy"].

Definition required_names : list string :=
  ["gr"; "blocks"; "firdes"; "window"; "QtGui, QtCore, QtWidgets"; "sip"; "numpy"].

(** Was the line [s] printed? *)
Definition printed (s : string) (ev : event) : bool :=
  match ev with
  | Print [Text t] => String.eqb t s
  | _ => false
  end.

(** The Qt sink cannot be constructed; the GLFW sink is constructed and
    configured, but connecting it raises. *)
Definition glfw_connect_fails : world :=
  plain (fun _ c =>
           if call_is_new "fosphor.qt_sink_c" c
           then Some (mkExn OtherError "no OpenGL context")
           else match c with
                | Invoke OTop m [_; VBlock fosphor_glfw_sink] =>
                    if String.eqb m "connect"
                    then Some (mkExn OtherError "port mismatch")
                    else None
                | _ => None
                end).

(** A shutdown that failed: tb.stop() or tb.wait() raised, nothing
    caught the exception, and the interpreter printed the traceback. *)
Definition shutdown_failed (st0 : state) (p : process) : Prop :=
  exists pre c e,
    (c = stop_call \/ c = wait_call) /\
    trace (pstate p) = (trace st0 ++ pre ++ [Called c (Some e); PrintExc e])%list.

(** How a process reached from [running st0] can have ended. *)
Definition exit_inv (st0 : state) (p : process) : Prop :=
  (exists pre, trace (pstate p) = (trace st0 ++ pre)%list) /\
  forall c, ended p = Some c -> c = 0 \/ (c = 1 /\ shutdown_failed st0 p).

(** What holds of a process reached from [running st0] that lives:
    every unfinished call of the handler has statements left, and main
    is inside the event loop when no call of the handler is running. *)
Definition alive_inv (p : process) : Prop :=
  ended p = None ->
  Forall valid_frame (frames p) /\ (frames p = [] -> in_exec p = true).

(** tb.stop() raises: the flowgraph is not running. *)
Definition stop_fails : world :=
  plain (failing (fun c => match c with
                           | Invoke OTop m _ => String.eqb m "stop"
                           | _ => false
                           end)
           (mkExn OtherError "flowgraph is not running")).

(** ** The enumeration in full *)

(** Does this result of opening a device end the enumeration? *)
Definition stops (o : option exn) : bool :=
  match o with
  | Some e => contains not_found_signature (exn_msg e)
  | None => false
  end.

(** What one round of the loop of detect_rtlsdr_devices leaves in the
    trace, for the index [i] and the result [o] of the call that opens
    the device. *)
Definition probe_events (i : Z) (o : option exn) : list event :=
  Called (New "source" [VStr ("rtl=" ++ dec i)]) o ::
  match o with
  | None => [Print [Text ("  Found device #" ++ dec i ++ ": " ++ "RTL-SDR #" ++ dec i)]]
  | Some e =>
      if contains not_found_signature (exn_msg e)
      then (if i =? 0 then [Print [Text "  No RTL-SDR devices found"]] else [])
      else [Print [Text ("  Error checking device #" ++ dec i ++ ": " ++ exn_msg e)]]
  end.

(** The rounds of the loop for the indices [idxs], given the results of
    the probes made. *)
Fixpoint enumeration (idxs : list Z) (outs : list (option exn)) : list event :=
  match idxs, outs with
  | i :: idxs', o :: outs' => (probe_events i o ++ enumeration idxs' outs')%list
  | _, _ => []
  end.

(** The indices whose device opened. *)
Fixpoint opened (idxs : list Z) (outs : list (option exn)) : list Z :=
  match idxs, outs with
  | i :: idxs', None :: outs' => i :: opened idxs' outs'
  | _ :: idxs', Some _ :: outs' => opened idxs' outs'
  | _, _ => []
  end.

(** The results one run of the loop over [n] indices can meet: a result
    that stops the loop is the last one, and the results end before the
    indices do only with such a result. *)
Fixpoint loop_results (n : nat) (outs : list (option exn)) : bool :=
  match outs, n with
  | [], O => true
  | [], S _ => false
  | _ :: _, O => false
  | o :: outs', S n' =>
      if stops o then match outs' with [] => true | _ :: _ => false end
      else loop_results n' outs'
  end.

(** The claim about --detect, read literally: whatever surrounds the
    program, a command line with --detect ends it with status 0. *)
Definition detect_always_exits_0 (w : world) (st : state) : Prop :=
  forall a, arg_detect a = true -> fst (program w (Namespace a) st) = Exited 0.

(** ** The standard visualization in a trace, call by call *)

(** Does the event touch one of the two qtgui sinks: the call of one of
    their constructors or of one of their methods? *)
Definition touches_sinks (ev : event) : bool :=
  match ev with
  | Called (New callee _) _ =>
      String.eqb callee "qtgui.freq_sink_c" || String.eqb callee "qtgui.waterfall_sink_c"
  | Called (Invoke (OBlock b) _ _) _ =>
      block_eqb b qtgui_freq_sink || block_eqb b qtgui_waterfall_sink
  | _ => false
  end.

(** How the two qtgui sinks are constructed and configured, for the
    center frequency [cf] and the sample rate [sr]: a call of one of the
    two constructors, or of one of the configuring methods, carries
    these arguments. *)
Definition standard_call_conforms (cf sr : float) (c : call) : Prop :=
  match c with
  | New callee args =>
      (callee = "qtgui.freq_sink_c" ->
       args = [VInt 2048; VName "window.WIN_BLACKMAN_hARRIS"; VFloat cf; VFloat sr;
               VStr "RTL-SDR Spectrum"; VInt 1]) /\
      (callee = "qtgui.waterfall_sink_c" ->
       args = [VInt 2048; VName "window.WIN_BLACKMAN_hARRIS"; VFloat cf; VFloat sr;
               VStr "RTL-SDR Waterfall"; VInt 1])
  | Invoke (OBlock qtgui_freq_sink) m args =>
      (m = "set_update_time" -> args = [VFloat 0.05]) /\
      (m = "set_y_axis" -> args = [VInt (-140); VInt 10]) /\
      (m = "enable_grid" -> args = [VBool true]) /\
      (m = "enable_axis_labels" -> args = [VBool true]) /\
      (m = "set_fft_average" -> args = [VFloat 0.2])
  | Invoke (OBlock qtgui_waterfall_sink) m args =>
      (m = "set_update_time" -> args = [VFloat 0.05]) /\
      (m = "set_intensity_range" -> args = [VInt (-140); VInt 10]) /\
      (m = "enable_grid" -> args = [VBool true]) /\
      (m = "enable_axis_labels" -> args = [VBool true]) /\
      m <> "set_fft_average"
  | _ => True
  end.

(** The two qtgui sinks constructed and configured completely, each call
    made once. *)
Definition standard_configuration (cf sr : float) (evs : list event) : Prop :=
  news "qtgui.freq_sink_c" evs
  = [[VInt 2048; VName "window.WIN_BLACKMAN_hARRIS"; VFloat cf; VFloat sr;
      VStr "RTL-SDR Spectrum"; VInt 1]] /\
  news "qtgui.waterfall_sink_c" evs
  = [[VInt 2048; VName "window.WIN_BLACKMAN_hARRIS"; VFloat cf; VFloat sr;
      VStr "RTL-SDR Waterfall"; VInt 1]] /\
  invocations qtgui_freq_sink "set_update_time" evs = [[VFloat 0.05]] /\
  invocations qtgui_waterfall_sink "set_update_time" evs = [[VFloat 0.05]] /\
  invocations qtgui_freq_sink "set_y_axis" evs = [[VInt (-140); VInt 10]] /\
  invocations qtgui_waterfall_sink "set_intensity_range" evs
  = [[VInt (-140); VInt 10]] /\
  invocations qtgui_freq_sink "enable_grid" evs = [[VBool true]] /\
  invocations qtgui_waterfall_sink "enable_grid" evs = [[VBool true]] /\
  invocations qtgui_freq_sink "enable_axis_labels" evs = [[VBool true]] /\
  invocations qtgui_waterfall_sink "enable_axis_labels" evs = [[VBool true]] /\
  invocations qtgui_freq_sink "set_fft_average" evs = [[VFloat 0.2]] /\
  invocations qtgui_waterfall_sink "set_fft_average" evs = [].

(** self.center_freq and self.samp_rate hold [cf] and [sr]. *)
Definition configured (cf sr : float) (st : state) : Prop :=
  center_freq st = cf /\ samp_rate st = sr.

(** Run from a state configured with [cf] and [sr], the computation
    makes only calls that conform to them, and leaves the configuration
    as it is. *)
Definition conforming (cf sr : float) {A} (m : M A) : Prop :=
  forall st,
    configured cf sr st ->
    exists evs,
      trace (snd (m st)) = (trace st ++ evs)%list /\
      Forall (standard_call_conforms cf sr) (calls evs) /\
      configured cf sr (snd (m st)).


Definition standard_path_constructs_both_sinks (w : world) (st : state) : Prop :=
  forall use_fosphor cf sr g d,
    let evs := events_of (RtlsdrFosphor w use_fosphor cf sr g d) st in
    existsb is_banner evs = true ->
    length (filter is_standard_ctor (filter returned evs)) = 2%nat.

(** The frequency sink cannot be constructed. *)
Definition freq_sink_fails : world :=
  plain (failing (call_is_new "qtgui.freq_sink_c")
           (mkExn OtherError "could not load the Qt platform plugin")).

(** * Properties *)

Open Scope list_scope.

(** ** The trace only grows *)

Lemma trace_log ev st : trace (log ev st) = trace st ++ [ev].
Proof. reflexivity. Qed.

Lemma skipn_app_exact {A} (l r : list A) : skipn (length l) (l ++ r) = r.
Proof. induction l; simpl; auto. Qed.

Lemma events_of_eq {A} (m : M A) st evs :
  trace (snd (m st)) = trace st ++ evs -> events_of m st = evs.
Proof. unfold events_of. intros ->. apply skipn_app_exact. Qed.

Lemma only_events {A} P (m : M A) st : only P m -> Forall P (events_of m st).
Proof.
  intros H. destruct (H st) as (evs & E & F).
  rewrite (events_of_eq _ _ _ E). exact F.
Qed.

Section Only.

Variable P : event -> Prop.

Lemma only_ret {A} (a : A) : only P (ret a).
Proof. intros st. exists []. simpl. rewrite app_nil_r. auto. Qed.

Lemma only_get : only P get.
Proof. intros st. exists []. simpl. rewrite app_nil_r. auto. Qed.

Lemma only_raise {A} e : only P (@raise A e).
Proof. intros st. exists []. simpl. rewrite app_nil_r. auto. Qed.

Lemma only_modify f : (forall st, trace (f st) = trace st) -> only P (modify f).
Proof. intros H st. exists []. simpl. rewrite H, app_nil_r. auto. Qed.

Lemma only_print line : P (Print line) -> only P (print line).
Proof. intros H st. exists [Print line]. simpl. auto. Qed.

Lemma only_print_exc e : P (PrintExc e) -> only P (print_exc e).
Proof. intros H st. exists [PrintExc e]. simpl. auto. Qed.

Lemma only_sys_exit {A} c : P (SysExit c) -> only P (@sys_exit A c).
Proof. intros H st. exists [SysExit c]. simpl. auto. Qed.

Lemma only_do w c : (forall o, P (Called c o)) -> only P (do w c).
Proof.
  intros H st. unfold do.
  destruct (raises w (trace st) c) as [e|].
  - exists [Called c (Some e)]. simpl. auto.
  - exists [Called c None]. simpl. auto.
Qed.

Lemma only_bind {A B} (m : M A) (k : A -> M B) :
  only P m -> (forall a, only P (k a)) -> only P (bind m k).
Proof.
  intros Hm Hk st. unfold bind.
  destruct (Hm st) as (evs & E & F).
  destruct (m st) as [[a|e|c] st1]; simpl in *.
  - destruct (Hk a st1) as (evs' & E' & F').
    exists (evs ++ evs'). rewrite E', E, app_assoc. split; auto.
    apply Forall_app; auto.
  - exists evs; auto.
  - exists evs; auto.
Qed.

Lemma only_try {A} (body : M A) (h : exn -> M A) :
  only P body -> (forall e, only P (h e)) -> only P (try_except body h).
Proof.
  intros Hm Hk st. unfold try_except.
  destruct (Hm st) as (evs & E & F).
  destruct (body st) as [[a|e|c] st1]; simpl in *.
  - exists evs; auto.
  - destruct (Hk e st1) as (evs' & E' & F').
    exists (evs ++ evs'). rewrite E', E, app_assoc. split; auto.
    apply Forall_app; auto.
  - exists evs; auto.
Qed.

End Only.

(** Syntax-directed proof that a computation emits only events in [P];
    what remains are the conditions on single events. *)
Ltac only_step :=
  first
    [ apply only_bind; [| intro]
    | apply only_try; [| intro]
    | apply only_ret
    | apply only_get
    | apply only_raise
    | apply only_modify; [intro; reflexivity]
    | apply only_print
    | apply only_print_exc
    | apply only_sys_exit
    | apply only_do; intro
    | match goal with
      | |- only _ (if ?b then _ else _) => destruct b
      | |- only _ (match ?x with _ => _ end) => destruct x
      end ].

Ltac only_auto := repeat only_step.

(** ** Text *)

Lemma substring_all s : substring 0 (String.length s) s = s.
Proof. induction s; simpl; congruence. Qed.

Lemma read_dec i : NilZero.int_of_string (dec i) = Some (Z.to_int i).
Proof.
  unfold dec. apply NilZero.isi; destruct i; simpl; try discriminate;
    intros H; injection H; apply DecimalPos.Unsigned.to_uint_nonnil.
Qed.

Lemma dec_inj i j : dec i = dec j -> i = j.
Proof.
  intros H. pose proof (read_dec i) as Hi. rewrite H, read_dec in Hi.
  injection Hi as Hi. rewrite <- (DecimalZ.of_to i), <- (DecimalZ.of_to j).
  congruence.
Qed.

Lemma parse_index_rtl i : parse_index ("rtl=" ++ dec i)%string = Some i.
Proof.
  unfold parse_index. simpl.
  rewrite Nat.sub_0_r, substring_all, read_dec.
  unfold option_map. rewrite DecimalZ.of_to.
  destruct (dec i); reflexivity.
Qed.

Lemma open_source_inj i j : open_source i = open_source j -> i = j.
Proof.
  unfold open_source. intros H. injection H as H.
  apply dec_inj. exact H.
Qed.

(** ** Traces *)

Lemma calls_app a b : calls (a ++ b) = calls a ++ calls b.
Proof.
  induction a as [|ev a IH]; simpl; [reflexivity|].
  destruct ev; simpl; rewrite ?IH; reflexivity.
Qed.

Lemma range_S n : range (S n) = range n ++ [Z.of_nat n].
Proof. unfold range. rewrite seq_S, map_app. reflexivity. Qed.

Lemma In_range i n : In i (range n) <-> exists j, (j < n)%nat /\ i = Z.of_nat j.
Proof.
  unfold range. rewrite in_map_iff. split.
  - intros (j & <- & Hj). apply in_seq in Hj. exists j. split; [lia|reflexivity].
  - intros (j & Hj & ->). exists j. split; [reflexivity|]. apply in_seq. lia.
Qed.

(** ** The enumeration loop *)

Section Enumeration.

Variable w : world.

Lemma probe_found i devices st :
  raises w (trace st) (open_source i) = None ->
  probe w i devices st =
  (Normal (Next, devices ++ [found i]),
   log (Print [Text ("  Found device #" ++ dec i ++ ": " ++ snd (found i))%string])
     (log (Called (open_source i) None) st)).
Proof. intros H. unfold probe, try_except, bind, do. rewrite H. reflexivity. Qed.

Lemma probe_not_found i devices st e :
  raises w (trace st) (open_source i) = Some e ->
  contains not_found_signature (exn_msg e) = true ->
  exists st',
    probe w i devices st = (Normal (Break, devices), st') /\
    calls (trace st') = calls (trace st) ++ [open_source i].
Proof.
  intros H C. unfold probe, try_except, bind, do. rewrite H, C.
  destruct (i =? 0); simpl; eexists; (split; [reflexivity|]);
    simpl; rewrite !calls_app; simpl; rewrite ?app_nil_r; reflexivity.
Qed.

Lemma probe_other i devices st e :
  raises w (trace st) (open_source i) = Some e ->
  contains not_found_signature (exn_msg e) = false ->
  probe w i devices st =
  (Normal (Next, devices),
   log (Print [Text ("  Error checking device #" ++ dec i ++ ": " ++ exn_msg e)%string])
     (log (Called (open_source i) (Some e)) st)).
Proof. intros H C. unfold probe, try_except, bind, do. rewrite H, C. reflexivity. Qed.

(** Indices that all open are recorded in order, and the loop goes on. *)
Lemma probe_all_found l1 : forall l2 devices st,
  (forall h i, In i l1 -> raises w h (open_source i) = None) ->
  exists st',
    probe_all w (l1 ++ l2) devices st = probe_all w l2 (devices ++ map found l1) st' /\
    calls (trace st') = calls (trace st) ++ map open_source l1.
Proof.
  induction l1 as [|i l1 IH]; intros l2 devices st H.
  - exists st. simpl. rewrite !app_nil_r. auto.
  - cbn [app probe_all map]. unfold bind at 1.
    rewrite probe_found by (apply H; simpl; auto). cbn [fst snd].
    destruct (IH l2 (devices ++ [found i])
                (log (Print [Text ("  Found device #" ++ dec i ++ ": " ++ snd (found i))%string])
                   (log (Called (open_source i) None) st))) as (st' & E & C).
    { intros h j Hj. apply H. simpl. auto. }
    exists st'. rewrite E, <- app_assoc. split; [reflexivity|].
    rewrite C, !trace_log, !calls_app. simpl. rewrite app_nil_r, <- app_assoc.
    reflexivity.
Qed.

End Enumeration.

(** ** What the enumeration can emit *)

Section EnumerationEvents.

Variable w : world.
Variable P : event -> Prop.
Hypothesis P_print : forall line, P (Print line).
Hypothesis P_open : forall i o, P (Called (open_source i) o).

Lemma only_probe i devices : only P (probe w i devices).
Proof. unfold probe. only_auto; auto. Qed.

Lemma only_probe_all idxs : forall devices, only P (probe_all w idxs devices).
Proof.
  induction idxs as [|i idxs IH]; intros devices; simpl.
  - apply only_ret.
  - apply only_bind; [apply only_probe|].
    intros [[|] d]; simpl; [apply IH | apply only_ret].
Qed.

Lemma only_detect : only P (detect_rtlsdr_devices w).
Proof.
  unfold detect_rtlsdr_devices.
  apply only_bind; [apply only_print, P_print | intro; apply only_probe_all].
Qed.

End EnumerationEvents.

(** The loop never raises and never exits: it always returns its list. *)
Lemma probe_all_returns w idxs : forall devices st,
  exists l, fst (probe_all w idxs devices st) = Normal l.
Proof.
  induction idxs as [|i idxs IH]; intros devices st; simpl.
  - eexists; reflexivity.
  - unfold bind at 1, probe, try_except, bind, do.
    destruct (raises w (trace st) (open_source i)) as [e|]; simpl.
    + destruct (contains not_found_signature (exn_msg e)); simpl.
      * destruct (i =? 0); simpl; eexists; reflexivity.
      * apply IH.
    + apply IH.
Qed.

Lemma detect_returns w st : exists l, fst (detect_rtlsdr_devices w st) = Normal l.
Proof. unfold detect_rtlsdr_devices, bind, print, modify. apply probe_all_returns. Qed.

(** C3. When the devices at the indices below [k] open and index [k]
    (k within the probe bound of 10) fails with the "device not found"
    signature, detect_rtlsdr_devices returns the entries of the indices
    0 .. k-1 in order, it has probed exactly the indices 0 .. k, and
    index k+1 was not probed.  A failure with any other signature is
    printed and the loop goes on with the following index. *)
Theorem detect_stops_at_not_found :
  (forall (w : world) (k : nat) (e : exn) (st : state),
      (k < 10)%nat ->
      (forall h i, (i < k)%nat -> raises w h (open_source (Z.of_nat i)) = None) ->
      (forall h, raises w h (open_source (Z.of_nat k)) = Some e) ->
      contains not_found_signature (exn_msg e) = true ->
      fst (detect_rtlsdr_devices w st) = Normal (map found (range k)) /\
      map fst (map found (range k)) = range k /\
      calls (events_of (detect_rtlsdr_devices w) st) = map open_source (range (S k)) /\
      ~ In (open_source (Z.of_nat (S k)))
           (calls (events_of (detect_rtlsdr_devices w) st)))
  /\
  (forall (w : world) (i : Z) (rest : list Z) devices (st : state) (e : exn),
      raises w (trace st) (open_source i) = Some e ->
      contains not_found_signature (exn_msg e) = false ->
      probe_all w (i :: rest) devices st =
      probe_all w rest devices
        (log (Print [Text ("  Error checking device #" ++ dec i ++ ": " ++ exn_msg e)%string])
           (log (Called (open_source i) (Some e)) st))).
Proof.
  split.
  - intros w k e st Hk Hok Hfail Hsig.
    assert (Hsplit : exists tl, range 10 = range k ++ Z.of_nat k :: tl).
    { exists (map Z.of_nat (seq (S k) (10 - S k))). unfold range.
      replace 10%nat with (k + S (10 - S k))%nat at 1 by lia.
      rewrite seq_app, map_app. reflexivity. }
    destruct Hsplit as (tl & Hsplit).
    set (st1 := log (Print [Text (nl ++ "Detecting RTL-SDR devices...")%string]) st).
    assert (Hrun : detect_rtlsdr_devices w st = probe_all w (range 10) [] st1)
      by reflexivity.
    destruct (probe_all_found w (range k) (Z.of_nat k :: tl) [] st1) as (st2 & E2 & C2).
    { intros h i Hi. apply In_range in Hi. destruct Hi as (j & Hj & ->). auto. }
    destruct (probe_not_found w (Z.of_nat k) (map found (range k)) st2 e
                (Hfail _) Hsig) as (st3 & E3 & C3).
    assert (Hres : detect_rtlsdr_devices w st = (Normal (map found (range k)), st3)).
    { rewrite Hrun, Hsplit, E2. cbn [probe_all app]. unfold bind at 1.
      rewrite E3. reflexivity. }
    assert (Hcalls : calls (events_of (detect_rtlsdr_devices w) st)
                     = map open_source (range (S k))).
    { destruct (only_detect w (fun _ => True) (fun _ => I) (fun _ _ => I) st)
        as (evs & Eevs & _).
      rewrite (events_of_eq _ _ _ Eevs).
      rewrite Hres in Eevs. cbn [snd] in Eevs.
      apply (f_equal calls) in Eevs. rewrite calls_app, C3, C2 in Eevs.
      unfold st1 in Eevs. rewrite trace_log, calls_app in Eevs. simpl in Eevs.
      rewrite app_nil_r, <- app_assoc in Eevs. apply app_inv_head in Eevs.
      rewrite <- Eevs, range_S, map_app. reflexivity. }
    repeat split.
    + rewrite Hres. reflexivity.
    + rewrite map_map. simpl. apply map_id.
    + exact Hcalls.
    + rewrite Hcalls. intros Hin. apply in_map_iff in Hin.
      destruct Hin as (j & Hj & Hin). apply open_source_inj in Hj. subst j.
      apply In_range in Hin. destruct Hin as (j & Hlt & Heq). lia.
  - intros w i rest devices st e H C. cbn [probe_all]. unfold bind at 1.
    rewrite (probe_other w i devices st e H C). reflexivity.
Qed.

(** With two devices plugged in, the enumeration returns the indices 0
    and 1 and stops at index 2. *)
Lemma detect_stops_at_not_found_witness :
  fst (detect_rtlsdr_devices two_devices initial_state) = Normal (map found (range 2)) /\
  map fst (map found (range 2)) = range 2 /\
  calls (events_of (detect_rtlsdr_devices two_devices) initial_state)
  = map open_source (range 3) /\
  ~ In (open_source 3) (calls (events_of (detect_rtlsdr_devices two_devices) initial_state)).
Proof.
  apply (proj1 detect_stops_at_not_found two_devices 2%nat no_device initial_state).
  - lia.
  - intros h i Hi. destruct i as [|[|i]]; [reflexivity | reflexivity | lia].
  - intros h. reflexivity.
  - reflexivity.
Defined.

(** ** main with --detect *)

Lemma print_devices_trace devices : forall st,
  print_devices devices st =
  (Normal tt,
   mkState (trace st ++ map device_line devices) (samp_rate st) (center_freq st)
     (gain st) (device_index st) (fosphor_sink st) (layout st) (edges st)).
Proof.
  induction devices as [|[idx name] devices IH]; intros st; simpl.
  - rewrite app_nil_r. destruct st; reflexivity.
  - unfold bind at 1, print, modify. rewrite IH. simpl.
    rewrite <- app_assoc. reflexivity.
Qed.

(** The --detect branch always ends the process with status 0. *)
Lemma detect_and_exit_run w st :
  exists devices st',
    fst (detect_rtlsdr_devices w st) = Normal devices /\
    detect_and_exit w st = (Exited 0, st') /\
    trace st' = trace (snd (detect_rtlsdr_devices w st)) ++ report devices ++ [SysExit 0].
Proof.
  destruct (detect_returns w st) as (devices & Hret).
  exists devices. unfold detect_and_exit. unfold bind at 1.
  destruct (detect_rtlsdr_devices w st) as [o st1]. simpl in Hret. subst o.
  cbn [snd]. destruct devices as [|d devices].
  - eexists. split; [reflexivity|]. split; [reflexivity|]. reflexivity.
  - unfold bind at 1. unfold bind at 1. unfold print at 1, modify.
    unfold bind at 1. rewrite print_devices_trace.
    unfold bind, print, modify, sys_exit.
    eexists. split; [reflexivity|]. split; [reflexivity|].
    cbn [trace log report]. rewrite <- ?app_assoc.
    f_equal. cbn [app]. rewrite <- app_assoc. reflexivity.
Qed.

Lemma count_top_none meth l :
  Forall (fun ev => is_top ev = false) l -> count_top meth l = 0%nat.
Proof.
  unfold count_top. induction 1 as [|ev l Hev _ IH]; simpl; [reflexivity|].
  destruct ev as [line|e|c o|code]; simpl; try exact IH.
  destruct c as [md nm|callee args|recv m args]; simpl; try exact IH.
  destruct recv; simpl; try exact IH. discriminate Hev.
Qed.

(** ** Running the script symbolically *)

(** Unfold the monad and split on what the oracle answers, call by call.
    The state must be a constructor application, so that every update
    reduces on the spot. *)
Ltac unfold_in H :=
  cbv beta iota delta
    [bind do try_except ret print modify get sys_exit raise print_exc
     import_ connect wrapinstance addWidget set_frequency_range
     log set_config set_fosphor_sink add_widget add_edge
     trace samp_rate center_freq gain device_index fosphor_sink
     layout edges] in H.

Ltac run_in H :=
  unfold_in H;
  repeat (match type of H with
          | context [raises ?w ?h ?c] => destruct (raises w h c)
          | context [if qapp_exists ?w then _ else _] => destruct (qapp_exists w)
          | context [if has_get_tuner_type ?w then _ else _] =>
              destruct (has_get_tuner_type w)
          | context [if qtgui_in_sys_modules ?w then _ else _] =>
              destruct (qtgui_in_sys_modules w) eqn:?
          end;
          unfold_in H).

(** From [(o, st1) = (o', st2)] to the equation between the states. *)
Ltac final_state H st' :=
  apply (f_equal snd) in H; cbv beta iota delta [snd] in H; subst st'.

Lemma bind_normal_inv {A B} (m : M A) (k : A -> M B) st b st' :
  bind m k st = (Normal b, st') ->
  exists a st1, m st = (Normal a, st1) /\ k a st1 = (Normal b, st').
Proof.
  unfold bind. destruct (m st) as [[a|e|c] st1]; intros H; try discriminate.
  exists a, st1. auto.
Qed.

Section Construction.

Variable w : world.

Lemma create_window_normal st st' :
  create_window w st = (Normal tt, st') ->
  st' = mkState (trace st ++ map ok (window_calls w)) (samp_rate st) (center_freq st)
          (gain st) (device_index st) (fosphor_sink st) (layout st) (edges st).
Proof.
  destruct st as [tr sr cf g d fs lay ed].
  intros H. unfold create_window in H. unfold window_calls.
  run_in H; try discriminate H; final_state H st';
    rewrite <- ?app_assoc; reflexivity.
Qed.

Lemma create_source_normal st st' :
  create_source w st = (Normal tt, st') ->
  exists extra,
    tuner_query w extra /\
    st' = mkState
            (trace st
             ++ Print [Text (nl ++ "Creating RTL-SDR source with device #"
                               ++ dec (device_index st) ++ "...")%string]
             :: map ok (source_calls st)
             ++ Print [Text ("Using RTL-SDR device #" ++ dec (device_index st))%string]
             :: extra)
            (samp_rate st) (center_freq st) (gain st) (device_index st)
            (fosphor_sink st) (layout st) (edges st).
Proof.
  destruct st as [tr sr cf g d fs lay ed].
  intros H. unfold create_source in H.
  run_in H; try discriminate H; final_state H st'.
  - eexists. split; [right; right; eexists; reflexivity|].
    rewrite <- ?app_assoc; reflexivity.
  - eexists. split; [right; left; reflexivity|].
    rewrite <- ?app_assoc; reflexivity.
  - exists []. split; [left; reflexivity|].
    rewrite <- ?app_assoc; reflexivity.
Qed.

Lemma setup_standard_visualization_normal st st' :
  setup_standard_visualization w st = (Normal tt, st') ->
  qtgui_in_sys_modules w = false /\
  st' = mkState
          (trace st ++ standard_banner :: map ok (standard_calls st)
           ++ [Print [Text "Standard visualization setup complete"]])
          (samp_rate st) (center_freq st) (gain st) (device_index st)
          (fosphor_sink st)
          (layout st ++ [qtgui_freq_sink_win; qtgui_waterfall_sink_win])
          (edges st ++ [(rtlsdr_source, qtgui_freq_sink);
                        (rtlsdr_source, qtgui_waterfall_sink)]).
Proof.
  destruct st as [tr sr cf g d fs lay ed].
  intros H. unfold setup_standard_visualization in H.
  run_in H; try discriminate H; final_state H st'.
  split; [reflexivity|].
  rewrite <- ?app_assoc; reflexivity.
Qed.


End Construction.

(** ** Exit statuses *)

Section Exits.

Lemma exits_1_ret {A} (a : A) : exits_1 (ret a).
Proof. intros st c H. discriminate H. Qed.

Lemma exits_1_get : exits_1 get.
Proof. intros st c H. discriminate H. Qed.

Lemma exits_1_modify f : exits_1 (modify f).
Proof. intros st c H. discriminate H. Qed.

Lemma exits_1_print line : exits_1 (print line).
Proof. intros st c H. discriminate H. Qed.

Lemma exits_1_print_exc e : exits_1 (print_exc e).
Proof. intros st c H. discriminate H. Qed.

Lemma exits_1_raise {A} e : exits_1 (@raise A e).
Proof. intros st c H. discriminate H. Qed.

Lemma exits_1_do w c : exits_1 (do w c).
Proof.
  intros st c' H. unfold do in H.
  destruct (raises w (trace st) c); discriminate H.
Qed.

Lemma exits_1_sys_exit {A} : exits_1 (@sys_exit A 1).
Proof. intros st c H. injection H as <-. reflexivity. Qed.

Lemma exits_1_bind {A B} (m : M A) (k : A -> M B) :
  exits_1 m -> (forall a, exits_1 (k a)) -> exits_1 (bind m k).
Proof.
  intros Hm Hk st c. unfold bind. specialize (Hm st).
  destruct (m st) as [[a|e|c'] st1]; simpl in *.
  - apply Hk.
  - discriminate.
  - intros H. injection H as <-. apply Hm. reflexivity.
Qed.

Lemma exits_1_try {A} (body : M A) (h : exn -> M A) :
  exits_1 body -> (forall e, exits_1 (h e)) -> exits_1 (try_except body h).
Proof.
  intros Hm Hk st c. unfold try_except. specialize (Hm st).
  destruct (body st) as [[a|e|c'] st1]; simpl in *.
  - discriminate.
  - apply Hk.
  - intros H. injection H as <-. apply Hm. reflexivity.
Qed.

End Exits.

Ltac exits_step :=
  first
    [ apply exits_1_bind; [| intro]
    | apply exits_1_try; [| intro]
    | apply exits_1_ret
    | apply exits_1_get
    | apply exits_1_raise
    | apply exits_1_modify
    | apply exits_1_print
    | apply exits_1_print_exc
    | apply exits_1_sys_exit
    | apply exits_1_do
    | match goal with
      | |- exits_1 (if ?b then _ else _) => destruct b
      | |- exits_1 (match ?x with _ => _ end) => destruct x
      end ].

Ltac exits_auto := repeat exits_step.

Lemma exits_1_RtlsdrFosphor w uf cf sr g d :
  exits_1 (RtlsdrFosphor w uf cf sr g d).
Proof. unfold RtlsdrFosphor. exits_auto. Qed.

Lemma exits_1_status {A} (m : M A) st :
  exits_1 m -> (forall a, fst (m st) <> Normal a) -> exit_status (fst (m st)) = 1%Z.
Proof.
  intros Hm Hn. specialize (Hm st).
  destruct (fst (m st)) as [a|e|c]; simpl.
  - exfalso. apply (Hn a). reflexivity.
  - reflexivity.
  - apply Hm. reflexivity.
Qed.


(** ** Without the GPU capability *)





(** ** The configuration of the source *)

Lemma news_app name a b : news name (a ++ b) = news name a ++ news name b.
Proof.
  induction a as [|ev a IH]; simpl; [reflexivity|].
  destruct ev as [line|e|c o|code]; simpl; try exact IH.
  destruct c as [md nm|callee args|recv m args]; simpl; try exact IH.
  destruct (String.eqb callee name); simpl; rewrite IH; reflexivity.
Qed.

Lemma invocations_app b meth a1 a2 :
  invocations b meth (a1 ++ a2) = invocations b meth a1 ++ invocations b meth a2.
Proof.
  induction a1 as [|ev a1 IH]; simpl; [reflexivity|].
  destruct ev as [line|e|c o|code]; simpl; try exact IH.
  destruct c as [md nm|callee args|recv m args]; simpl; try exact IH.
  destruct recv as [b'| | | |]; simpl; try exact IH.
  destruct (block_eqb b' b && String.eqb m meth); simpl; rewrite IH; reflexivity.
Qed.

Lemma untouched_news l :
  Forall (fun ev => touches_source ev = false) l -> news "source" l = [].
Proof.
  induction 1 as [|ev l Hev _ IH]; simpl; [reflexivity|].
  destruct ev as [line|e|c o|code]; simpl; try exact IH.
  destruct c as [md nm|callee args|recv m args]; simpl; try exact IH.
  simpl in Hev. rewrite Hev. exact IH.
Qed.

Lemma untouched_invocations meth l :
  String.eqb meth "get_tuner_type" = false ->
  Forall (fun ev => touches_source ev = false) l ->
  invocations rtlsdr_source meth l = [].
Proof.
  intros Hm. induction 1 as [|ev l Hev _ IH]; simpl; [reflexivity|].
  destruct ev as [line|e|c o|code]; simpl; try exact IH.
  destruct c as [md nm|callee args|recv m args]; simpl; try exact IH.
  destruct recv as [b'| | | |]; simpl; try exact IH.
  simpl in Hev.
  destruct (block_eqb b' rtlsdr_source); simpl in *; [|exact IH].
  destruct (String.eqb m meth) eqn:Em; [|exact IH].
  apply String.eqb_eq in Em. subst m. rewrite Hm in Hev. discriminate Hev.
Qed.

Lemma tuner_query_untouched w extra :
  tuner_query w extra -> Forall (fun ev => touches_source ev = false) extra.
Proof.
  intros [-> | [-> | (e & ->)]]; repeat constructor.
Qed.

Lemma only_fosphor_untouched w :
  only (fun ev => touches_source ev = false) (setup_fosphor_visualization w).
Proof. unfold setup_fosphor_visualization. only_auto; reflexivity. Qed.

Lemma only_standard_untouched w :
  only (fun ev => touches_source ev = false) (setup_standard_visualization w).
Proof. unfold setup_standard_visualization. only_auto; reflexivity. Qed.

(** A complete run of __init__: the source is created and configured by
    [source_calls], and nothing before or after touches it. *)
Lemma RtlsdrFosphor_normal_source w uf cf sr g d st st' :
  RtlsdrFosphor w uf cf sr g d st = (Normal tt, st') ->
  exists pre post,
    Forall (fun ev => touches_source ev = false) pre /\
    Forall (fun ev => touches_source ev = false) post /\
    trace st' = trace st ++ pre ++ map ok (source_calls (set_config sr cf g d st)) ++ post.
Proof.
  destruct st as [tr sr0 cf0 g0 d0 fs lay ed].
  intros H. unfold RtlsdrFosphor in H.
  apply bind_normal_inv in H as ([] & s1 & H1 & H).
  apply bind_normal_inv in H as ([] & s2 & H2 & H).
  apply bind_normal_inv in H as ([] & s3 & H3 & H).
  apply bind_normal_inv in H as ([] & s4 & H4 & H).
  run_in H1; try discriminate H1; final_state H1 s1.
  run_in H2; final_state H2 s2.
  apply create_window_normal in H3. subst s3.
  apply create_source_normal in H4. destruct H4 as (extra & Hq & ->).
  match type of H with
  | ?rest ?s = _ =>
      assert (Hrest : only (fun ev => touches_source ev = false) rest)
  end.
  { destruct uf.
    - apply only_bind; [apply only_fosphor_untouched|]. intro. only_auto; reflexivity.
    - apply only_bind; [apply only_standard_untouched|]. intro. only_auto; reflexivity. }
  match type of H with
  | ?rest ?s = _ => destruct (Hrest s) as (tail & Etail & Ftail)
  end.
  rewrite H in Etail. cbn [snd] in Etail.
  exists (ok (Invoke OTop "__init__" [VStr title]) :: map ok (window_calls w)
          ++ [Print [Text (nl ++ "Creating RTL-SDR source with device #"
                             ++ dec d ++ "...")%string]]),
    (Print [Text ("Using RTL-SDR device #" ++ dec d)%string] :: extra ++ tail).
  split; [|split].
  - constructor; [reflexivity|]. apply Forall_app. split; [|repeat constructor].
    unfold window_calls. destruct (qapp_exists w); repeat constructor.
  - constructor; [reflexivity|]. apply Forall_app. split; [|exact Ftail].
    apply (tuner_query_untouched w), Hq.
  - rewrite Etail.
    cbv beta iota delta [trace samp_rate center_freq gain device_index fosphor_sink
                         layout edges set_config source_calls].
    rewrite <- ?app_assoc. cbn [app map]. rewrite <- ?app_assoc. reflexivity.
Qed.

(** What a complete run of __init__ called on the source. *)
Lemma RtlsdrFosphor_source_setup w uf cf sr g d st :
  fst (RtlsdrFosphor w uf cf sr g d st) = Normal tt ->
  let evs := events_of (RtlsdrFosphor w uf cf sr g d) st in
  news "source" evs = [[VStr ("rtl=" ++ dec d)%string]] /\
  forall meth,
    String.eqb meth "get_tuner_type" = false ->
    invocations rtlsdr_source meth evs
    = invocations rtlsdr_source meth (map ok (source_calls (set_config sr cf g d st))).
Proof.
  intros Hn evs. subst evs.
  destruct (RtlsdrFosphor w uf cf sr g d st) as [o st'] eqn:E.
  simpl in Hn. subst o.
  destruct (RtlsdrFosphor_normal_source w uf cf sr g d st st' E)
    as (pre & post & Fpre & Fpost & Htr).
  assert (Htr' : trace (snd (RtlsdrFosphor w uf cf sr g d st))
                 = trace st ++ pre
                   ++ map ok (source_calls (set_config sr cf g d st)) ++ post)
    by (rewrite E; exact Htr).
  rewrite (events_of_eq _ _ _ Htr'). split.
  - rewrite !news_app, (untouched_news pre Fpre), (untouched_news post Fpost).
    destruct st; reflexivity.
  - intros meth Hm.
    rewrite !invocations_app, (untouched_invocations meth pre Hm Fpre),
      (untouched_invocations meth post Hm Fpost), app_nil_r.
    reflexivity.
Qed.

(** C10. Whatever the configuration, a complete construction of the
    flowgraph sets on the source the frequency correction 0, the IF gain
    20, the baseband gain 20, the empty antenna and the bandwidth 0, each
    exactly once. *)
Theorem source_fixed_settings :
  forall (w : world) (use_fosphor : bool) (cf sr : float) (g : pyval) (d : Z)
         (st : state),
    fst (RtlsdrFosphor w use_fosphor cf sr g d st) = Normal tt ->
    let evs := events_of (RtlsdrFosphor w use_fosphor cf sr g d) st in
    invocations rtlsdr_source "set_freq_corr" evs = [[VInt 0]] /\
    invocations rtlsdr_source "set_if_gain" evs = [[VInt 20]] /\
    invocations rtlsdr_source "set_bb_gain" evs = [[VInt 20]] /\
    invocations rtlsdr_source "set_antenna" evs = [[VStr ""]] /\
    invocations rtlsdr_source "set_bandwidth" evs = [[VInt 0]].
Proof.
  intros w uf cf sr g d st Hn evs.
  destruct (RtlsdrFosphor_source_setup w uf cf sr g d st Hn) as (_ & Hinv).
  subst evs. rewrite !Hinv by reflexivity.
  destruct st; repeat split; reflexivity.
Qed.

(** The default configuration with the GPU sink, nothing raises. *)
Lemma source_fixed_settings_witness :
  let evs := events_of (RtlsdrFosphor (plain quiet) true 100e6 2e6 (VInt 20) 0)
               initial_state in
  invocations rtlsdr_source "set_freq_corr" evs = [[VInt 0]] /\
  invocations rtlsdr_source "set_if_gain" evs = [[VInt 20]] /\
  invocations rtlsdr_source "set_bb_gain" evs = [[VInt 20]] /\
  invocations rtlsdr_source "set_antenna" evs = [[VStr ""]] /\
  invocations rtlsdr_source "set_bandwidth" evs = [[VInt 0]].
Proof.
  apply (source_fixed_settings (plain quiet) true 100e6 2e6 (VInt 20) 0 initial_state).
  vm_compute. reflexivity.
Defined.

Lemma trace_grows {A} (m : M A) st :
  only (fun _ => True) m -> trace (snd (m st)) = trace st ++ events_of m st.
Proof.
  intros H. destruct (H st) as (evs & E & _).
  rewrite (events_of_eq _ _ _ E). exact E.
Qed.

Lemma RtlsdrFosphor_grows w uf cf sr g d :
  only (fun _ => True) (RtlsdrFosphor w uf cf sr g d).
Proof.
  unfold RtlsdrFosphor, setup_fosphor_visualization, setup_standard_visualization.
  only_auto; exact I.
Qed.

(** A complete run of main up to tb.start(): the flowgraph was
    constructed, and what follows does not touch the source. *)
Lemma main_normal w uf a st st' :
  main w uf a st = (Normal tt, st') ->
  arg_detect a = false /\
  exists st1 tail,
    RtlsdrFosphor w uf (arg_freq a) (arg_samp_rate a) (arg_gain a) (arg_device a) st
    = (Normal tt, st1) /\
    trace st' = trace st1 ++ tail /\
    Forall (fun ev => touches_source ev = false) tail.
Proof.
  intros H. unfold main in H.
  apply bind_normal_inv in H as ([] & s0 & H0 & H).
  destruct (arg_detect a).
  - destruct (detect_and_exit_run w st) as (devices & s & _ & Hrun & _).
    rewrite Hrun in H0. discriminate H0.
  - split; [reflexivity|].
    injection H0 as <-.
    apply bind_normal_inv in H as ([] & st1 & H1 & H).
    exists st1.
    match type of H with
    | ?rest ?s = _ =>
        assert (Hrest : only (fun ev => touches_source ev = false) rest)
          by (only_auto; reflexivity);
        destruct (Hrest s) as (tail & Etail & Ftail)
    end.
    rewrite H in Etail. exists tail. auto.
Qed.

(** C6. In a run of main that constructs and starts the flowgraph, the
    source is opened once, with the argument string "rtl=" followed by
    the decimal form of the device index (from which the index can be
    read back), and set_sample_rate, set_center_freq and set_gain are
    each called once, with the sample rate, the frequency and the gain of
    the command line, unchanged. *)
Theorem configuration_passed_unchanged :
  forall (w : world) (use_fosphor : bool) (a : args) (st : state),
    fst (main w use_fosphor a st) = Normal tt ->
    let evs := events_of (main w use_fosphor a) st in
    news "source" evs = [[VStr ("rtl=" ++ dec (arg_device a))%string]] /\
    parse_index ("rtl=" ++ dec (arg_device a))%string = Some (arg_device a) /\
    invocations rtlsdr_source "set_sample_rate" evs = [[VFloat (arg_samp_rate a)]] /\
    invocations rtlsdr_source "set_center_freq" evs = [[VFloat (arg_freq a)]] /\
    invocations rtlsdr_source "set_gain" evs = [[arg_gain a]].
Proof.
  intros w uf a st Hn evs. subst evs.
  destruct (main w uf a st) as [o st'] eqn:E. simpl in Hn. subst o.
  destruct (main_normal w uf a st st' E) as (_ & st1 & tail & H1 & Htr & Ftail).
  pose proof (RtlsdrFosphor_source_setup w uf (arg_freq a) (arg_samp_rate a)
                (arg_gain a) (arg_device a) st) as Hsrc.
  rewrite H1 in Hsrc. specialize (Hsrc eq_refl). cbv zeta in Hsrc.
  destruct Hsrc as (Hnew & Hinv).
  pose proof (trace_grows
                (RtlsdrFosphor w uf (arg_freq a) (arg_samp_rate a) (arg_gain a)
                   (arg_device a)) st (RtlsdrFosphor_grows _ _ _ _ _ _)) as Hg.
  rewrite H1 in Hg. cbn [snd] in Hg.
  assert (Hall : trace (snd (main w uf a st))
                 = trace st
                   ++ events_of (RtlsdrFosphor w uf (arg_freq a) (arg_samp_rate a)
                                   (arg_gain a) (arg_device a)) st
                   ++ tail)
    by (rewrite E; cbn [snd]; rewrite Htr, Hg, app_assoc; reflexivity).
  rewrite (events_of_eq _ _ _ Hall).
  rewrite news_app, Hnew, (untouched_news tail Ftail).
  rewrite !invocations_app, !Hinv by reflexivity.
  rewrite !(untouched_invocations _ tail) by (reflexivity || exact Ftail).
  split; [reflexivity|]. split; [apply parse_index_rtl|].
  destruct st; repeat split; reflexivity.
Qed.

(** The command line -f 433.92e6 -s 1.024e6 -g 35.5 -d 1, nothing raises. *)
Lemma configuration_passed_unchanged_witness :
  let a := mkArgs 433.92e6 1.024e6 (VFloat 35.5) 1 false in
  let evs := events_of (main (plain quiet) true a) initial_state in
  news "source" evs = [[VStr ("rtl=" ++ dec (arg_device a))%string]] /\
  parse_index ("rtl=" ++ dec (arg_device a))%string = Some (arg_device a) /\
  invocations rtlsdr_source "set_sample_rate" evs = [[VFloat (arg_samp_rate a)]] /\
  invocations rtlsdr_source "set_center_freq" evs = [[VFloat (arg_freq a)]] /\
  invocations rtlsdr_source "set_gain" evs = [[arg_gain a]].
Proof.
  apply (configuration_passed_unchanged (plain quiet) true
           (mkArgs 433.92e6 1.024e6 (VFloat 35.5) 1 false) initial_state).
  vm_compute. reflexivity.
Defined.

(** ** The GPU path and its fallbacks *)

Lemma standard_starts w st :
  exists rest,
    trace (snd (setup_standard_visualization w st))
    = trace st ++ standard_banner :: rest /\
    Forall (fun ev => is_gpu_ctor ev = false) rest.
Proof.
  unfold setup_standard_visualization. unfold bind at 1, print at 1, modify.
  cbv beta iota.
  match goal with
  | |- context [try_except ?b ?h] =>
      assert (H : only (fun ev => is_gpu_ctor ev = false) (try_except b h))
        by (only_auto; reflexivity);
      destruct (H (log standard_banner st)) as (rest & E & F)
  end.
  exists rest. split; [|exact F].
  unfold standard_banner in E. rewrite E, trace_log, <- app_assoc. reflexivity.
Qed.

Lemma no_gpu_ctor_raised name rest :
  name = "fosphor.qt_sink_c"%string \/ name = "fosphor.glfw_sink_c"%string ->
  Forall (fun ev => is_gpu_ctor ev = false) rest ->
  existsb (ctor_raised name) rest = false.
Proof.
  intros Hname. induction 1 as [|ev l Hev _ IH]; simpl; [reflexivity|].
  rewrite IH, orb_false_r.
  destruct ev as [line|e|c o|code]; try reflexivity.
  destruct c as [md nm|callee args|recv m args]; try reflexivity.
  destruct o as [e|]; [|reflexivity].
  unfold is_gpu_ctor, is_new in Hev. apply orb_false_iff in Hev.
  destruct Hev as [Hq Hg]. simpl.
  destruct Hname as [-> | ->]; assumption.
Qed.

Lemma fallback_prefix_not_standard e :
  existsb is_standard (fallback_prefix e) = false.
Proof. vm_compute. reflexivity. Qed.

(** The state and the outcome of a leaf of the symbolic run, from the
    equation [E] that is left of it. *)
Ltac leaf E o st' :=
  lazymatch type of E with
  | setup_standard_visualization ?w ?S = _ =>
      let rest := fresh "rest" in
      let Er := fresh "Er" in
      let Fr := fresh "Fr" in
      destruct (standard_starts w S) as (rest & Er & Fr);
      rewrite E in Er; cbv beta iota delta [snd trace] in Er;
      rewrite Er
  | _ =>
      let Es := fresh "Es" in
      pose proof (f_equal snd E) as Es;
      cbv beta iota delta [snd] in Es; subst st';
      cbv beta iota delta [trace]
  end;
  rewrite <- ?app_assoc; rewrite skipn_app_exact; cbn [app].

(** The symbolic run under [Hq], which says that every call but the two
    fosphor constructors returns. *)
Ltac run_quiet_in H Hq :=
  unfold_in H;
  repeat (match type of H with
          | context [raises ?w ?h ?c] =>
              first [ rewrite (Hq h c eq_refl eq_refl) in H
                    | destruct (raises w h c) ]
          end;
          unfold_in H).

(** C1 (amended). In setup_fosphor_visualization, when the constructor of
    the Qt sink raises, the next call is the constructor of the GLFW
    sink: the trace begins with the failed Qt constructor, the two
    diagnostics and the announcement of the fallback, then comes the call
    of the GLFW constructor, and nothing of the standard visualization
    precedes it.  The standard visualization is attempted only after a
    call of the Qt attempt has raised and a call of the GLFW attempt has
    raised, where an attempt is the whole try block: the constructor, or
    a later call that configures, embeds or connects the sink.  When no
    call but the two constructors can raise, these two calls are the
    constructors themselves. *)
Theorem gpu_fallback_order :
  forall (w : world) (st : state),
    let evs := events_of (setup_fosphor_visualization w) st in
    (existsb (ctor_raised "fosphor.qt_sink_c") evs = true ->
     exists e o post,
       evs = fallback_prefix e ++ Called glfw_ctor o :: post /\
       existsb is_standard (fallback_prefix e) = false) /\
    (existsb is_standard evs = true ->
     existsb (raised_in in_qt_attempt) (before_standard evs) = true /\
     existsb (raised_in in_glfw_attempt) (before_standard evs) = true) /\
    ((forall h c, call_is_new "fosphor.qt_sink_c" c = false ->
                  call_is_new "fosphor.glfw_sink_c" c = false ->
                  raises w h c = None) ->
     standard_only_after_both_constructors_raised evs).
Proof.
  intros w st evs. subst evs. destruct st as [tr sr cf g d fs lay ed].
  unfold events_of.
  destruct (setup_fosphor_visualization w (mkState tr sr cf g d fs lay ed))
    as [o st'] eqn:E.
  cbv beta iota delta [snd trace].
  unfold setup_fosphor_visualization in E.
  split; [|split].
  - run_in E; leaf E o st'; intros H.
    all: try (vm_compute in H; discriminate H).
    all: try (eexists; eexists; eexists;
              split; [reflexivity | apply fallback_prefix_not_standard]).
    all: cbn [existsb] in H;
      match goal with
      | Fr : Forall _ ?rest |- _ =>
          rewrite (no_gpu_ctor_raised _ rest (or_introl eq_refl) Fr) in H
      end;
      vm_compute in H; discriminate H.
  - run_in E; leaf E o st'; intros H.
    all: try (vm_compute in H; discriminate H).
    all: vm_compute; split; reflexivity.
  - intros Hq. unfold standard_only_after_both_constructors_raised.
    run_quiet_in E Hq; leaf E o st'; intros H.
    all: try (vm_compute in H; discriminate H).
    all: vm_compute; split; reflexivity.
Qed.

(** The Qt constructor raises, the GLFW constructor returns and
    set_frequency_range raises on the GLFW sink: the run is as the
    theorem says; so is the run in which both constructors raise and
    nothing else does. *)
Lemma gpu_fallback_order_witness :
  let evs := events_of (setup_fosphor_visualization glfw_configure_fails)
               initial_state in
  (exists e o post,
      evs = fallback_prefix e ++ Called glfw_ctor o :: post /\
      existsb is_standard (fallback_prefix e) = false) /\
  (existsb (raised_in in_qt_attempt) (before_standard evs) = true /\
   existsb (raised_in in_glfw_attempt) (before_standard evs) = true) /\
  standard_only_after_both_constructors_raised
    (events_of (setup_fosphor_visualization fosphor_fails) initial_state).
Proof.
  split; [|split].
  - apply (proj1 (gpu_fallback_order glfw_configure_fails initial_state)).
    vm_compute. reflexivity.
  - apply (proj1 (proj2 (gpu_fallback_order glfw_configure_fails initial_state))).
    vm_compute. reflexivity.
  - apply (proj2 (proj2 (gpu_fallback_order fosphor_fails initial_state))).
    intros h c Hqt Hglfw. unfold fosphor_fails, plain, raises.
    rewrite Hqt, Hglfw. reflexivity.
Defined.

(** In that run the Qt constructor raised and the standard visualization
    was attempted, although the GLFW constructor had returned: the
    failure that led to the standard visualization was the one of
    set_frequency_range. *)
Lemma gpu_fallback_order_counterexample :
  let evs := events_of (setup_fosphor_visualization glfw_configure_fails)
               initial_state in
  existsb (ctor_raised "fosphor.qt_sink_c") evs = true /\
  In (Called glfw_ctor None) evs /\
  ~ standard_only_after_both_constructors_raised evs.
Proof.
  split; [vm_compute; reflexivity|]. split.
  - vm_compute. do 5 right. left. reflexivity.
  - intros H. assert (Hs : existsb is_standard
                             (events_of (setup_fosphor_visualization glfw_configure_fails)
                                initial_state) = true)
      by (vm_compute; reflexivity).
    destruct (H Hs) as (_ & Hg). vm_compute in Hg. discriminate Hg.
Qed.

(** ** Which surfaces end up in the layout *)








(** ** The import block *)

Ltac run_imports_in H :=
  unfold_in H;
  repeat (match type of H with
          | context [raises ?w ?h ?c] => destruct (raises w h c) as [[[| |] ?]|]
          end;
          cbv beta iota delta [exn_class_of] in H;
          unfold_in H).

(** C9 (amended). When the import of the osmosdr source raises, the
    import block ends the process with status 1: after the failed import
    the trace holds only diagnostics, at least one of them a printed
    line, and then the exit; no other import or call is attempted.  When
    the import of fosphor raises, the next call is the import of qtgui;
    the block then returns use_fosphor = False, unless the import of
    qtgui or of the osmosdr source raises as well, and it never returns
    use_fosphor = True.  When that import of qtgui raises, the process
    ends with status 1. *)
Theorem import_failures :
  forall (w : world) (st : state),
    let r := import_modules w st in
    let evs := events_of (import_modules w) st in
    (existsb (import_raised "source") evs = true ->
     fst r = Exited 1 /\
     exit_status (fst r) = 1 /\
     last (after_failed_import "source" evs) (Print []) = SysExit 1 /\
     forallb is_diagnostic (removelast (after_failed_import "source" evs)) = true /\
     existsb is_print (after_failed_import "source" evs) = true)
    /\
    (existsb (import_raised "fosphor") evs = true ->
     hd_error (calls (after_failed_import "fosphor" evs))
     = Some (Import "gnuradio" "qtgui") /\
     fst r <> Normal true /\
     (fst r = Normal false \/
      existsb (import_raised "qtgui") evs = true \/
      existsb (import_raised "source") evs = true))
    /\
    (existsb (import_raised "qtgui") evs = true -> fst r = Exited 1).
Proof.
  intros w st r evs. subst r evs. destruct st as [tr sr cf g d fs lay ed].
  unfold events_of.
  destruct (import_modules w (mkState tr sr cf g d fs lay ed)) as [o st'] eqn:E.
  cbv beta iota delta [fst snd trace].
  unfold import_modules, import_osmosdr, import_fosphor in E.
  run_imports_in E;
    pose proof (f_equal fst E) as Eo; pose proof (f_equal snd E) as Es;
    cbv beta iota delta [fst snd] in Eo, Es; subst o st';
    cbv beta iota delta [trace];
    rewrite <- ?app_assoc; rewrite skipn_app_exact; cbn [app];
    (split; [|split]; intros H; vm_compute in H; try discriminate H).
  all: vm_compute; repeat split; try discriminate.
  all: first [left; reflexivity | right; left; reflexivity | right; right; reflexivity].
Qed.

(** Without gr-osmosdr the process ends with status 1; without
    gr-fosphor the import block selects the standard visualization. *)
Lemma import_failures_witness :
  (fst (import_modules no_osmosdr initial_state) = Exited 1 /\
   exit_status (fst (import_modules no_osmosdr initial_state)) = 1 /\
   last (after_failed_import "source" (events_of (import_modules no_osmosdr) initial_state))
     (Print []) = SysExit 1 /\
   forallb is_diagnostic
     (removelast (after_failed_import "source"
                    (events_of (import_modules no_osmosdr) initial_state))) = true /\
   existsb is_print
     (after_failed_import "source" (events_of (import_modules no_osmosdr) initial_state))
   = true)
  /\
  (hd_error (calls (after_failed_import "fosphor"
                      (events_of (import_modules no_fosphor) initial_state)))
   = Some (Import "gnuradio" "qtgui") /\
   fst (import_modules no_fosphor initial_state) <> Normal true /\
   (fst (import_modules no_fosphor initial_state) = Normal false \/
    existsb (import_raised "qtgui") (events_of (import_modules no_fosphor) initial_state)
    = true \/
    existsb (import_raised "source") (events_of (import_modules no_fosphor) initial_state)
    = true)).
Proof.
  split.
  - apply (proj1 (import_failures no_osmosdr initial_state)). vm_compute. reflexivity.
  - apply (proj1 (proj2 (import_failures no_fosphor initial_state))).
    vm_compute. reflexivity.
Defined.

(** With neither gr-fosphor nor gr-qtgui installed, the failed import of
    fosphor is followed by the failed import of qtgui, and the process
    ends with status 1 before the osmosdr source is imported. *)
Lemma import_failures_counterexample :
  fst (import_modules no_visualization initial_state) = Exited 1 /\
  calls (events_of (import_modules no_visualization) initial_state)
  = [Import "gnuradio" "gr"; Import "gnuradio" "blocks";
     Import "gnuradio.filter" "firdes"; Import "gnuradio.fft" "window";
     Import "PyQt5" "QtGui, QtCore, QtWidgets"; Import "" "sip"; Import "" "numpy";
     Import "gnuradio" "fosphor"; Import "gnuradio" "qtgui"] /\
  ~ gpu_failure_selects_standard no_visualization initial_state.
Proof.
  split; [vm_compute; reflexivity|]. split; [vm_compute; reflexivity|].
  intros H. assert (Hn : fst (import_modules no_visualization initial_state)
                         = Normal false)
    by (apply H; vm_compute; reflexivity).
  vm_compute in Hn. discriminate Hn.
Qed.

(** ** The life cycle *)

Section Shutdown.

Variable w : world.

Lemma occur_ended p o : ended p <> None -> occur w p o = p.
Proof. unfold occur. destruct (ended p); [reflexivity | congruence]. Qed.

Lemma occur_all_ended os : forall p, ended p <> None -> occur_all w p os = p.
Proof.
  induction os as [|o os IH]; intros p H; [reflexivity|].
  unfold occur_all in *. simpl. rewrite (occur_ended p o H). apply IH, H.
Qed.

Lemma shutdown_inv_running st0 : shutdown_inv st0 (running st0).
Proof.
  unfold shutdown_inv, running. simpl. split; [constructor|].
  exists []. simpl. rewrite app_nil_r. auto.
Qed.

Lemma shutdown_inv_push st0 p :
  ended p = None -> shutdown_inv st0 p ->
  shutdown_inv st0 (mkProcess (sig_handler :: frames p) (in_exec p) (pstate p) None).
Proof.
  unfold shutdown_inv. intros -> (Hf & pre & Htr & Hpre). cbn [ended frames pstate hd].
  split; [constructor; [left; reflexivity | exact Hf]|].
  exists (pre ++ progress (hd sig_handler (frames p))).
  split.
  - rewrite Htr. cbn [progress sig_handler]. rewrite app_nil_r, app_assoc. reflexivity.
  - rewrite forallb_app, Hpre.
    destruct (frames p) as [|f fs]; [reflexivity|].
    inversion Hf as [|? ? Hv _]; subst.
    destruct Hv as [-> | [-> | ->]]; reflexivity.
Qed.

Lemma shutdown_inv_step st0 p :
  ended p = None -> shutdown_inv st0 p -> shutdown_inv st0 (step w p).
Proof.
  intros He Hinv. pose proof Hinv as Hinv0.
  unfold shutdown_inv in Hinv. rewrite He in Hinv.
  destruct Hinv as (Hf & pre & Htr & Hpre).
  unfold step. destruct (frames p) as [|f outer] eqn:Ef; [exact Hinv0|].
  inversion Hf as [|? ? Hv Houter]; subst.
  cbn [hd] in Htr.
  destruct Hv as [-> | [-> | ->]]; cbn [exec_stmt sig_handler].
  - (* tb.stop() *)
    unfold do. destruct (raises w (trace (pstate p)) (Invoke OTop "stop" [])) as [e|].
    + unfold shutdown_inv. cbn [ended]. intros Hc. discriminate Hc.
    + unfold shutdown_inv. cbn [ended frames pstate hd progress].
      split; [constructor; [right; left; reflexivity | exact Houter]|].
      exists pre. split; [|exact Hpre].
      rewrite trace_log, Htr. cbn [progress sig_handler].
      rewrite app_nil_r, <- app_assoc. reflexivity.
  - (* tb.wait() *)
    unfold do. destruct (raises w (trace (pstate p)) (Invoke OTop "wait" [])) as [e|].
    + unfold shutdown_inv. cbn [ended]. intros Hc. discriminate Hc.
    + unfold shutdown_inv. cbn [ended frames pstate hd progress].
      split; [constructor; [right; right; reflexivity | exact Houter]|].
      exists pre. split; [|exact Hpre].
      rewrite trace_log, Htr. cbn [progress].
      rewrite <- !app_assoc. reflexivity.
  - (* sys.exit(0) *)
    unfold sys_exit, shutdown_inv. cbn [ended pstate]. intros _.
    exists pre. split; [|exact Hpre].
    rewrite trace_log, Htr. cbn [progress].
    rewrite <- !app_assoc. reflexivity.
Qed.

Lemma shutdown_inv_occur st0 p o :
  shutdown_inv st0 p -> shutdown_inv st0 (occur w p o).
Proof.
  intros Hinv. unfold occur. destruct (ended p) eqn:He; [exact Hinv|].
  destruct o as [s| |].
  - apply shutdown_inv_push; assumption.
  - destruct (frames p) as [|f fs] eqn:Ef; [|exact Hinv].
    destruct (in_exec p) eqn:Ex; [|exact Hinv].
    pose proof (shutdown_inv_push st0 p He Hinv) as Hpush.
    rewrite Ef in Hpush. unfold shutdown_inv in *. cbn [ended frames pstate hd] in *.
    exact Hpush.
  - apply shutdown_inv_step; assumption.
Qed.

Lemma shutdown_inv_occur_all st0 os : forall p,
  shutdown_inv st0 p -> shutdown_inv st0 (occur_all w p os).
Proof.
  induction os as [|o os IH]; intros p Hinv; [exact Hinv|].
  unfold occur_all in *. simpl. apply IH, shutdown_inv_occur, Hinv.
Qed.

End Shutdown.

(** C4 (amended). A signal delivered to the running process, with nothing
    else delivered before the handler is through, gives tb.stop(), then
    tb.wait(), then sys.exit(0), each once, when stop and wait return.
    When tb.stop() raises, or tb.wait() after it, the handler catches
    nothing: what is left of it is skipped and the process ends with
    status 1 after the traceback.  In every run that ends with status 0,
    whatever signals were delivered, the process ends with stop, wait,
    exit in this order, and what precedes them are only calls of stop
    and wait.  Once the process has ended, no signal does anything.  The
    handler has no guard: while the process lives, every delivered
    signal starts one more call of the whole handler. *)
Theorem shutdown_sequence :
  forall (w : world) (st : state),
    (forall s,
        raises w (trace st) stop_call = None ->
        raises w (trace st ++ [ok stop_call]) wait_call = None ->
        let p := occur_all w (running st) [Signal s; Step; Step; Step] in
        ended p = Some 0%Z /\
        trace (pstate p) = trace st ++ [ok stop_call; ok wait_call; SysExit 0])
    /\
    (forall s e,
        raises w (trace st) stop_call = Some e ->
        let p := occur_all w (running st) [Signal s; Step; Step; Step] in
        ended p = Some 1%Z /\
        trace (pstate p) = trace st ++ [Called stop_call (Some e); PrintExc e])
    /\
    (forall s e,
        raises w (trace st) stop_call = None ->
        raises w (trace st ++ [ok stop_call]) wait_call = Some e ->
        let p := occur_all w (running st) [Signal s; Step; Step; Step] in
        ended p = Some 1%Z /\
        trace (pstate p)
        = trace st ++ [ok stop_call; Called wait_call (Some e); PrintExc e])
    /\
    (forall os,
        let p := occur_all w (running st) os in
        ended p = Some 0%Z ->
        exists pre,
          trace (pstate p) = trace st ++ pre ++ [ok stop_call; ok wait_call; SysExit 0] /\
          forallb is_stop_or_wait pre = true)
    /\
    (forall p os, ended p <> None -> occur_all w p os = p)
    /\
    (forall p s, ended p = None ->
                 frames (occur w p (Signal s)) = sig_handler :: frames p).
Proof.
  intros w st. split; [|split; [|split; [|split; [|split]]]].
  - intros s Hstop Hwait.
    assert (E1 : occur w (running st) (Signal s) = mkProcess [sig_handler] true st None)
      by reflexivity.
    assert (E2 : occur w (mkProcess [sig_handler] true st None) Step
                 = mkProcess [[tb_wait; sys_exit_0]] true (log (ok stop_call) st) None).
    { unfold occur, step. cbn [ended frames sig_handler exec_stmt pstate in_exec].
      unfold do. unfold stop_call in Hstop. rewrite Hstop. reflexivity. }
    assert (E3 : occur w (mkProcess [[tb_wait; sys_exit_0]] true
                            (log (ok stop_call) st) None) Step
                 = mkProcess [[sys_exit_0]] true
                     (log (ok wait_call) (log (ok stop_call) st)) None).
    { unfold occur, step. cbn [ended frames exec_stmt pstate in_exec].
      unfold do. rewrite trace_log. unfold wait_call in Hwait.
      rewrite Hwait. reflexivity. }
    assert (E4 : occur w (mkProcess [[sys_exit_0]] true
                            (log (ok wait_call) (log (ok stop_call) st)) None) Step
                 = mkProcess [] false
                     (log (SysExit 0) (log (ok wait_call) (log (ok stop_call) st)))
                     (Some 0%Z))
      by reflexivity.
    unfold occur_all. cbn [fold_left]. rewrite E1, E2, E3, E4.
    cbn [ended pstate]. split; [reflexivity|].
    rewrite !trace_log, <- !app_assoc. reflexivity.
  - intros s e Hstop.
    assert (E1 : occur w (running st) (Signal s) = mkProcess [sig_handler] true st None)
      by reflexivity.
    assert (E2 : occur w (mkProcess [sig_handler] true st None) Step
                 = mkProcess [] false
                     (log (PrintExc e) (log (Called stop_call (Some e)) st))
                     (Some 1%Z)).
    { unfold occur, step. cbn [ended frames sig_handler exec_stmt pstate in_exec].
      unfold do. unfold stop_call in Hstop. rewrite Hstop. reflexivity. }
    unfold occur_all. cbn [fold_left]. rewrite E1, E2.
    cbn [occur ended pstate]. split; [reflexivity|].
    rewrite !trace_log, <- !app_assoc. reflexivity.
  - intros s e Hstop Hwait.
    assert (E1 : occur w (running st) (Signal s) = mkProcess [sig_handler] true st None)
      by reflexivity.
    assert (E2 : occur w (mkProcess [sig_handler] true st None) Step
                 = mkProcess [[tb_wait; sys_exit_0]] true (log (ok stop_call) st) None).
    { unfold occur, step. cbn [ended frames sig_handler exec_stmt pstate in_exec].
      unfold do. unfold stop_call in Hstop. rewrite Hstop. reflexivity. }
    assert (E3 : occur w (mkProcess [[tb_wait; sys_exit_0]] true
                            (log (ok stop_call) st) None) Step
                 = mkProcess [] false
                     (log (PrintExc e)
                        (log (Called wait_call (Some e)) (log (ok stop_call) st)))
                     (Some 1%Z)).
    { unfold occur, step. cbn [ended frames exec_stmt pstate in_exec].
      unfold do. rewrite trace_log. unfold wait_call in Hwait.
      rewrite Hwait. reflexivity. }
    unfold occur_all. cbn [fold_left]. rewrite E1, E2, E3.
    cbn [occur ended pstate]. split; [reflexivity|].
    rewrite !trace_log, <- !app_assoc. reflexivity.
  - intros os p He. subst p.
    pose proof (shutdown_inv_occur_all w st os (running st) (shutdown_inv_running st))
      as Hinv.
    unfold shutdown_inv in Hinv. rewrite He in Hinv. apply Hinv. reflexivity.
  - intros p os He. apply occur_all_ended, He.
  - intros p s He. unfold occur. rewrite He. reflexivity.
Qed.

(** One Ctrl+C while nothing raises. *)
Lemma shutdown_sequence_witness :
  let p := occur_all (plain quiet) (running initial_state)
             [Signal SIGINT; Step; Step; Step] in
  ended p = Some 0%Z /\
  trace (pstate p) = trace initial_state ++ [ok stop_call; ok wait_call; SysExit 0].
Proof.
  apply (proj1 (shutdown_sequence (plain quiet) initial_state) SIGINT);
    reflexivity.
Defined.

(** A second Ctrl+C right after tb.stop() has returned: the handler is
    entered again and tb.stop() is called a second time before the
    process ends with status 0. *)
Lemma shutdown_sequence_counterexample :
  trace (pstate (occur_all (plain quiet) (running initial_state) impatient))
  = [ok stop_call; ok stop_call; ok wait_call; SysExit 0] /\
  ~ shutdown_exactly_once (plain quiet) initial_state impatient.
Proof.
  split; [vm_compute; reflexivity|].
  intros H. destruct H as (Hstop & _); [vm_compute; reflexivity|].
  vm_compute in Hstop. discriminate Hstop.
Qed.

(** ** The configuration of the two qtgui sinks *)

Lemma existsb_none {A} (f : A -> bool) l :
  Forall (fun x => f x = false) l -> existsb f l = false.
Proof.
  induction 1 as [|x l Hx _ IH]; [reflexivity|].
  cbn [existsb]. rewrite Hx, IH. reflexivity.
Qed.

Section Conforming.

Variables cf sr : float.

Lemma configured_log ev st : configured cf sr st -> configured cf sr (log ev st).
Proof. intros H. exact H. Qed.

Lemma conforming_ret {A} (a : A) : conforming cf sr (ret a).
Proof. intros st H. exists []. cbn. rewrite app_nil_r. auto. Qed.

Lemma conforming_raise {A} e : conforming cf sr (@raise A e).
Proof. intros st H. exists []. cbn. rewrite app_nil_r. auto. Qed.

Lemma conforming_print line : conforming cf sr (print line).
Proof. intros st H. exists [Print line]. cbn. auto. Qed.

Lemma conforming_print_exc e : conforming cf sr (print_exc e).
Proof. intros st H. exists [PrintExc e]. cbn. auto. Qed.

Lemma conforming_sys_exit {A} c : conforming cf sr (@sys_exit A c).
Proof. intros st H. exists [SysExit c]. cbn. auto. Qed.

Lemma conforming_modify f :
  (forall st, trace (f st) = trace st) ->
  (forall st, configured cf sr st -> configured cf sr (f st)) ->
  conforming cf sr (modify f).
Proof.
  intros Ht Hc st H. exists []. cbn [modify snd calls].
  rewrite Ht, app_nil_r. auto.
Qed.

Lemma conforming_do w c :
  standard_call_conforms cf sr c -> conforming cf sr (do w c).
Proof.
  intros Hc st H. unfold do.
  destruct (raises w (trace st) c) as [e|]; eexists [_]; cbn [snd calls];
    (split; [apply trace_log|]); (split; [repeat constructor; exact Hc | exact H]).
Qed.

Lemma conforming_bind {A B} (m : M A) (k : A -> M B) :
  conforming cf sr m -> (forall a, conforming cf sr (k a)) ->
  conforming cf sr (bind m k).
Proof.
  intros Hm Hk st H. unfold bind.
  destruct (Hm st H) as (evs1 & E1 & F1 & C1).
  destruct (m st) as [[a|e|c] st1]; cbn [snd] in *.
  - destruct (Hk a st1 C1) as (evs2 & E2 & F2 & C2).
    exists (evs1 ++ evs2). rewrite E2, E1, app_assoc, calls_app.
    split; [reflexivity|]. split; [apply Forall_app; auto | exact C2].
  - exists evs1. auto.
  - exists evs1. auto.
Qed.

(** What get returns is the state the computation runs from. *)
Lemma conforming_get_bind {B} (k : state -> M B) :
  (forall st0, configured cf sr st0 -> conforming cf sr (k st0)) ->
  conforming cf sr (bind get k).
Proof. intros Hk st H. exact (Hk st H st H). Qed.

Lemma conforming_try {A} (body : M A) (h : exn -> M A) :
  conforming cf sr body -> (forall e, conforming cf sr (h e)) ->
  conforming cf sr (try_except body h).
Proof.
  intros Hm Hk st H. unfold try_except.
  destruct (Hm st H) as (evs1 & E1 & F1 & C1).
  destruct (body st) as [[a|e|c] st1]; cbn [snd] in *.
  - exists evs1. auto.
  - destruct (Hk e st1 C1) as (evs2 & E2 & F2 & C2).
    exists (evs1 ++ evs2). rewrite E2, E1, app_assoc, calls_app.
    split; [reflexivity|]. split; [apply Forall_app; auto | exact C2].
  - exists evs1. auto.
Qed.

End Conforming.

(** A single call conforms: it is not one of the calls the property
    speaks of, or it carries the arguments. *)
Ltac conforms :=
  unfold standard_call_conforms; repeat split; intros;
  first
    [ discriminate
    | reflexivity
    | match goal with
      | H : configured _ _ _ |- _ => destruct H as [<- <-]; reflexivity
      end
    | exact I ].

Ltac conforming_step :=
  first
    [ match goal with
      | |- conforming _ _ (bind get _) => apply conforming_get_bind; intros ? ?
      end
    | apply conforming_bind; [| intro]
    | apply conforming_try; [| intro]
    | apply conforming_ret
    | apply conforming_raise
    | apply conforming_modify; [intro; reflexivity | intros ? ?; assumption]
    | apply conforming_print
    | apply conforming_print_exc
    | apply conforming_sys_exit
    | apply conforming_do; conforms
    | match goal with
      | |- conforming _ _ (if ?b then _ else _) => destruct b
      | |- conforming _ _ (match ?x with _ => _ end) => destruct x
      end ].

Lemma conforming_standard w cf sr :
  conforming cf sr (setup_standard_visualization w).
Proof.
  unfold setup_standard_visualization, import_, wrapinstance, addWidget, connect.
  repeat conforming_step.
Qed.

Lemma conforming_fosphor w cf sr :
  conforming cf sr (setup_fosphor_visualization w).
Proof.
  unfold setup_fosphor_visualization, set_frequency_range, wrapinstance,
    addWidget, connect.
  repeat first [apply conforming_standard | conforming_step].
Qed.

Lemma conforming_create_window w cf sr : conforming cf sr (create_window w).
Proof. unfold create_window. repeat conforming_step. Qed.

Lemma conforming_create_source w cf sr : conforming cf sr (create_source w).
Proof. unfold create_source. repeat conforming_step. Qed.

(** In every run of __init__, complete or not, the calls conform to the
    arguments of __init__. *)
Lemma RtlsdrFosphor_conforms w uf cf sr g d st :
  Forall (standard_call_conforms cf sr)
    (calls (events_of (RtlsdrFosphor w uf cf sr g d) st)).
Proof.
  assert (Hrest : conforming cf sr
            (create_window w ;;
             create_source w ;;
             (if uf then setup_fosphor_visualization w
              else setup_standard_visualization w) ;;
             do w (Invoke (OWidget main_window) "show" []) ;;
             print [Text "Flowgraph connected successfully"%string])%py).
  { apply conforming_bind; [apply conforming_create_window | intro].
    apply conforming_bind; [apply conforming_create_source | intro].
    apply conforming_bind;
      [destruct uf; [apply conforming_fosphor | apply conforming_standard] | intro].
    repeat conforming_step. }
  unfold events_of, RtlsdrFosphor. unfold bind at 1. unfold do at 1.
  destruct (raises w (trace st) (Invoke OTop "__init__" [VStr title])) as [e|].
  - cbn [snd]. rewrite trace_log, skipn_app_exact. repeat constructor.
  - unfold bind at 1. unfold modify at 1.
    match goal with
    | |- context [snd (?rest ?s)] =>
        destruct (Hrest s) as (evs & Et & F & _); [split; reflexivity|];
        rewrite Et;
        replace (trace s)
          with (trace st ++ [Called (Invoke OTop "__init__" [VStr title]) None])
          by reflexivity
    end.
    rewrite <- app_assoc, skipn_app_exact. cbn [app calls].
    constructor; [exact I | exact F].
Qed.

Lemma untouched_sinks_news name l :
  name = "qtgui.freq_sink_c"%string \/ name = "qtgui.waterfall_sink_c"%string ->
  Forall (fun ev => touches_sinks ev = false) l -> news name l = [].
Proof.
  intros Hn. induction 1 as [|ev l Hev _ IH]; cbn [news]; [reflexivity|].
  destruct ev as [line|e|c o|code]; try exact IH.
  destruct c as [md nm|callee args|recv m args]; try exact IH.
  cbn [touches_sinks] in Hev. apply orb_false_iff in Hev as (H1 & H2).
  destruct Hn as [-> | ->]; [rewrite H1 | rewrite H2]; exact IH.
Qed.

Lemma untouched_sinks_invocations b meth l :
  b = qtgui_freq_sink \/ b = qtgui_waterfall_sink ->
  Forall (fun ev => touches_sinks ev = false) l -> invocations b meth l = [].
Proof.
  intros Hb. induction 1 as [|ev l Hev _ IH]; cbn [invocations]; [reflexivity|].
  destruct ev as [line|e|c o|code]; try exact IH.
  destruct c as [md nm|callee args|recv m args]; try exact IH.
  destruct recv as [b'| | | |]; try exact IH.
  cbn [touches_sinks] in Hev. apply orb_false_iff in Hev as (H1 & H2).
  destruct Hb as [-> | ->]; [rewrite H1 | rewrite H2]; exact IH.
Qed.

(** Events that do not touch the two sinks, before and after, change
    nothing of what the trace says about them. *)
Lemma standard_configuration_app cf sr pre evs post :
  Forall (fun ev => touches_sinks ev = false) pre ->
  Forall (fun ev => touches_sinks ev = false) post ->
  standard_configuration cf sr evs ->
  standard_configuration cf sr (pre ++ evs ++ post).
Proof.
  intros Hpre Hpost H. unfold standard_configuration in *.
  rewrite !news_app, !invocations_app.
  rewrite !(untouched_sinks_news _ pre), !(untouched_sinks_news _ post) by auto.
  rewrite !(untouched_sinks_invocations _ _ pre),
    !(untouched_sinks_invocations _ _ post) by auto.
  rewrite !app_nil_r. cbn [app]. exact H.
Qed.

Lemma forallb_Forall_false {A} (f : A -> bool) l :
  forallb (fun x => negb (f x)) l = true -> Forall (fun x => f x = false) l.
Proof.
  intros H. apply Forall_forall. intros x Hx.
  rewrite forallb_forall in H. specialize (H x Hx).
  destruct (f x); [discriminate H | reflexivity].
Qed.

(** A completed set-up of the standard visualization, taken directly or
    as the fallback of the fosphor set-up. *)
Lemma visualization_standard_configuration w (uf : bool) st st' :
  (if uf then setup_fosphor_visualization w else setup_standard_visualization w) st
  = (Normal tt, st') ->
  exists evs,
    trace st' = trace st ++ evs /\
    (existsb is_banner evs = true ->
     standard_configuration (center_freq st) (samp_rate st) evs).
Proof.
  destruct st as [tr sr cf g d fs lay ed]. destruct uf; intros E.
  - unfold setup_fosphor_visualization in E.
    run_in E; try discriminate E;
      lazymatch type of E with
      | setup_standard_visualization _ _ = _ =>
          apply setup_standard_visualization_normal in E; destruct E as (_ & ->)
      | _ => final_state E st'
      end;
      cbv beta iota delta [trace samp_rate center_freq];
      rewrite <- ?app_assoc; (eexists; split; [reflexivity|]);
      intros Hb; vm_compute in Hb; try discriminate Hb;
      unfold standard_configuration; repeat split; vm_compute; reflexivity.
  - apply setup_standard_visualization_normal in E. destruct E as (_ & ->).
    cbv beta iota delta [trace samp_rate center_freq].
    eexists; split; [reflexivity|]. intros _.
    unfold standard_configuration; repeat split; vm_compute; reflexivity.
Qed.

(** A complete run of __init__ around the set-up of the visualization. *)
Lemma RtlsdrFosphor_normal_visualization w uf cf sr g d st st' :
  RtlsdrFosphor w uf cf sr g d st = (Normal tt, st') ->
  exists s4 s5 pre,
    trace s4 = trace st ++ pre /\
    forallb (fun ev => negb (touches_sinks ev || is_banner ev)) pre = true /\
    center_freq s4 = cf /\ samp_rate s4 = sr /\
    (if uf then setup_fosphor_visualization w else setup_standard_visualization w) s4
    = (Normal tt, s5) /\
    trace st' = trace s5 ++ shown.
Proof.
  destruct st as [tr sr0 cf0 g0 d0 fs lay ed].
  intros H. unfold RtlsdrFosphor in H.
  apply bind_normal_inv in H as ([] & s1 & H1 & H).
  apply bind_normal_inv in H as ([] & s2 & H2 & H).
  apply bind_normal_inv in H as ([] & s3 & H3 & H).
  apply bind_normal_inv in H as ([] & s4 & H4 & H).
  apply bind_normal_inv in H as ([] & s5 & H5 & H).
  apply bind_normal_inv in H as ([] & s6 & H6 & H).
  run_in H1; try discriminate H1; final_state H1 s1.
  run_in H2; final_state H2 s2.
  apply create_window_normal in H3. subst s3.
  apply create_source_normal in H4. destruct H4 as (extra & Hq & ->).
  exists (mkState
            (tr ++ [Called (Invoke OTop "__init__" [VStr title]) None]
             ++ map ok (window_calls w)
             ++ Print [Text (nl ++ "Creating RTL-SDR source with device #"
                               ++ dec d ++ "...")%string]
             :: map ok (source_calls (mkState [] sr cf g d fs lay ed))
             ++ Print [Text ("Using RTL-SDR device #" ++ dec d)%string]
             :: extra)
            sr cf g d fs lay ed), s5.
  eexists. split; [cbv beta iota delta [trace]; reflexivity|].
  split.
  { unfold window_calls.
    destruct (qapp_exists w); destruct Hq as [-> | [-> | (e & ->)]];
      vm_compute; reflexivity. }
  split; [reflexivity|]. split; [reflexivity|]. split.
  { rewrite <- H5. f_equal.
    cbv beta iota delta [trace samp_rate center_freq gain device_index fosphor_sink
                         layout edges source_calls].
    rewrite <- ?app_assoc. cbn [app map]. rewrite <- ?app_assoc. reflexivity. }
  destruct s5 as [tr5 sr5 cf5 g5 d5 fs5 lay5 ed5].
  run_in H6; try discriminate H6; final_state H6 s6.
  run_in H; final_state H st'.
  cbv beta iota delta [trace shown ok]. rewrite <- ?app_assoc. reflexivity.
Qed.

(** C8 (amended). In every run of __init__, complete or not, with or
    without the GPU capability, every call that constructs one of the
    two qtgui sinks carries FFT size 2048, the Blackman-Harris window
    and the center frequency and the sample rate given to __init__, and
    every call of set_update_time, set_y_axis, set_intensity_range,
    enable_grid, enable_axis_labels and set_fft_average on them carries
    0.05, the range -140 .. 10, True, True and 0.2; set_fft_average is
    never called on the waterfall sink.  When the standard path was
    taken and __init__ completed, each of these calls was made exactly
    once.  A run that does not complete ends the process with
    status 1. *)
Theorem standard_sinks_configuration :
  forall (w : world) (use_fosphor : bool) (cf sr : float) (g : pyval) (d : Z)
         (st : state),
    let run := RtlsdrFosphor w use_fosphor cf sr g d in
    let evs := events_of run st in
    Forall (standard_call_conforms cf sr) (calls evs) /\
    (fst (run st) = Normal tt ->
     existsb is_banner evs = true ->
     news "qtgui.freq_sink_c" evs
     = [[VInt 2048; VName "window.WIN_BLACKMAN_hARRIS"; VFloat cf; VFloat sr;
         VStr "RTL-SDR Spectrum"; VInt 1]] /\
     news "qtgui.waterfall_sink_c" evs
     = [[VInt 2048; VName "window.WIN_BLACKMAN_hARRIS"; VFloat cf; VFloat sr;
         VStr "RTL-SDR Waterfall"; VInt 1]] /\
     invocations qtgui_freq_sink "set_update_time" evs = [[VFloat 0.05]] /\
     invocations qtgui_waterfall_sink "set_update_time" evs = [[VFloat 0.05]] /\
     invocations qtgui_freq_sink "set_y_axis" evs = [[VInt (-140); VInt 10]] /\
     invocations qtgui_waterfall_sink "set_intensity_range" evs
     = [[VInt (-140); VInt 10]] /\
     invocations qtgui_freq_sink "enable_grid" evs = [[VBool true]] /\
     invocations qtgui_waterfall_sink "enable_grid" evs = [[VBool true]] /\
     invocations qtgui_freq_sink "enable_axis_labels" evs = [[VBool true]] /\
     invocations qtgui_waterfall_sink "enable_axis_labels" evs = [[VBool true]] /\
     invocations qtgui_freq_sink "set_fft_average" evs = [[VFloat 0.2]] /\
     invocations qtgui_waterfall_sink "set_fft_average" evs = []) /\
    ((forall u, fst (run st) <> Normal u) -> exit_status (fst (run st)) = 1%Z).
Proof.
  intros w uf cf sr g d st run evs. split; [|split].
  - apply RtlsdrFosphor_conforms.
  - subst evs run. intros Hn.
    destruct (RtlsdrFosphor w uf cf sr g d st) as [o st'] eqn:E.
    cbn [fst] in Hn. subst o.
    destruct (RtlsdrFosphor_normal_visualization w uf cf sr g d st st' E)
      as (s4 & s5 & pre & E4 & Fpre & Hcf & Hsr & Ev & E').
    destruct (visualization_standard_configuration w uf s4 s5 Ev)
      as (viz & E5 & Hviz).
    assert (Htr : trace (snd (RtlsdrFosphor w uf cf sr g d st))
                  = trace st ++ pre ++ viz ++ shown).
    { rewrite E. cbn [snd]. rewrite E', E5, E4, <- !app_assoc. reflexivity. }
    rewrite (events_of_eq _ _ _ Htr). intros Hb.
    assert (Fp : Forall (fun ev => touches_sinks ev || is_banner ev = false) pre)
      by (apply forallb_Forall_false; exact Fpre).
    assert (Fs : Forall (fun ev => touches_sinks ev = false) pre).
    { eapply Forall_impl; [|exact Fp]. cbn beta. intros ev H.
      apply orb_false_iff in H. tauto. }
    assert (Fb : existsb is_banner pre = false).
    { apply existsb_none. eapply Forall_impl; [|exact Fp]. cbn beta. intros ev H.
      apply orb_false_iff in H. tauto. }
    rewrite !existsb_app, Fb in Hb. cbn [orb] in Hb.
    assert (Hv : existsb is_banner viz = true).
    { destruct (existsb is_banner viz); [reflexivity|].
      vm_compute in Hb. discriminate Hb. }
    rewrite <- Hcf, <- Hsr.
    apply (standard_configuration_app _ _ pre viz shown Fs);
      [repeat constructor | exact (Hviz Hv)].
  - intros Hn. apply exits_1_status; [apply exits_1_RtlsdrFosphor | exact Hn].
Qed.

(** 433.92 MHz at 2.4 MS/s with the GPU capability, where neither
    fosphor sink can be constructed: the standard pair shows the
    frequency and the rate given to __init__. *)
Lemma standard_sinks_configuration_witness :
  let evs := events_of (RtlsdrFosphor fosphor_fails true 433.92e6 2.4e6 (VInt 35) 1)
               initial_state in
  news "qtgui.freq_sink_c" evs
  = [[VInt 2048; VName "window.WIN_BLACKMAN_hARRIS"; VFloat 433.92e6; VFloat 2.4e6;
      VStr "RTL-SDR Spectrum"; VInt 1]] /\
  news "qtgui.waterfall_sink_c" evs
  = [[VInt 2048; VName "window.WIN_BLACKMAN_hARRIS"; VFloat 433.92e6; VFloat 2.4e6;
      VStr "RTL-SDR Waterfall"; VInt 1]] /\
  invocations qtgui_freq_sink "set_update_time" evs = [[VFloat 0.05]] /\
  invocations qtgui_waterfall_sink "set_update_time" evs = [[VFloat 0.05]] /\
  invocations qtgui_freq_sink "set_y_axis" evs = [[VInt (-140); VInt 10]] /\
  invocations qtgui_waterfall_sink "set_intensity_range" evs
  = [[VInt (-140); VInt 10]] /\
  invocations qtgui_freq_sink "enable_grid" evs = [[VBool true]] /\
  invocations qtgui_waterfall_sink "enable_grid" evs = [[VBool true]] /\
  invocations qtgui_freq_sink "enable_axis_labels" evs = [[VBool true]] /\
  invocations qtgui_waterfall_sink "enable_axis_labels" evs = [[VBool true]] /\
  invocations qtgui_freq_sink "set_fft_average" evs = [[VFloat 0.2]] /\
  invocations qtgui_waterfall_sink "set_fft_average" evs = [].
Proof.
  apply (proj1 (proj2 (standard_sinks_configuration fosphor_fails true 433.92e6 2.4e6
                         (VInt 35) 1 initial_state))).
  - vm_compute. reflexivity.
  - vm_compute. reflexivity.
Defined.

(** The standard path is taken, but the constructor of the frequency
    sink raises: no sink is constructed, the waterfall sink is not even
    attempted, and the process ends with status 1. *)
Lemma standard_sinks_configuration_counterexample :
  let run := RtlsdrFosphor freq_sink_fails false 100e6 2e6 (VInt 20) 0 in
  existsb is_banner (events_of run initial_state) = true /\
  fst (run initial_state) = Exited 1 /\
  filter is_standard_ctor (filter returned (events_of run initial_state)) = [] /\
  news "qtgui.waterfall_sink_c" (events_of run initial_state) = [] /\
  ~ standard_path_constructs_both_sinks freq_sink_fails initial_state.
Proof.
  split; [vm_compute; reflexivity|]. split; [vm_compute; reflexivity|].
  split; [vm_compute; reflexivity|]. split; [vm_compute; reflexivity|].
  intros H.
  assert (Hb : existsb is_banner
                 (events_of (RtlsdrFosphor freq_sink_fails false 100e6 2e6 (VInt 20) 0)
                    initial_state) = true) by (vm_compute; reflexivity).
  specialize (H false 100e6%float 2e6%float (VInt 20) 0 Hb).
  vm_compute in H. discriminate H.
Qed.

(** ** Sample runs *)

(** The defaults with gr-fosphor installed and nothing raising: one
    source, the Qt fosphor sink, one widget in the layout, and the
    flowgraph is started. *)
Example gpu_sink_run :
  let r := script (plain quiet) default_args initial_state in
  fst r = Normal tt /\
  edges (snd r) = [(rtlsdr_source, fosphor_qt_sink)] /\
  layout (snd r) = [fosphor_win] /\
  count_new "source" (trace (snd r)) = 1%nat /\
  count_top "start" (trace (snd r)) = 1%nat.
Proof. vm_compute. repeat split. Qed.

(** The same without gr-fosphor: one source, the two qtgui sinks, two
    widgets in the layout. *)
Example standard_run :
  let r := script no_fosphor default_args initial_state in
  fst r = Normal tt /\
  edges (snd r) = [(rtlsdr_source, qtgui_freq_sink);
                   (rtlsdr_source, qtgui_waterfall_sink)] /\
  layout (snd r) = [qtgui_freq_sink_win; qtgui_waterfall_sink_win] /\
  count_new "source" (trace (snd r)) = 1%nat.
Proof. vm_compute. repeat split. Qed.

(** With gr-fosphor installed but neither of its sinks constructible,
    the chain ends at the standard pair. *)
Example both_fosphor_sinks_fail :
  let r := script fosphor_fails default_args initial_state in
  fst r = Normal tt /\
  calls (events_of (setup_fosphor_visualization fosphor_fails) initial_state)
  = qt_ctor :: glfw_ctor :: standard_calls initial_state /\
  edges (snd r) = [(rtlsdr_source, qtgui_freq_sink);
                   (rtlsdr_source, qtgui_waterfall_sink)].
Proof. vm_compute. repeat split. Qed.

(** Without a dongle the flowgraph cannot be constructed: the process
    ends with status 1 and no sink was created. *)
Example no_dongle_run :
  let r := script no_dongle default_args initial_state in
  fst r = Exited 1 /\
  filter is_sink_ctor (trace (snd r)) = [] /\
  calls (events_of (create_source no_dongle) initial_state) = [open_source 0].
Proof. vm_compute. repeat split. Qed.

(** --detect without a dongle: one probe, the "No RTL-SDR devices found"
    line, and status 0. *)
Example no_dongle_detect :
  let r := main no_dongle true detect_args initial_state in
  fst r = Exited 0 /\
  trace (snd r)
  = [Print [Text (nl ++ "Detecting RTL-SDR devices...")%string];
     Called (open_source 0) (Some no_device);
     Print [Text "  No RTL-SDR devices found"%string];
     SysExit 0].
Proof. vm_compute. repeat split. Qed.

(** * Further properties *)

(** ** setup_dll_paths *)

Lemma string_app_assoc (a b c : string) :
  (a ++ b ++ c)%string = ((a ++ b) ++ c)%string.
Proof. induction a as [|x a IH]; cbn; [reflexivity | rewrite IH; reflexivity]. Qed.

Lemma string_length_app (a b : string) :
  String.length (a ++ b)%string = (String.length a + String.length b)%nat.
Proof. induction a as [|x a IH]; cbn; [reflexivity | rewrite IH; reflexivity]. Qed.

Lemma split_not_nil sep s : split sep s <> [].
Proof.
  destruct s as [|c r]; cbn; [discriminate|].
  destruct (Ascii.eqb c sep); [discriminate|].
  destruct (split sep r); discriminate.
Qed.

(** Splitting at a separator splits the fields on either side of it. *)
Lemma split_app sep a b :
  split sep (a ++ String sep b)%string = split sep a ++ split sep b.
Proof.
  induction a as [|c r IH]; cbn [String.append split].
  - rewrite Ascii.eqb_refl. reflexivity.
  - destruct (Ascii.eqb c sep); rewrite IH; [reflexivity|].
    destruct (split sep r) eqn:E; [destruct (split_not_nil _ _ E)|].
    reflexivity.
Qed.

Lemma split_no_sep sep d : has_char sep d = false -> split sep d = [d].
Proof.
  induction d as [|c r IH]; cbn; [reflexivity|].
  intros H. apply orb_false_iff in H as (Hc & Hr).
  rewrite Hc, (IH Hr). reflexivity.
Qed.

(** No field holds the separator. *)
Lemma split_fields sep s f : In f (split sep s) -> has_char sep f = false.
Proof.
  revert f. induction s as [|c r IH]; cbn [split]; intros f Hf.
  - destruct Hf as [<-|[]]. reflexivity.
  - destruct (Ascii.eqb c sep) eqn:Ec.
    + destruct Hf as [<-|Hf]; [reflexivity | exact (IH f Hf)].
    + destruct (split sep r) as [|f0 fs].
      * destruct Hf as [<-|[]]. cbn. rewrite Ec. reflexivity.
      * destruct Hf as [<-|Hf].
        -- cbn. rewrite Ec. exact (IH f0 (or_introl eq_refl)).
        -- exact (IH f (or_intror Hf)).
Qed.

Lemma mem_In (d : string) l : existsb (String.eqb d) l = true <-> In d l.
Proof.
  rewrite existsb_exists. split.
  - intros (x & Hx & E). apply String.eqb_eq in E. subst x. exact Hx.
  - intros H. exists d. split; [exact H | apply String.eqb_refl].
Qed.

(** The two ways a block of setup_dll_paths can go. *)
Lemma add_to_path_cases o d env :
  (add_to_path o d env = env /\
   (path_exists o d = false \/ In d (split (pathsep o) (get_path (fst env)))))
  \/
  (add_to_path o d env
   = (Some (d ++ String (pathsep o) (get_path (fst env)))%string,
      snd env ++ [added_line d]) /\
   path_exists o d = true /\
   ~ In d (split (pathsep o) (get_path (fst env)))).
Proof.
  unfold add_to_path, added_line.
  destruct (path_exists o d); cbn [andb]; [|left; split; [reflexivity | left; reflexivity]].
  destruct (existsb (String.eqb d) (split (pathsep o) (get_path (fst env)))) eqn:E;
    cbn [negb].
  - left. split; [reflexivity|]. right. apply mem_In. exact E.
  - right. repeat split. intros H. apply mem_In in H. congruence.
Qed.

Lemma setup_dll_paths_fold o p :
  setup_dll_paths o p = add_dirs o (dll_dirs o) (p, []).
Proof. reflexivity. Qed.

Lemma add_dirs_cons o d ds env :
  add_dirs o (d :: ds) env = add_dirs o ds (add_to_path o d env).
Proof. reflexivity. Qed.

Lemma add_dirs_shape o ds env :
  exists added,
    incl added ds /\
    Forall (fun d => path_exists o d = true /\
                     ~ In d (split (pathsep o) (get_path (fst env)))) added /\
    get_path (fst (add_dirs o ds env))
    = (path_prefix (pathsep o) added ++ get_path (fst env))%string /\
    snd (add_dirs o ds env) = snd env ++ map added_line added /\
    (added = [] -> add_dirs o ds env = env).
Proof.
  revert env. induction ds as [|d ds IH]; intros env.
  - exists []. cbn. rewrite app_nil_r. repeat split; auto. intros x [].
  - rewrite add_dirs_cons.
    destruct (add_to_path_cases o d env) as [(E & _)|(E & Hex & Hnot)]; rewrite E.
    + destruct (IH env) as (added & Hi & Hf & Hp & Ho & Hn).
      exists added. repeat split; auto. intros x Hx. right. exact (Hi x Hx).
    + destruct (IH (Some (d ++ String (pathsep o) (get_path (fst env)))%string,
                    snd env ++ [added_line d]))
        as (added & Hi & Hf & Hp & Ho & _).
      cbn [fst snd get_path] in Hf, Hp, Ho.
      exists (d :: added). split; [|split; [|split; [|split]]].
      * intros x [<-|Hx]; [left; reflexivity | right; exact (Hi x Hx)].
      * constructor; [split; assumption|].
        eapply Forall_impl; [|exact Hf]. cbn beta. intros x (Hx & Hn).
        split; [exact Hx|]. intros Hin. apply Hn.
        rewrite split_app. apply in_or_app. right. exact Hin.
      * rewrite Hp. cbn [path_prefix].
        rewrite <- !string_app_assoc. reflexivity.
      * rewrite Ho. rewrite <- app_assoc. reflexivity.
      * discriminate.
Qed.

(** Entries of PATH stay entries. *)
Lemma add_to_path_keeps o d env x :
  In x (split (pathsep o) (get_path (fst env))) ->
  In x (split (pathsep o) (get_path (fst (add_to_path o d env)))).
Proof.
  intros H. destruct (add_to_path_cases o d env) as [(E & _)|(E & _)]; rewrite E;
    [exact H|].
  cbn [fst get_path]. rewrite split_app. apply in_or_app. right. exact H.
Qed.

Lemma add_dirs_keeps o ds env x :
  In x (split (pathsep o) (get_path (fst env))) ->
  In x (split (pathsep o) (get_path (fst (add_dirs o ds env)))).
Proof.
  revert env. induction ds as [|d ds IH]; intros env H; [exact H|].
  rewrite add_dirs_cons. apply IH. apply add_to_path_keeps. exact H.
Qed.

Lemma add_dirs_covers o ds env d :
  In d ds -> path_exists o d = true -> has_char (pathsep o) d = false ->
  In d (split (pathsep o) (get_path (fst (add_dirs o ds env)))).
Proof.
  intros Hin Hex Hsep. revert env.
  induction ds as [|d0 ds IH]; intros env; [destruct Hin|].
  rewrite add_dirs_cons. destruct Hin as [->|Hin]; [|apply IH; exact Hin].
  apply add_dirs_keeps.
  destruct (add_to_path_cases o d env) as [(E & [C|C])|(E & _)]; rewrite E.
  - congruence.
  - exact C.
  - cbn [fst get_path]. rewrite split_app, (split_no_sep _ _ Hsep).
    left. reflexivity.
Qed.

Lemma add_dirs_noop o ds env :
  (forall d, In d ds -> path_exists o d = true ->
             In d (split (pathsep o) (get_path (fst env)))) ->
  add_dirs o ds env = env.
Proof.
  induction ds as [|d ds IH]; intros H; [reflexivity|].
  rewrite add_dirs_cons.
  destruct (add_to_path_cases o d env) as [(E & _)|(E & Hex & Hnot)].
  - rewrite E. apply IH. intros x Hx. apply H. right. exact Hx.
  - destruct Hnot. apply H; [left; reflexivity | exact Hex].
Qed.

(** PATH never gets shorter, and what was printed stays. *)
Lemma add_to_path_grows o d env :
  (String.length (get_path (fst env))
   <= String.length (get_path (fst (add_to_path o d env))))%nat /\
  exists more, snd (add_to_path o d env) = snd env ++ more.
Proof.
  destruct (add_to_path_cases o d env) as [(E & _)|(E & _)]; rewrite E.
  - split; [lia | exists []; rewrite app_nil_r; reflexivity].
  - cbn [fst snd get_path]. split; [|eexists; reflexivity].
    rewrite string_length_app. cbn [String.length]. lia.
Qed.

Lemma add_dirs_grows o ds env :
  (String.length (get_path (fst env))
   <= String.length (get_path (fst (add_dirs o ds env))))%nat /\
  exists more, snd (add_dirs o ds env) = snd env ++ more.
Proof.
  revert env. induction ds as [|d ds IH]; intros env.
  - split; [cbn; lia | exists []; rewrite app_nil_r; reflexivity].
  - rewrite add_dirs_cons.
    destruct (IH (add_to_path o d env)) as (L & more & E).
    destruct (add_to_path_grows o d env) as (L0 & more0 & E0).
    split; [lia|]. exists (more0 ++ more). rewrite E, E0, app_assoc. reflexivity.
Qed.

Lemma add_dirs_readds o ds env d :
  In d ds -> path_exists o d = true -> has_char (pathsep o) d = true ->
  In (added_line d) (snd (add_dirs o ds env)) /\
  (String.length (get_path (fst env))
   < String.length (get_path (fst (add_dirs o ds env))))%nat.
Proof.
  intros Hin Hex Hsep. revert env.
  induction ds as [|d0 ds IH]; intros env; [destruct Hin|].
  rewrite add_dirs_cons. destruct Hin as [->|Hin].
  - destruct (add_dirs_grows o ds (add_to_path o d env)) as (L & more & E).
    destruct (add_to_path_cases o d env) as [(E0 & [C|C])|(E0 & _)].
    + congruence.
    + apply split_fields in C. congruence.
    + rewrite E. rewrite E0 in *. cbn [fst snd get_path] in *. split.
      * apply in_or_app. left. apply in_or_app. right. left. reflexivity.
      * rewrite string_length_app in L. cbn [String.length] in L. lia.
  - destruct (IH Hin (add_to_path o d0 env)) as (I & L).
    destruct (add_to_path_grows o d0 env) as (L0 & _).
    split; [exact I | lia].
Qed.

Lemma add_dirs_not_empty o ds env d :
  In d ds -> path_exists o d = true -> d <> EmptyString ->
  get_path (fst (add_dirs o ds env)) <> EmptyString.
Proof.
  intros Hin Hex Hd. revert env.
  induction ds as [|d0 ds IH]; intros env; [destruct Hin|].
  rewrite add_dirs_cons.
  destruct Hin as [->|Hin]; [|apply IH; exact Hin].
  assert (L : (0 < String.length (get_path (fst (add_to_path o d env))))%nat).
  { destruct (add_to_path_cases o d env) as [(E0 & [C|C])|(E0 & _)]; rewrite E0.
    - congruence.
    - destruct (get_path (fst env)) eqn:Ep; [|cbn; lia].
      cbn in C. destruct C as [C|[]]. congruence.
    - cbn [fst get_path]. rewrite string_length_app. cbn [String.length]. lia. }
  intros E. destruct (add_dirs_grows o ds (add_to_path o d env)) as (L' & _).
  rewrite E in L'. cbn in L'. lia.
Qed.

Lemma path_prefix_ends sep added :
  added <> [] ->
  exists t, path_prefix sep added = (t ++ String sep EmptyString)%string.
Proof.
  destruct added as [|d later]; [congruence|]. intros _.
  exists (path_prefix sep later ++ d)%string. cbn [path_prefix].
  apply string_app_assoc.
Qed.

Lemma string_app_empty (a : string) : (a ++ EmptyString)%string = a.
Proof. induction a as [|x a IH]; cbn; [reflexivity | rewrite IH; reflexivity]. Qed.

(** X1. setup_dll_paths only ever puts directories in front of PATH: the
    new value is the old one behind the directories added, the one
    added last first; each directory added is one of the four, exists,
    and was not an entry of the old PATH; one "Added ... to PATH" line
    is printed for each, in the order they were added; and when none is
    added the variable is left as it was (unset stays unset). *)
Theorem setup_dll_paths_prepends (o : os) (environ : option string) :
  exists added : list string,
    incl added (dll_dirs o) /\
    Forall (fun d => path_exists o d = true /\
                     ~ In d (split (pathsep o) (get_path environ))) added /\
    get_path (fst (setup_dll_paths o environ))
    = (path_prefix (pathsep o) added ++ get_path environ)%string /\
    snd (setup_dll_paths o environ) = map added_line added /\
    (added = [] -> fst (setup_dll_paths o environ) = environ).
Proof.
  rewrite setup_dll_paths_fold.
  destruct (add_dirs_shape o (dll_dirs o) (environ, [])) as (added & Hi & Hf & Hp & Ho & Hn).
  exists added. repeat split; try assumption.
  intros E. rewrite (Hn E). reflexivity.
Qed.

(** X2. After setup_dll_paths, every one of the four directories that
    exists and whose name does not hold the separator is an entry of
    PATH, and every entry of the old PATH still is one. *)
Theorem setup_dll_paths_entries (o : os) (environ : option string) :
  (forall d, In d (dll_dirs o) -> path_exists o d = true ->
             has_char (pathsep o) d = false ->
             In d (split (pathsep o) (get_path (fst (setup_dll_paths o environ))))) /\
  incl (split (pathsep o) (get_path environ))
       (split (pathsep o) (get_path (fst (setup_dll_paths o environ)))).
Proof.
  rewrite setup_dll_paths_fold. split.
  - intros d Hin Hex Hsep. apply add_dirs_covers; assumption.
  - intros x Hx. apply add_dirs_keeps. exact Hx.
Qed.

(** X3. When no existing directory of the four holds the separator in
    its name, running setup_dll_paths a second time changes nothing and
    prints nothing. *)
Theorem setup_dll_paths_idempotent (o : os) (environ : option string) :
  (forall d, In d (dll_dirs o) -> path_exists o d = true ->
             has_char (pathsep o) d = false) ->
  setup_dll_paths o (fst (setup_dll_paths o environ))
  = (fst (setup_dll_paths o environ), []).
Proof.
  intros H. rewrite (setup_dll_paths_fold o (fst _)).
  apply add_dirs_noop. intros d Hin Hex. cbn [fst].
  rewrite setup_dll_paths_fold. apply add_dirs_covers; auto.
Qed.

Lemma setup_dll_paths_idempotent_witness :
  (forall d, In d (dll_dirs conda_os) -> path_exists conda_os d = true ->
             has_char (pathsep conda_os) d = false) /\
  setup_dll_paths conda_os (fst (setup_dll_paths conda_os (Some "/usr/bin"%string)))
  = (fst (setup_dll_paths conda_os (Some "/usr/bin"%string)), []).
Proof.
  assert (H : forall d, In d (dll_dirs conda_os) -> path_exists conda_os d = true ->
                        has_char (pathsep conda_os) d = false).
  { intros d Hin _. vm_compute in Hin.
    destruct Hin as [<-|[<-|[<-|[<-|[]]]]]; vm_compute; reflexivity. }
  split; [exact H|].
  apply (setup_dll_paths_idempotent conda_os (Some "/usr/bin"%string) H).
Defined.

(** X4. A directory of the four that exists and holds the separator in
    its name is never found among the entries of PATH: every call of
    setup_dll_paths puts it in front again, says so, and makes PATH
    longer, whatever PATH held before. *)
Theorem setup_dll_paths_separator_in_name (o : os) (environ : option string) (d : string) :
  In d (dll_dirs o) -> path_exists o d = true -> has_char (pathsep o) d = true ->
  In (added_line d) (snd (setup_dll_paths o environ)) /\
  (String.length (get_path environ)
   < String.length (get_path (fst (setup_dll_paths o environ))))%nat.
Proof.
  intros Hin Hex Hsep. rewrite setup_dll_paths_fold.
  exact (add_dirs_readds o (dll_dirs o) (environ, []) d Hin Hex Hsep).
Qed.

Lemma setup_dll_paths_separator_in_name_witness :
  In (added_line "/opt/py:3/DLLs"%string)
     (snd (setup_dll_paths colon_os (fst (setup_dll_paths colon_os None)))) /\
  (String.length (get_path (fst (setup_dll_paths colon_os None)))
   < String.length
       (get_path (fst (setup_dll_paths colon_os
                         (fst (setup_dll_paths colon_os None))))))%nat.
Proof.
  apply (setup_dll_paths_separator_in_name colon_os
           (fst (setup_dll_paths colon_os None)) "/opt/py:3/DLLs"%string).
  - vm_compute. right. left. reflexivity.
  - vm_compute. reflexivity.
  - vm_compute. reflexivity.
Defined.

(** X5. When PATH is unset or empty and one of the four directories
    exists (its name not empty), the new PATH ends with the separator:
    its last entry is the empty string. *)
Theorem setup_dll_paths_empty_path (o : os) (environ : option string) (d : string) :
  get_path environ = EmptyString ->
  In d (dll_dirs o) -> path_exists o d = true -> d <> EmptyString ->
  exists t,
    get_path (fst (setup_dll_paths o environ))
    = (t ++ String (pathsep o) EmptyString)%string /\
    split (pathsep o) (get_path (fst (setup_dll_paths o environ)))
    = split (pathsep o) t ++ [EmptyString].
Proof.
  intros Hp Hin Hex Hd. rewrite setup_dll_paths_fold.
  pose proof (add_dirs_not_empty o (dll_dirs o) (environ, []) d Hin Hex Hd) as Hne.
  destruct (add_dirs_shape o (dll_dirs o) (environ, []))
    as (added & _ & _ & Hpre & _ & Hn).
  cbn [fst] in Hpre. rewrite Hp, string_app_empty in Hpre.
  destruct added as [|a later].
  - rewrite (Hn eq_refl) in Hne. cbn [fst] in Hne. congruence.
  - destruct (path_prefix_ends (pathsep o) (a :: later)) as (t & Et); [discriminate|].
    exists t. rewrite Hpre, Et. split; [reflexivity|].
    rewrite split_app. reflexivity.
Qed.

Lemma setup_dll_paths_empty_path_witness :
  exists t,
    get_path (fst (setup_dll_paths conda_os None))
    = (t ++ String (pathsep conda_os) EmptyString)%string /\
    split (pathsep conda_os) (get_path (fst (setup_dll_paths conda_os None)))
    = split (pathsep conda_os) t ++ [EmptyString].
Proof.
  apply (setup_dll_paths_empty_path conda_os None "/opt/conda/bin/DLLs"%string).
  - reflexivity.
  - vm_compute. right. left. reflexivity.
  - vm_compute. reflexivity.
  - discriminate.
Defined.

(** ** detect_rtlsdr_devices, whatever the probes do *)

Lemma In_firstn {A} (x : A) n l : In x (firstn n l) -> In x l.
Proof.
  revert l. induction n as [|n IH]; intros [|a l] H; cbn in H; try contradiction.
  destruct H as [->|H]; [left; reflexivity | right; exact (IH l H)].
Qed.

Lemma firstn_range n : (n <= 10)%nat -> firstn n (range 10) = range n.
Proof. intros H. do 11 (destruct n as [|n]; [reflexivity|]). lia. Qed.

Lemma range_NoDup n : NoDup (range n).
Proof.
  unfold range. apply NoDup_map_NoDup_ForallPairs; [|apply seq_NoDup].
  intros x y _ _ H. apply Nat2Z.inj. exact H.
Qed.

(** The loop over any list of distinct indices: it probes a prefix of
    the list, and the entries it adds are those of the indices whose
    call returned. *)
Lemma probe_all_opened w idxs : NoDup idxs -> forall devices st,
  exists n keep evs,
    (n <= length idxs)%nat /\
    fst (probe_all w idxs devices st)
    = Normal (devices ++ map found (filter keep (firstn n idxs))) /\
    trace (snd (probe_all w idxs devices st)) = trace st ++ evs /\
    calls evs = map open_source (firstn n idxs) /\
    filter returned evs
    = map (fun i => ok (open_source i)) (filter keep (firstn n idxs)).
Proof.
  induction 1 as [|i rest Hni Hnd IH]; intros devices st.
  - exists 0%nat, (fun _ => false), []. cbn. rewrite !app_nil_r. auto.
  - destruct (raises w (trace st) (open_source i)) as [e|] eqn:Er.
    + destruct (contains not_found_signature (exn_msg e)) eqn:Ec.
      * exists 1%nat, (fun _ => false).
        exists (Called (open_source i) (Some e)
                :: if i =? 0 then [no_devices_line] else []).
        assert (Es : probe_all w (i :: rest) devices st
                     = (Normal devices,
                        if i =? 0
                        then log no_devices_line (log (Called (open_source i) (Some e)) st)
                        else log (Called (open_source i) (Some e)) st)).
        { cbn [probe_all]. unfold probe, try_except, bind, do. rewrite Er, Ec.
          destruct (i =? 0); reflexivity. }
        rewrite Es. cbn [fst snd firstn filter map]. rewrite app_nil_r.
        split; [cbn; lia|]. split; [reflexivity|].
        destruct (i =? 0); rewrite ?trace_log, <- ?app_assoc; repeat split.
      * assert (Es : probe_all w (i :: rest) devices st
                     = probe_all w rest devices
                         (log (Print [Text ("  Error checking device #" ++ dec i
                                            ++ ": " ++ exn_msg e)%string])
                            (log (Called (open_source i) (Some e)) st))).
        { cbn [probe_all]. unfold bind.
          rewrite (probe_other w i devices st e Er Ec). reflexivity. }
        rewrite Es.
        match goal with |- context [probe_all w rest devices ?s] =>
          destruct (IH devices s) as (n & keep & evs & Hn & Hr & Ht & Hc & Hf)
        end.
        exists (S n), (fun j => negb (j =? i) && keep j),
          (Called (open_source i) (Some e)
           :: Print [Text ("  Error checking device #" ++ dec i ++ ": " ++ exn_msg e)%string]
           :: evs).
        assert (Ek : filter (fun j => negb (j =? i) && keep j) (firstn (S n) (i :: rest))
                     = filter keep (firstn n rest)).
        { cbn [firstn filter]. rewrite Z.eqb_refl. cbn [negb andb].
          apply filter_ext_in. intros j Hj. apply In_firstn in Hj.
          destruct (Z.eqb_spec j i) as [->|]; [contradiction | reflexivity]. }
        rewrite Ek. split; [cbn; lia|]. split; [exact Hr|]. split.
        { rewrite Ht, !trace_log, <- !app_assoc. reflexivity. }
        split; [cbn [calls firstn map]; rewrite Hc; reflexivity|].
        cbn [filter returned]. exact Hf.
    + assert (Es : probe_all w (i :: rest) devices st
                   = probe_all w rest (devices ++ [found i])
                       (log (Print [Text ("  Found device #" ++ dec i ++ ": "
                                          ++ snd (found i))%string])
                          (log (Called (open_source i) None) st))).
      { cbn [probe_all]. unfold bind.
        rewrite (probe_found w i devices st Er). reflexivity. }
      rewrite Es.
      match goal with |- context [probe_all w rest ?d ?s] =>
        destruct (IH d s) as (n & keep & evs & Hn & Hr & Ht & Hc & Hf)
      end.
      exists (S n), (fun j => (j =? i) || keep j),
        (Called (open_source i) None
         :: Print [Text ("  Found device #" ++ dec i ++ ": " ++ snd (found i))%string]
         :: evs).
      assert (Ek : filter (fun j => (j =? i) || keep j) (firstn (S n) (i :: rest))
                   = i :: filter keep (firstn n rest)).
      { cbn [firstn filter]. rewrite Z.eqb_refl. cbn [orb]. f_equal.
        apply filter_ext_in. intros j Hj. apply In_firstn in Hj.
        destruct (Z.eqb_spec j i) as [->|]; [contradiction | reflexivity]. }
      rewrite Ek. split; [cbn; lia|]. split.
      { rewrite Hr. cbn [map]. rewrite <- app_assoc. reflexivity. }
      split.
      { rewrite Ht, !trace_log, <- !app_assoc. reflexivity. }
      split; [cbn [calls firstn map]; rewrite Hc; reflexivity|].
      cbn [filter returned map]. rewrite Hf. reflexivity.
Qed.

Lemma detect_unfold w st :
  detect_rtlsdr_devices w st = probe_all w (range 10) [] (log detecting_line st).
Proof. reflexivity. Qed.

(** X6. Whatever the calls that open a device do, detect_rtlsdr_devices
    returns: it has probed the indices 0 .. n-1 in order, for some n of
    at most 10, and the devices it returns are, in increasing order of
    index and each under the name "RTL-SDR #<index>", exactly the
    indices whose call returned. *)
Theorem detect_returns_opened (w : world) (st : state) :
  exists (n : nat) (keep : Z -> bool),
    (n <= 10)%nat /\
    fst (detect_rtlsdr_devices w st) = Normal (map found (filter keep (range n))) /\
    calls (events_of (detect_rtlsdr_devices w) st) = map open_source (range n) /\
    filter returned (events_of (detect_rtlsdr_devices w) st)
    = map (fun i => ok (open_source i)) (filter keep (range n)).
Proof.
  destruct (probe_all_opened w (range 10) (range_NoDup 10) [] (log detecting_line st))
    as (n & keep & evs & Hn & Hr & Ht & Hc & Hf).
  assert (Hn' : (n <= 10)%nat) by exact Hn.
  rewrite (firstn_range n Hn') in *.
  exists n, keep. split; [exact Hn'|].
  rewrite detect_unfold. split; [exact Hr|].
  assert (E : events_of (detect_rtlsdr_devices w) st = detecting_line :: evs).
  { apply events_of_eq. rewrite detect_unfold, Ht, trace_log, <- app_assoc.
    reflexivity. }
  rewrite E. split; [exact Hc | exact Hf].
Qed.

(** The loop ends before the end of its list only at a failure with the
    signature. *)
Lemma probe_all_no_signature w idxs :
  (forall h i e, raises w h (open_source i) = Some e ->
                 contains not_found_signature (exn_msg e) = false) ->
  forall devices st,
  exists evs,
    trace (snd (probe_all w idxs devices st)) = trace st ++ evs /\
    calls evs = map open_source idxs.
Proof.
  intros H. induction idxs as [|i rest IH]; intros devices st.
  - exists []. cbn. rewrite app_nil_r. auto.
  - cbn [probe_all]. unfold bind.
    destruct (raises w (trace st) (open_source i)) as [e|] eqn:Er.
    + rewrite (probe_other w i devices st e Er (H _ _ _ Er)). cbn [fst snd].
      match goal with |- context [probe_all w rest ?d ?s] =>
        destruct (IH d s) as (evs & Ht & Hc)
      end.
      eexists (_ :: _ :: evs). split.
      * rewrite Ht, !trace_log, <- !app_assoc. reflexivity.
      * cbn [calls map]. rewrite Hc. reflexivity.
    + rewrite (probe_found w i devices st Er). cbn [fst snd].
      match goal with |- context [probe_all w rest ?d ?s] =>
        destruct (IH d s) as (evs & Ht & Hc)
      end.
      eexists (_ :: _ :: evs). split.
      * rewrite Ht, !trace_log, <- !app_assoc. reflexivity.
      * cbn [calls map]. rewrite Hc. reflexivity.
Qed.

(** X7. The enumeration stops before index 9 only at a failure that
    carries the signature: when no failure of a probe carries it, all of
    the indices 0 .. 9 are probed, and no other; and when every probe
    returns, ten devices are returned. *)
Theorem detect_probes_all_ten (w : world) (st : state) :
  (forall h i e, raises w h (open_source i) = Some e ->
                 contains not_found_signature (exn_msg e) = false) ->
  calls (events_of (detect_rtlsdr_devices w) st) = map open_source (range 10) /\
  ((forall h i, raises w h (open_source i) = None) ->
   fst (detect_rtlsdr_devices w st) = Normal (map found (range 10))).
Proof.
  intros H. split.
  - destruct (probe_all_no_signature w (range 10) H [] (log detecting_line st))
      as (evs & Ht & Hc).
    assert (E : events_of (detect_rtlsdr_devices w) st = detecting_line :: evs).
    { apply events_of_eq. rewrite detect_unfold, Ht, trace_log, <- app_assoc.
      reflexivity. }
    rewrite E. exact Hc.
  - intros Hall. rewrite detect_unfold.
    destruct (probe_all_found w (range 10) [] [] (log detecting_line st))
      as (st' & E & _); [intros; apply Hall|].
    rewrite app_nil_r in E. rewrite E. reflexivity.
Qed.

Lemma detect_probes_all_ten_witness :
  calls (events_of (detect_rtlsdr_devices (plain quiet)) initial_state)
  = map open_source (range 10) /\
  ((forall h i, raises (plain quiet) h (open_source i) = None) ->
   fst (detect_rtlsdr_devices (plain quiet) initial_state)
   = Normal (map found (range 10))).
Proof.
  apply (detect_probes_all_ten (plain quiet) initial_state).
  intros h i e H. vm_compute in H. discriminate H.
Defined.

Lemma probe_no_line w i devices :
  i <> 0 -> only (fun ev => ev <> no_devices_line) (probe w i devices).
Proof.
  intros Hi. apply Z.eqb_neq in Hi. unfold probe. rewrite Hi.
  only_auto; unfold no_devices_line; cbn; discriminate.
Qed.

Lemma probe_all_no_line w idxs :
  Forall (fun i => i <> 0) idxs ->
  forall devices, only (fun ev => ev <> no_devices_line) (probe_all w idxs devices).
Proof.
  induction 1 as [|i rest Hi _ IH]; intros devices; cbn [probe_all].
  - apply only_ret.
  - apply only_bind; [apply probe_no_line; exact Hi|].
    intros [[|] d]; cbn [fst snd]; [apply IH | apply only_ret].
Qed.

(** After index 0 the line cannot be printed any more. *)
Lemma tail_no_line w devices st evs :
  trace (snd (probe_all w (tl (range 10)) devices st)) = trace st ++ evs ->
  ~ In no_devices_line evs.
Proof.
  intros E Hin.
  assert (F : Forall (fun i => i <> 0) (tl (range 10))).
  { cbn. repeat constructor; discriminate. }
  destruct (probe_all_no_line w _ F devices st) as (evs' & E' & F').
  rewrite E in E'. apply app_inv_head in E'. subst evs'.
  rewrite Forall_forall in F'. exact (F' _ Hin eq_refl).
Qed.

(** X8. "No RTL-SDR devices found" is printed exactly when the probe of
    index 0 fails with the signature; the enumeration then returns no
    device and has probed index 0 only.  An empty result for any other
    reason comes without this line. *)
Theorem no_devices_line_iff (w : world) (st : state) :
  (In no_devices_line (events_of (detect_rtlsdr_devices w) st) <->
   exists e, raises w (trace st ++ [detecting_line]) (open_source 0) = Some e /\
             contains not_found_signature (exn_msg e) = true) /\
  (In no_devices_line (events_of (detect_rtlsdr_devices w) st) ->
   fst (detect_rtlsdr_devices w st) = Normal [] /\
   calls (events_of (detect_rtlsdr_devices w) st) = [open_source 0]).
Proof.
  assert (Hr : range 10 = 0 :: tl (range 10)) by reflexivity.
  assert (Hcases :
    (exists e, raises w (trace st ++ [detecting_line]) (open_source 0) = Some e /\
               contains not_found_signature (exn_msg e) = true /\
               fst (detect_rtlsdr_devices w st) = Normal [] /\
               events_of (detect_rtlsdr_devices w) st
               = [detecting_line; Called (open_source 0) (Some e); no_devices_line])
    \/
    ((forall e, raises w (trace st ++ [detecting_line]) (open_source 0) = Some e ->
                contains not_found_signature (exn_msg e) = false) /\
     ~ In no_devices_line (events_of (detect_rtlsdr_devices w) st))).
  { destruct (raises w (trace st ++ [detecting_line]) (open_source 0)) as [e|] eqn:Er.
    - destruct (contains not_found_signature (exn_msg e)) eqn:Ec.
      + left. exists e. split; [reflexivity|]. split; [exact Ec|].
        assert (Es : detect_rtlsdr_devices w st
                     = (Normal [],
                        log no_devices_line
                          (log (Called (open_source 0) (Some e))
                             (log detecting_line st)))).
        { rewrite detect_unfold, Hr. cbn [probe_all].
          unfold probe, try_except, bind, do. rewrite trace_log, Er, Ec.
          reflexivity. }
        split; [rewrite Es; reflexivity|].
        apply events_of_eq. rewrite Es. cbn [snd].
        rewrite !trace_log, <- !app_assoc. reflexivity.
      + right. split; [intros e' E'; congruence|].
        assert (Ep := probe_other w 0 [] (log detecting_line st) e).
        rewrite trace_log in Ep. specialize (Ep Er Ec).
        match type of Ep with _ = (_, ?s) =>
          destruct (only_probe_all w (fun _ => True) (fun _ => I) (fun _ _ => I)
                      (tl (range 10)) [] s) as (evs & Ht & _);
          pose proof (tail_no_line w [] s evs Ht) as Hno
        end.
        erewrite events_of_eq.
        2:{ rewrite detect_unfold, Hr. cbn [probe_all]. unfold bind.
            rewrite Ep. cbn [fst snd]. rewrite Ht, !trace_log, <- !app_assoc.
            reflexivity. }
        cbn [app]. intros [C|[C|[C|C]]]; try discriminate C.
        exact (Hno C).
    - right. split; [intros e' E'; congruence|].
      assert (Ep := probe_found w 0 [] (log detecting_line st)).
      rewrite trace_log in Ep. specialize (Ep Er).
      match type of Ep with _ = (_, ?s) =>
        destruct (only_probe_all w (fun _ => True) (fun _ => I) (fun _ _ => I)
                    (tl (range 10)) ([] ++ [found 0]) s) as (evs & Ht & _);
        pose proof (tail_no_line w ([] ++ [found 0]) s evs Ht) as Hno
      end.
      erewrite events_of_eq.
      2:{ rewrite detect_unfold, Hr. cbn [probe_all]. unfold bind.
          rewrite Ep. cbn [fst snd]. rewrite Ht, !trace_log, <- !app_assoc.
          reflexivity. }
      cbn [app]. intros [C|[C|[C|C]]]; try discriminate C.
      exact (Hno C). }
  destruct Hcases as [(e & Er & Ec & Hres & Hev)|(Hno & Hnot)].
  - split.
    + split; [intros _; exists e; auto|]. intros _. rewrite Hev.
      right. right. left. reflexivity.
    + intros _. split; [exact Hres|]. rewrite Hev. reflexivity.
  - split.
    + split; [intros H; destruct (Hnot H)|].
      intros (e & Er & Ec). rewrite (Hno e Er) in Ec. discriminate Ec.
    + intros H. destruct (Hnot H).
Qed.

(** ** The construction: what can and what cannot go wrong *)

Section NeverRaises.

Lemma never_raises_ret {A} (a : A) : never_raises (ret a).
Proof. intros st e H. discriminate H. Qed.

Lemma never_raises_get : never_raises get.
Proof. intros st e H. discriminate H. Qed.

Lemma never_raises_modify f : never_raises (modify f).
Proof. intros st e H. discriminate H. Qed.

Lemma never_raises_print line : never_raises (print line).
Proof. intros st e H. discriminate H. Qed.

Lemma never_raises_print_exc e : never_raises (print_exc e).
Proof. intros st e' H. discriminate H. Qed.

Lemma never_raises_sys_exit {A} c : never_raises (@sys_exit A c).
Proof. intros st e H. discriminate H. Qed.

Lemma never_raises_bind {A B} (m : M A) (k : A -> M B) :
  never_raises m -> (forall a, never_raises (k a)) -> never_raises (bind m k).
Proof.
  intros Hm Hk st e. unfold bind. specialize (Hm st).
  destruct (m st) as [[a|e'|c] st1]; cbn [fst] in *.
  - apply Hk.
  - destruct (Hm e' eq_refl).
  - discriminate.
Qed.

(** A try whose handler lets nothing out lets nothing out, whatever its
    body does. *)
Lemma never_raises_try {A} (body : M A) (h : exn -> M A) :
  (forall e, never_raises (h e)) -> never_raises (try_except body h).
Proof.
  intros Hh st e. unfold try_except.
  destruct (body st) as [[a|e'|c] st1]; cbn [fst]; try discriminate.
  apply Hh.
Qed.

End NeverRaises.

Ltac never_raises_step :=
  first
    [ apply never_raises_try; intro
    | apply never_raises_bind; [| intro]
    | apply never_raises_ret
    | apply never_raises_get
    | apply never_raises_modify
    | apply never_raises_print
    | apply never_raises_print_exc
    | apply never_raises_sys_exit
    | match goal with
      | |- never_raises (if ?b then _ else _) => destruct b
      | |- never_raises (match ?x with _ => _ end) => destruct x
      end ].

Lemma never_raises_standard w : never_raises (setup_standard_visualization w).
Proof. unfold setup_standard_visualization. repeat never_raises_step. Qed.

Lemma never_raises_fosphor w : never_raises (setup_fosphor_visualization w).
Proof.
  unfold setup_fosphor_visualization.
  repeat first [apply never_raises_standard | never_raises_step].
Qed.

Lemma never_raises_create_source w : never_raises (create_source w).
Proof. unfold create_source. repeat never_raises_step. Qed.

Section RaisesFrom.

Variable U : call -> Prop.

Lemma raises_from_never {A} (m : M A) : never_raises m -> raises_from U m.
Proof. intros H st e E. destruct (H st e E). Qed.

Lemma raises_from_do w c : U c -> raises_from U (do w c).
Proof.
  intros Hc st e. unfold do.
  destruct (raises w (trace st) c) as [e'|]; cbn [fst snd]; [|discriminate].
  intros [= ->]. exists [], c. split; [reflexivity | exact Hc].
Qed.

Lemma raises_from_bind {A B} (m : M A) (k : A -> M B) :
  only (fun _ => True) m ->
  raises_from U m -> (forall a, raises_from U (k a)) -> raises_from U (bind m k).
Proof.
  intros Hg Hm Hk st e. unfold bind.
  destruct (Hg st) as (evs1 & E1 & _). specialize (Hm st).
  destruct (m st) as [[a|e'|c] st1]; cbn [fst snd] in *.
  - intros E. destruct (Hk a st1 e E) as (evs & c & Et & Hc).
    exists (evs1 ++ evs), c. split; [|exact Hc].
    rewrite Et, E1, <- !app_assoc. reflexivity.
  - intros [= ->]. exact (Hm e eq_refl).
  - discriminate.
Qed.

End RaisesFrom.

Lemma raises_from_create_window w : raises_from (unguarded w) (create_window w).
Proof.
  unfold create_window, unguarded, window_calls.
  destruct (qapp_exists w);
    repeat (apply raises_from_bind; [only_auto; exact I | | intro]);
    first [ apply raises_from_never, never_raises_ret
          | apply raises_from_do; right; left; cbn [app In]; tauto ].
Qed.

Lemma grows_create_window w : only (fun _ => True) (create_window w).
Proof. unfold create_window. only_auto; exact I. Qed.

Lemma grows_create_source w : only (fun _ => True) (create_source w).
Proof. unfold create_source. only_auto; exact I. Qed.

Lemma grows_visualization w (uf : bool) :
  only (fun _ => True)
    (if uf then setup_fosphor_visualization w else setup_standard_visualization w).
Proof.
  destruct uf; unfold setup_fosphor_visualization, setup_standard_visualization;
    only_auto; exact I.
Qed.

(** X9. The three guarded parts of __init__ (creating the source and the
    two visualization set-ups) never let an exception out: they return
    or end the process.  An exception that does come out of __init__ was
    raised by the last call made, and this call is one of those outside
    every try: the constructor of the base class, the creation of the Qt
    application, the window or the layout, or show(). *)
Theorem unguarded_calls_raise :
  forall (w : world),
    never_raises (create_source w) /\
    never_raises (setup_fosphor_visualization w) /\
    never_raises (setup_standard_visualization w) /\
    forall (use_fosphor : bool) (cf sr : float) (g : pyval) (d : Z) (st : state) (e : exn),
      fst (RtlsdrFosphor w use_fosphor cf sr g d st) = Raised e ->
      exists evs c,
        events_of (RtlsdrFosphor w use_fosphor cf sr g d) st
        = evs ++ [Called c (Some e)] /\
        unguarded w c.
Proof.
  intros w.
  split; [apply never_raises_create_source|].
  split; [apply never_raises_fosphor|].
  split; [apply never_raises_standard|].
  intros uf cf sr g d st e H.
  assert (R : raises_from (unguarded w) (RtlsdrFosphor w uf cf sr g d)).
  { unfold RtlsdrFosphor.
    apply raises_from_bind;
      [only_auto; exact I | apply raises_from_do; left; reflexivity | intro].
    apply raises_from_bind;
      [only_auto; exact I | apply raises_from_never, never_raises_modify | intro].
    apply raises_from_bind;
      [apply grows_create_window | apply raises_from_create_window | intro].
    apply raises_from_bind;
      [apply grows_create_source
      | apply raises_from_never, never_raises_create_source | intro].
    apply raises_from_bind; [apply grows_visualization | | intro].
    { apply raises_from_never.
      destruct uf; [apply never_raises_fosphor | apply never_raises_standard]. }
    apply raises_from_bind;
      [only_auto; exact I | apply raises_from_do; right; right; reflexivity | intro].
    apply raises_from_never, never_raises_print. }
  destruct (R st e H) as (evs & c & Et & Hc).
  exists evs, c. split; [|exact Hc].
  apply events_of_eq. exact Et.
Qed.

Lemma unguarded_calls_raise_witness :
  exists evs c,
    events_of (RtlsdrFosphor no_display true 100e6 2e6 (VInt 20) 0) initial_state
    = evs ++ [Called c (Some (mkExn OtherError "could not connect to display"))] /\
    unguarded no_display c.
Proof.
  apply (proj2 (proj2 (proj2 (unguarded_calls_raise no_display)))).
  vm_compute. reflexivity.
Defined.

(** X10. When the calls that create and configure the source return,
    create_source returns, with or without get_tuner_type and also when
    that query raises: the failure of the query is swallowed and leaves
    nothing but the failed call in the trace. *)
Theorem tuner_query_never_fatal (w : world) (st : state) :
  (forall h c, In c (source_calls st) -> raises w h c = None) ->
  fst (create_source w st) = Normal tt /\
  exists extra,
    tuner_query w extra /\
    events_of (create_source w) st = source_events st ++ extra.
Proof.
  intros Hq.
  assert (Hn : fst (create_source w st) = Normal tt).
  { destruct st as [tr sr cf g d fs lay ed].
    destruct (create_source w (mkState tr sr cf g d fs lay ed)) as [o st'] eqn:E.
    unfold create_source in E. unfold_in E.
    repeat (match type of E with
            | context [raises ?w ?h ?c] =>
                first [ rewrite (Hq h c) in E
                          by (cbv beta iota delta
                                [source_calls device_index samp_rate center_freq gain];
                              repeat (first [left; reflexivity | right]))
                      | destruct (raises w h c) ]
            | context [if has_get_tuner_type ?w then _ else _] =>
                destruct (has_get_tuner_type w)
            end;
            unfold_in E);
      apply (f_equal fst) in E; cbv beta iota delta [fst] in E; subst o; reflexivity. }
  split; [exact Hn|].
  destruct (create_source w st) as [o st'] eqn:E. cbn [fst] in Hn. subst o.
  destruct (create_source_normal w st st' E) as (extra & Hx & ->).
  exists extra. split; [exact Hx|].
  apply events_of_eq. rewrite E. cbn [snd trace]. unfold source_events.
  cbn [app]. rewrite <- ?app_assoc. reflexivity.
Qed.

Lemma tuner_query_never_fatal_witness :
  fst (create_source tuner_query_fails initial_state) = Normal tt /\
  exists extra,
    tuner_query tuner_query_fails extra /\
    events_of (create_source tuner_query_fails) initial_state
    = source_events initial_state ++ extra.
Proof.
  apply (tuner_query_never_fatal tuner_query_fails initial_state).
  intros h c Hc. vm_compute in Hc.
  repeat (destruct Hc as [<-|Hc]; [vm_compute; reflexivity|]). destruct Hc.
Defined.

(** The monad's operations unfolded in the goal. *)
Ltac unfold_monad :=
  cbv beta iota delta
    [bind do try_except ret print modify get sys_exit raise print_exc
     import_ connect wrapinstance addWidget set_frequency_range].

(** X11. setup_standard_visualization binds its local name qtgui only
    when 'qtgui' is not in sys.modules.  When it is, the function fails
    before it has called anything: it prints its banner, the diagnostic
    of the UnboundLocalError, with the message of the interpreter that
    runs the script, and the traceback, and ends the process with
    status 1; so __init__ without fosphor never completes then. *)
Theorem stray_qtgui_module_is_fatal (w : world) :
  qtgui_in_sys_modules w = true ->
  (forall st,
     fst (setup_standard_visualization w st) = Exited 1 /\
     events_of (setup_standard_visualization w) st
     = [standard_banner;
        Print [Text ("Error setting up standard visualization: "
                     ++ unbound_local_message w)%string];
        PrintExc (mkExn UnboundLocalError (unbound_local_message w));
        SysExit 1]) /\
  (forall cf sr g d st, fst (RtlsdrFosphor w false cf sr g d st) <> Normal tt).
Proof.
  intros Hq. split.
  - intros st. unfold events_of, setup_standard_visualization.
    unfold_monad. rewrite Hq. unfold_monad.
    split; [reflexivity|]. cbn [snd trace]. rewrite !trace_log, <- !app_assoc.
    rewrite skipn_app_exact. reflexivity.
  - intros cf sr g d st H.
    destruct (RtlsdrFosphor w false cf sr g d st) as [o st'] eqn:E.
    cbn [fst] in H. subst o. unfold RtlsdrFosphor in E.
    apply bind_normal_inv in E as ([] & s1 & _ & E).
    apply bind_normal_inv in E as ([] & s2 & _ & E).
    apply bind_normal_inv in E as ([] & s3 & _ & E).
    apply bind_normal_inv in E as ([] & s4 & _ & E).
    apply bind_normal_inv in E as ([] & s5 & E5 & _).
    apply setup_standard_visualization_normal in E5 as (Hf & _).
    congruence.
Qed.

Lemma stray_qtgui_module_is_fatal_witness :
  (forall st,
     fst (setup_standard_visualization stray_qtgui st) = Exited 1 /\
     events_of (setup_standard_visualization stray_qtgui) st
     = [standard_banner;
        Print [Text ("Error setting up standard visualization: "
                     ++ python_3_10_message)%string];
        PrintExc (mkExn UnboundLocalError python_3_10_message);
        SysExit 1]) /\
  (forall cf sr g d st,
     fst (RtlsdrFosphor stray_qtgui false cf sr g d st) <> Normal tt).
Proof. apply (stray_qtgui_module_is_fatal stray_qtgui). reflexivity. Defined.

(** ** The fosphor sink that ends up connected *)

(** X12. When setup_fosphor_visualization completes with a fosphor sink
    connected to the source (the Qt sink or the GLFW sink),
    set_frequency_range was called on this sink exactly once, with
    self.center_freq and self.samp_rate, in this order. *)
Theorem fosphor_sink_frequency_range (w : world) (st : state) (b : block) :
  fst (setup_fosphor_visualization w st) = Normal tt ->
  b = fosphor_qt_sink \/ b = fosphor_glfw_sink ->
  existsb (is_connected b) (events_of (setup_fosphor_visualization w) st) = true ->
  invocations b "set_frequency_range" (events_of (setup_fosphor_visualization w) st)
  = [[VFloat (center_freq st); VFloat (samp_rate st)]].
Proof.
  unfold events_of. destruct st as [tr sr cf g d fs lay ed].
  destruct (setup_fosphor_visualization w (mkState tr sr cf g d fs lay ed))
    as [o st'] eqn:E.
  cbn [fst snd]. intros -> Hb. unfold setup_fosphor_visualization in E.
  run_in E; try discriminate E;
    lazymatch type of E with
    | setup_standard_visualization _ _ = _ =>
        apply setup_standard_visualization_normal in E; destruct E as (_ & ->)
    | _ => final_state E st'
    end;
    cbv beta iota delta [trace samp_rate center_freq];
    rewrite <- ?app_assoc; rewrite skipn_app_exact;
    destruct Hb as [-> | ->]; vm_compute; intros Hc;
    first [discriminate Hc | reflexivity].
Qed.

Lemma fosphor_sink_frequency_range_witness :
  invocations fosphor_glfw_sink "set_frequency_range"
    (events_of (setup_fosphor_visualization qt_fails) initial_state)
  = [[VFloat (center_freq initial_state); VFloat (samp_rate initial_state)]].
Proof.
  apply (fosphor_sink_frequency_range qt_fails initial_state fosphor_glfw_sink).
  - vm_compute. reflexivity.
  - right. reflexivity.
  - vm_compute. reflexivity.
Defined.

(** ** main and the script *)

Lemma only_print_devices P devices :
  (forall line, P (Print line)) -> only P (print_devices devices).
Proof.
  intros HP. induction devices as [|[idx name] devices IH]; cbn [print_devices].
  - apply only_ret.
  - apply only_bind; [apply only_print, HP | intro; exact IH].
Qed.

Lemma only_detect_and_exit w P :
  (forall line, P (Print line)) ->
  (forall i o, P (Called (open_source i) o)) ->
  (forall c, P (SysExit c)) ->
  only P (detect_and_exit w).
Proof.
  intros HP HO HE. unfold detect_and_exit.
  apply only_bind; [apply only_detect; assumption | intros devices].
  apply only_bind; [|intro; apply only_sys_exit, HE].
  destruct devices as [|dv devices]; [apply only_ret|].
  apply only_bind; [apply only_print, HP | intro].
  apply only_bind; [apply only_print_devices, HP | intro].
  apply only_print, HP.
Qed.

Lemma only_RtlsdrFosphor_no_start w uf cf sr g d :
  only (fun ev => is_top_call "start" ev = false) (RtlsdrFosphor w uf cf sr g d).
Proof.
  unfold RtlsdrFosphor, setup_fosphor_visualization, setup_standard_visualization.
  only_auto; reflexivity.
Qed.

(** With --detect, main is the detect branch. *)
Lemma main_detect w uf a st :
  arg_detect a = true ->
  fst (main w uf a st) = Exited 0 /\
  events_of (main w uf a) st = events_of (detect_and_exit w) st.
Proof.
  intros Hd. destruct (detect_and_exit_run w st) as (devices & st' & _ & Hrun & _).
  assert (Hmain : main w uf a st = (Exited 0, st')).
  { unfold main. rewrite Hd. unfold bind at 1. rewrite Hrun. reflexivity. }
  unfold events_of. rewrite Hmain, Hrun. split; reflexivity.
Qed.

(** Without --detect, main is __init__ and then the rest. *)
Lemma main_construct w uf a st :
  arg_detect a = false ->
  main w uf a st
  = bind (RtlsdrFosphor w uf (arg_freq a) (arg_samp_rate a) (arg_gain a) (arg_device a))
      (fun _ =>
         do w (New "signal.signal" [VName "signal.SIGINT"; VName "sig_handler"]) ;;
         do w (New "signal.signal" [VName "signal.SIGTERM"; VName "sig_handler"]) ;;
         print [Text (nl ++ "Starting RTL-SDR" ++ (if uf then " Fosphor" else "")
                        ++ " Spectrum Analyzer with:")%string] ;;
         print [Text ("  Device Index: " ++ dec (arg_device a))%string] ;;
         print [Text "  Center Frequency: "%string; Fixed3 (arg_freq a / 1e6)%float;
                Text " MHz"%string] ;;
         print [Text "  Sample Rate: "%string; Fixed3 (arg_samp_rate a / 1e6)%float;
                Text " MHz"%string] ;;
         print [Text "  Gain: "%string; Show (arg_gain a); Text " dB"%string] ;;
         print [Text "Press Ctrl+C to exit"%string] ;;
         do w (Invoke OTop "start" []))%py st.
Proof. intros Hd. unfold main. rewrite Hd. reflexivity. Qed.

Lemma never_raises_import_modules w : never_raises (import_modules w).
Proof. unfold import_modules. repeat never_raises_step. Qed.

Lemma exits_1_import_modules w : exits_1 (import_modules w).
Proof. unfold import_modules, import_fosphor, import_osmosdr. exits_auto. Qed.


(** ** The import block, when it completes and when a required import fails *)

(** X18. When the import block completes, the imports made are the
    seven required ones, then fosphor, then qtgui exactly when the
    import of fosphor raised, then the osmosdr source; use_fosphor is
    True exactly when the import of fosphor returned.  When one of the
    seven required imports raises, the process ends with status 1 and no
    further import is attempted. *)
Theorem import_block_order (w : world) (st : state) :
  (forall uf,
     fst (import_modules w st) = Normal uf ->
     calls (events_of (import_modules w) st)
     = required_imports
       ++ Import "gnuradio" "fosphor"
          :: (if uf then [] else [Import "gnuradio" "qtgui"])
       ++ [Import "osmosdr" "source"] /\
     uf = negb (existsb (import_raised "fosphor") (events_of (import_modules w) st)))
  /\
  (forall name,
     In name required_names ->
     existsb (import_raised name) (events_of (import_modules w) st) = true ->
     fst (import_modules w st) = Exited 1 /\
     calls (after_failed_import name (events_of (import_modules w) st)) = []).
Proof.
  destruct st as [tr sr cf g d fs lay ed]. unfold events_of.
  destruct (import_modules w (mkState tr sr cf g d fs lay ed)) as [o st'] eqn:E.
  cbv beta iota delta [fst snd].
  unfold import_modules, import_osmosdr, import_fosphor in E.
  run_imports_in E;
    pose proof (f_equal fst E) as Eo; pose proof (f_equal snd E) as Es;
    cbv beta iota delta [fst snd] in Eo, Es; subst o st';
    cbv beta iota delta [trace];
    rewrite <- ?app_assoc; rewrite skipn_app_exact; cbn [app];
    (split;
     [ intros uf Hn; first [discriminate Hn | injection Hn as <-];
       vm_compute; split; reflexivity
     | intros name Hin H; vm_compute in Hin;
       repeat (destruct Hin as [<-|Hin];
               [vm_compute in H; first [discriminate H | vm_compute; split; reflexivity]|]);
       destruct Hin ]).
Qed.

(** ** What the messages of setup_fosphor_visualization say *)

(** X19. "Using Fosphor QT sink for visualization" is printed only when
    the set-up of the Qt sink is complete: the function returns, the
    sink is connected to the source and its widget is in the layout.
    "Using Fosphor GLFW Sink" is printed before the sink is connected:
    it can be followed by the fallback to the standard visualization,
    so that the run ends with the two qtgui sinks connected. *)
Theorem fosphor_messages :
  (forall (w : world) (st : state),
     existsb (printed "Using Fosphor QT sink for visualization")
       (events_of (setup_fosphor_visualization w) st) = true ->
     fst (setup_fosphor_visualization w st) = Normal tt /\
     edges (snd (setup_fosphor_visualization w st))
     = edges st ++ [(rtlsdr_source, fosphor_qt_sink)] /\
     layout (snd (setup_fosphor_visualization w st)) = layout st ++ [fosphor_win])
  /\
  (existsb (printed "Using Fosphor GLFW Sink")
     (events_of (setup_fosphor_visualization glfw_connect_fails) initial_state) = true /\
   fst (setup_fosphor_visualization glfw_connect_fails initial_state) = Normal tt /\
   edges (snd (setup_fosphor_visualization glfw_connect_fails initial_state))
   = [(rtlsdr_source, qtgui_freq_sink); (rtlsdr_source, qtgui_waterfall_sink)]).
Proof.
  split; [|vm_compute; repeat split].
  intros w st. unfold events_of. destruct st as [tr sr cf g d fs lay ed].
  destruct (setup_fosphor_visualization w (mkState tr sr cf g d fs lay ed))
    as [o st'] eqn:E.
  cbn [fst snd]. unfold setup_fosphor_visualization in E.
  assert (Hstd : forall S r,
             setup_standard_visualization w S = r ->
             exists evs, trace (snd r) = trace S ++ evs /\
                         existsb (printed "Using Fosphor QT sink for visualization") evs
                         = false).
  { intros S r <-.
    assert (Ho : only (fun ev => printed "Using Fosphor QT sink for visualization" ev
                                 = false) (setup_standard_visualization w))
      by (unfold setup_standard_visualization; only_auto; reflexivity).
    destruct (Ho S) as (evs & Et & F). exists evs. split; [exact Et|].
    apply existsb_none, F. }
  run_in E;
    lazymatch type of E with
    | setup_standard_visualization _ _ = _ =>
        let evs := fresh "evs" in
        let Et := fresh "Et" in
        let F := fresh "F" in
        destruct (Hstd _ _ E) as (evs & Et & F);
        cbv beta iota delta [snd] in Et; rewrite Et;
        cbv beta iota delta [trace];
        rewrite <- ?app_assoc; rewrite skipn_app_exact;
        cbn [app existsb printed orb]; rewrite ?existsb_app, F;
        cbn [app existsb printed orb];
        intros H; vm_compute in H; discriminate H
    | _ =>
        pose proof (f_equal fst E) as Eo; pose proof (f_equal snd E) as Es;
        cbv beta iota delta [fst snd] in Eo, Es; subst o st';
        cbv beta iota delta [trace edges layout];
        rewrite <- ?app_assoc; rewrite skipn_app_exact;
        intros H; vm_compute in H;
        first [discriminate H | repeat split]
    end.
Qed.

Lemma fosphor_messages_witness :
  fst (setup_fosphor_visualization (plain quiet) initial_state) = Normal tt /\
  edges (snd (setup_fosphor_visualization (plain quiet) initial_state))
  = edges initial_state ++ [(rtlsdr_source, fosphor_qt_sink)] /\
  layout (snd (setup_fosphor_visualization (plain quiet) initial_state))
  = layout initial_state ++ [fosphor_win].
Proof.
  apply (proj1 fosphor_messages (plain quiet) initial_state).
  vm_compute. reflexivity.
Defined.

(** ** The life cycle: how a run can end *)

Section Ending.

Variable w : world.

Lemma occur_all_app p os1 os2 :
  occur_all w p (os1 ++ os2) = occur_all w (occur_all w p os1) os2.
Proof. unfold occur_all. apply fold_left_app. Qed.

Lemma exit_inv_running st0 : exit_inv st0 (running st0).
Proof.
  split; [exists []; cbn; rewrite app_nil_r; reflexivity|].
  intros c H. discriminate H.
Qed.

Lemma exit_inv_live st0 p fr ie :
  exit_inv st0 p -> exit_inv st0 (mkProcess fr ie (pstate p) None).
Proof.
  intros (Htr & _). split; [exact Htr|]. intros c H. discriminate H.
Qed.

Lemma exit_inv_do st0 p c rest outer :
  c = stop_call \/ c = wait_call ->
  exit_inv st0 p ->
  exit_inv st0
    match do w c (pstate p) with
    | (Normal _, st') => mkProcess (rest :: outer) (in_exec p) st' None
    | (Raised e, st') => mkProcess [] false (log (PrintExc e) st') (Some 1)
    | (Exited c, st') => mkProcess [] false st' (Some c)
    end.
Proof.
  intros Hc ((pre & Htr) & _). unfold do.
  destruct (raises w (trace (pstate p)) c) as [e|].
  - split; cbn [pstate ended].
    + exists (pre ++ [Called c (Some e); PrintExc e]).
      rewrite !trace_log, Htr, <- !app_assoc. reflexivity.
    + intros c' [= <-]. right. split; [reflexivity|].
      exists pre, c, e. split; [exact Hc|]. cbn [pstate].
      rewrite !trace_log, Htr, <- !app_assoc. reflexivity.
  - split; cbn [pstate ended].
    + exists (pre ++ [Called c None]). rewrite trace_log, Htr, <- app_assoc.
      reflexivity.
    + intros c' H. discriminate H.
Qed.

Lemma exit_inv_occur st0 p o : exit_inv st0 p -> exit_inv st0 (occur w p o).
Proof.
  intros Hinv. unfold occur. destruct (ended p) eqn:He; [exact Hinv|].
  destruct o as [s| |].
  - apply exit_inv_live, Hinv.
  - destruct (frames p); [|exact Hinv].
    destruct (in_exec p); [|exact Hinv]. apply exit_inv_live, Hinv.
  - unfold step. destruct (frames p) as [|[|s rest] outer]; [exact Hinv| |].
    + apply exit_inv_live, Hinv.
    + destruct s; cbn [exec_stmt].
      * apply exit_inv_do; [left; reflexivity | exact Hinv].
      * apply exit_inv_do; [right; reflexivity | exact Hinv].
      * destruct Hinv as ((pre & Htr) & _). unfold sys_exit. split; cbn [pstate ended].
        -- exists (pre ++ [SysExit 0]). rewrite trace_log, Htr, <- app_assoc.
           reflexivity.
        -- intros c [= <-]. left. reflexivity.
Qed.

Lemma exit_inv_occur_all st0 os : forall p,
  exit_inv st0 p -> exit_inv st0 (occur_all w p os).
Proof.
  induction os as [|o os IH]; intros p Hinv; [exact Hinv|].
  unfold occur_all in *. cbn [fold_left]. apply IH, exit_inv_occur, Hinv.
Qed.

Lemma alive_inv_running st0 : alive_inv (running st0).
Proof. intros _. split; [constructor | reflexivity]. Qed.

Lemma alive_inv_occur p o : alive_inv p -> alive_inv (occur w p o).
Proof.
  intros Hinv. unfold occur. destruct (ended p) eqn:He; [exact Hinv|].
  destruct (Hinv He) as (Hf & Hx).
  destruct o as [s| |].
  - intros _. cbn [frames in_exec]. split; [|discriminate].
    constructor; [left; reflexivity | exact Hf].
  - destruct (frames p) eqn:Ef; [|exact Hinv].
    destruct (in_exec p); [|exact Hinv].
    intros _. cbn [frames in_exec]. split; [|discriminate].
    constructor; [left; reflexivity | constructor].
  - unfold step. destruct (frames p) as [|f outer] eqn:Ef; [exact Hinv|].
    inversion Hf as [|? ? Hv Houter]; subst.
    destruct Hv as [-> | [-> | ->]]; cbn [sig_handler exec_stmt].
    + unfold do. destruct (raises w (trace (pstate p)) (Invoke OTop "stop" []));
        intros H; [discriminate H|]. cbn [frames in_exec].
      split; [|discriminate].
      constructor; [right; left; reflexivity | exact Houter].
    + unfold do. destruct (raises w (trace (pstate p)) (Invoke OTop "wait" []));
        intros H; [discriminate H|]. cbn [frames in_exec].
      split; [|discriminate].
      constructor; [right; right; reflexivity | exact Houter].
    + unfold sys_exit. intros H. discriminate H.
Qed.

Lemma alive_inv_occur_all os : forall p, alive_inv p -> alive_inv (occur_all w p os).
Proof.
  induction os as [|o os IH]; intros p Hinv; [exact Hinv|].
  unfold occur_all in *. cbn [fold_left]. apply IH, alive_inv_occur, Hinv.
Qed.

(** One statement of a handler that has [n] statements left either ends
    the process or leaves a handler with one statement less. *)
Lemma step_progress fr ie ps f outer :
  fr = f :: outer -> valid_frame f ->
  let p' := occur w (mkProcess fr ie ps None) Step in
  ended p' <> None \/
  exists f' ps',
    p' = mkProcess (f' :: outer) ie ps' None /\ valid_frame f' /\
    (length f' < length f)%nat.
Proof.
  intros -> Hv. unfold occur, step. cbn [ended frames pstate in_exec].
  destruct Hv as [-> | [-> | ->]]; cbn [sig_handler exec_stmt].
  - unfold do. destruct (raises w (trace ps) (Invoke OTop "stop" [])).
    + left. discriminate.
    + right. eexists _, _. split; [reflexivity|].
      split; [right; left; reflexivity | cbn; lia].
  - unfold do. destruct (raises w (trace ps) (Invoke OTop "wait" [])).
    + left. discriminate.
    + right. eexists _, _. split; [reflexivity|].
      split; [right; right; reflexivity | cbn; lia].
  - left. unfold sys_exit. discriminate.
Qed.

Lemma valid_frame_length f : valid_frame f -> (1 <= length f <= 3)%nat.
Proof. intros [-> | [-> | ->]]; cbn; lia. Qed.

(** A handler with at most [n] statements left is through after [n]
    statements of the main thread. *)
Lemma steps_end n : forall fr ie ps f outer,
  fr = f :: outer -> valid_frame f -> (length f <= n)%nat ->
  ended (occur_all w (mkProcess fr ie ps None) (repeat Step n)) <> None.
Proof.
  induction n as [|n IH]; intros fr ie ps f outer Ef Hv Hn.
  - apply valid_frame_length in Hv. lia.
  - cbn [repeat]. unfold occur_all. cbn [fold_left].
    destruct (step_progress fr ie ps f outer Ef Hv) as [He|(f' & ps' & E & Hv' & Hl)].
    + fold (occur_all w (occur w (mkProcess fr ie ps None) Step) (repeat Step n)).
      rewrite occur_all_ended; assumption.
    + rewrite E. apply (IH _ ie ps' f' outer eq_refl Hv'). lia.
Qed.

End Ending.

(** X15. When the Qt event loop returns (the window was closed), main
    calls the handler itself: the run that follows is the run that
    follows a signal, with the same calls, the same results and the
    same exit status, whatever tb.stop() and tb.wait() do. *)
Theorem window_close_is_signal (w : world) (st : state) (s : signum) :
  let p := occur_all w (running st) [Quit; Step; Step; Step] in
  let q := occur_all w (running st) [Signal s; Step; Step; Step] in
  pstate p = pstate q /\ ended p = ended q /\ ended p <> None.
Proof.
  unfold occur_all, running. cbn [fold_left].
  cbn [occur ended frames in_exec pstate step sig_handler exec_stmt].
  unfold do.
  destruct (raises w (trace st) (Invoke OTop "stop" [])) as [e|];
    cbn [occur ended frames in_exec pstate step sig_handler exec_stmt];
    [repeat split; discriminate|].
  unfold do.
  destruct (raises w (trace (log (Called (Invoke OTop "stop" []) None) st))
              (Invoke OTop "wait" [])) as [e|];
    cbn [occur ended frames in_exec pstate step sig_handler exec_stmt];
    repeat split; discriminate.
Qed.

(** X16. Whatever signals arrive and whenever, a run that has ended has
    ended with status 0 or with status 1; with status 1 only because
    tb.stop() or tb.wait() raised in the handler, which nothing
    catches: the last events are the failed call and the traceback. *)
Theorem shutdown_status (w : world) (st : state) (os : list occurrence) (c : Z) :
  ended (occur_all w (running st) os) = Some c ->
  c = 0 \/ (c = 1 /\ shutdown_failed st (occur_all w (running st) os)).
Proof.
  intros H.
  exact (proj2 (exit_inv_occur_all w st os _ (exit_inv_running st)) c H).
Qed.

Lemma shutdown_status_witness :
  1 = 0 \/
  (1 = 1 /\
   shutdown_failed initial_state
     (occur_all stop_fails (running initial_state) [Signal SIGTERM; Step])).
Proof.
  apply (shutdown_status stop_fails initial_state [Signal SIGTERM; Step] 1).
  reflexivity.
Defined.

(** X17. Once a signal has arrived or the window was closed, the
    process is over as soon as the main thread has executed three
    statements without a further signal, whatever happened before and
    whatever tb.stop() and tb.wait() do. *)
Theorem shutdown_terminates (w : world) (st : state) (os : list occurrence)
    (o : occurrence) :
  o <> Step ->
  ended (occur_all w (running st) (os ++ [o; Step; Step; Step])) <> None.
Proof.
  intros Ho. rewrite occur_all_app.
  pose proof (alive_inv_occur_all w os _ (alive_inv_running st)) as Hinv.
  set (p0 := occur_all w (running st) os) in *.
  destruct (ended p0) eqn:He.
  - rewrite occur_all_ended; congruence.
  - change [o; Step; Step; Step] with ([o] ++ repeat Step 3).
    rewrite occur_all_app.
    pose proof (alive_inv_occur w p0 o Hinv) as Hinv1.
    assert (H1 : ended (occur w p0 o) = None /\ frames (occur w p0 o) <> []).
    { unfold occur. rewrite He. destruct o as [s| |]; [| |congruence].
      - split; [reflexivity | discriminate].
      - destruct (Hinv He) as (_ & Hx).
        destruct (frames p0) eqn:Ef.
        + rewrite (Hx eq_refl). split; [reflexivity | discriminate].
        + split; [exact He | rewrite Ef; discriminate]. }
    change (occur_all w p0 [o]) with (occur w p0 o).
    destruct (occur w p0 o) as [fr ie ps en].
    cbn [ended frames] in H1. destruct H1 as (-> & Hfr).
    destruct fr as [|f outer]; [congruence|].
    destruct (Hinv1 eq_refl) as (Hf & _). cbn [frames] in Hf.
    inversion Hf as [|? ? Hv _]; subst.
    apply (steps_end w 3 _ ie ps f outer eq_refl Hv).
    apply valid_frame_length in Hv. lia.
Qed.

Lemma shutdown_terminates_witness :
  ended (occur_all (plain quiet) (running initial_state)
           ([Signal SIGINT; Step; Signal SIGINT] ++ [Quit; Step; Step; Step]))
  <> None.
Proof.
  apply (shutdown_terminates (plain quiet) initial_state
           [Signal SIGINT; Step; Signal SIGINT] Quit).
  discriminate.
Defined.

(** ** The whole program: from the import block to the end of the process *)

Lemma only_import_modules P w :
  (forall line, P (Print line)) -> (forall e, P (PrintExc e)) ->
  (forall c, P (SysExit c)) -> (forall md nm o, P (Called (Import md nm) o)) ->
  only P (import_modules w).
Proof.
  intros HP HX HE HI.
  unfold import_modules, import_fosphor, import_osmosdr, import_.
  only_auto; auto.
Qed.

Lemma main_grows w uf a : only (fun _ => True) (main w uf a).
Proof.
  unfold main. apply only_bind.
  - destruct (arg_detect a); [apply only_detect_and_exit; intros; exact I|].
    apply only_ret.
  - intro. apply only_bind; [apply RtlsdrFosphor_grows | intro].
    only_auto; exact I.
Qed.

(** What the life cycle adds to the trace are calls of stop and wait,
    tracebacks and the exit: in particular, no call of start. *)
Lemma occur_no_start w p o :
  exists post,
    trace (pstate (occur w p o)) = trace (pstate p) ++ post /\
    Forall (fun ev => is_top_call "start" ev = false) post.
Proof.
  assert (Hsame : exists post,
             trace (pstate p) = trace (pstate p) ++ post /\
             Forall (fun ev => is_top_call "start" ev = false) post)
    by (exists []; rewrite app_nil_r; auto).
  unfold occur. destruct (ended p); [exact Hsame|].
  destruct o as [s| |].
  - exact Hsame.
  - destruct (frames p); [|exact Hsame]. destruct (in_exec p); exact Hsame.
  - unfold step. destruct (frames p) as [|[|s rest] outer]; [exact Hsame..|].
    destruct s; cbn [exec_stmt].
    + unfold do. destruct (raises w (trace (pstate p)) (Invoke OTop "stop" []));
        cbn [pstate]; rewrite ?trace_log, <- ?app_assoc;
        eexists; (split; [reflexivity|]); repeat constructor.
    + unfold do. destruct (raises w (trace (pstate p)) (Invoke OTop "wait" []));
        cbn [pstate]; rewrite ?trace_log, <- ?app_assoc;
        eexists; (split; [reflexivity|]); repeat constructor.
    + unfold sys_exit. cbn [pstate]. rewrite trace_log.
      eexists; (split; [reflexivity|]); repeat constructor.
Qed.

Lemma occur_all_no_start w os : forall p,
  exists post,
    trace (pstate (occur_all w p os)) = trace (pstate p) ++ post /\
    Forall (fun ev => is_top_call "start" ev = false) post.
Proof.
  induction os as [|o os IH]; intros p.
  - exists []. cbn. rewrite app_nil_r. auto.
  - unfold occur_all in *. cbn [fold_left].
    destruct (occur_no_start w p o) as (post1 & E1 & F1).
    destruct (IH (occur w p o)) as (post2 & E2 & F2).
    exists (post1 ++ post2). rewrite E2, E1, app_assoc.
    split; [reflexivity | apply Forall_app; auto].
Qed.

Lemma started_no_start r :
  exists post,
    trace (pstate (started r)) = trace (snd r) ++ post /\
    Forall (fun ev => is_top_call "start" ev = false) post.
Proof.
  destruct r as [[u|e|c] st]; cbn [started running pstate snd].
  - exists []. rewrite app_nil_r. auto.
  - exists [PrintExc e]. rewrite trace_log. repeat constructor.
  - exists []. rewrite app_nil_r. auto.
Qed.

(** The events of main up to and including tb.start(), when start is
    reached. *)
Lemma main_start_events w use_fosphor a st :
  existsb (is_top_call "start") (events_of (main w use_fosphor a) st) = true ->
  arg_detect a = false /\
  fst (RtlsdrFosphor w use_fosphor (arg_freq a) (arg_samp_rate a) (arg_gain a)
         (arg_device a) st) = Normal tt /\
  exists o,
    events_of (main w use_fosphor a) st
    = events_of (RtlsdrFosphor w use_fosphor (arg_freq a) (arg_samp_rate a)
                   (arg_gain a) (arg_device a)) st
      ++ map ok signal_registrations
      ++ start_banner use_fosphor a
      ++ [Called start_call o].
Proof.
  intros Hs. destruct (arg_detect a) eqn:Hd.
  - exfalso. destruct (main_detect w use_fosphor a st Hd) as (_ & Ev).
    rewrite Ev in Hs. rewrite existsb_none in Hs; [discriminate Hs|].
    apply only_events, only_detect_and_exit; reflexivity.
  - split; [reflexivity|].
    destruct (only_RtlsdrFosphor_no_start w use_fosphor (arg_freq a) (arg_samp_rate a)
                (arg_gain a) (arg_device a) st) as (evs1 & E1 & F1).
    rewrite (events_of_eq _ _ _ E1).
    revert Hs. unfold events_of.
    destruct (main w use_fosphor a st) as [om sm] eqn:Em. cbn [snd].
    rewrite (main_construct w use_fosphor a st Hd) in Em. unfold bind at 1 in Em.
    destruct (RtlsdrFosphor w use_fosphor (arg_freq a) (arg_samp_rate a) (arg_gain a)
                (arg_device a) st) as [[[]|e|c] s1];
      cbn [fst snd] in E1 |- *.
    + destruct s1 as [tr1 sr1 cf1 g1 d1 fs1 lay1 ed1].
      cbn [trace] in E1. subst tr1.
      run_in Em; final_state Em sm; cbv beta iota delta [trace];
        rewrite <- ?app_assoc; rewrite skipn_app_exact;
        rewrite existsb_app, (existsb_none _ _ F1); cbn [orb app];
        intros Hs; first [discriminate Hs | idtac];
        (split; [reflexivity|]); eexists; reflexivity.
    + final_state Em sm. rewrite E1, skipn_app_exact, (existsb_none _ _ F1).
      discriminate.
    + final_state Em sm. rewrite E1, skipn_app_exact, (existsb_none _ _ F1).
      discriminate.
Qed.

(** X13. In a whole run of the program, whatever signals arrive,
    tb.start() is called at most once, and only after the import block
    has completed, the parser has returned a namespace without detect,
    __init__ has completed and both signal handlers are registered: the
    trace up to the call of start is that of the import block, of the
    complete construction, the two calls of signal.signal, which
    returned, and the six lines of the start banner; nothing that
    follows, in main or in the handler, calls start again. *)
Theorem start_once_after_setup (w : world) (p : parsed) (os : list occurrence)
    (st : state) :
  let tr := skipn (length (trace st)) (trace (pstate (whole_run w p os st))) in
  existsb (is_top_call "start") tr = true ->
  exists a use_fosphor s1 o post,
    p = Namespace a /\
    arg_detect a = false /\
    import_modules w st = (Normal use_fosphor, s1) /\
    fst (RtlsdrFosphor w use_fosphor (arg_freq a) (arg_samp_rate a) (arg_gain a)
           (arg_device a) s1) = Normal tt /\
    tr = events_of (import_modules w) st
         ++ events_of (RtlsdrFosphor w use_fosphor (arg_freq a) (arg_samp_rate a)
                         (arg_gain a) (arg_device a)) s1
         ++ map ok signal_registrations
         ++ start_banner use_fosphor a
         ++ Called start_call o :: post /\
    existsb (is_top_call "start") post = false.
Proof.
  intros tr. subst tr.
  remember (skipn (length (trace st)) (trace (pstate (whole_run w p os st)))) as T
    eqn:ET.
  unfold whole_run in ET.
  destruct (occur_all_no_start w os (started (program w p st))) as (post2 & E2 & F2).
  destruct (started_no_start (program w p st)) as (post1 & E1 & F1).
  rewrite E2, E1 in ET. clear E1 E2.
  assert (Fi : Forall (fun ev => is_top_call "start" ev = false)
                 (events_of (import_modules w) st))
    by (apply only_events, only_import_modules; reflexivity).
  assert (Ei := trace_grows (import_modules w) st
                  (only_import_modules _ w (fun _ => I) (fun _ => I) (fun _ => I)
                     (fun _ _ _ => I))).
  unfold program in ET. unfold bind at 1 in ET.
  destruct (import_modules w st) as [[uf|e|c] s1] eqn:Eimp; cbn [snd] in Ei.
  - destruct p as [a|c]; cbn [parse_args] in ET.
    + unfold bind at 1 in ET. unfold ret at 1 in ET.
      pose proof (trace_grows (main w uf a) s1 (main_grows w uf a)) as Em.
      rewrite Em, Ei, <- !app_assoc, skipn_app_exact in ET. subst T.
      rewrite !existsb_app, (existsb_none _ _ Fi), (existsb_none _ _ F1),
        (existsb_none _ _ F2), !orb_false_r. cbn [orb].
      intros Hs. destruct (main_start_events w uf a s1 Hs) as (Hd & Hn & o & Ev).
      exists a, uf, s1, o, (post1 ++ post2). split; [reflexivity|].
      split; [exact Hd|]. split; [reflexivity|]. split; [exact Hn|]. split.
      * rewrite Ev, <- !app_assoc. reflexivity.
      * rewrite existsb_app, (existsb_none _ _ F1), (existsb_none _ _ F2).
        reflexivity.
    + unfold bind at 1 in ET. unfold sys_exit at 1 in ET. cbn [snd] in ET.
      rewrite trace_log, Ei, <- !app_assoc, skipn_app_exact in ET. subst T.
      rewrite !existsb_app, (existsb_none _ _ Fi), (existsb_none _ _ F1),
        (existsb_none _ _ F2). cbn. discriminate.
  - cbn [snd] in ET. rewrite Ei, <- !app_assoc, skipn_app_exact in ET. subst T.
    rewrite !existsb_app, (existsb_none _ _ Fi), (existsb_none _ _ F1),
      (existsb_none _ _ F2). discriminate.
  - cbn [snd] in ET. rewrite Ei, <- !app_assoc, skipn_app_exact in ET. subst T.
    rewrite !existsb_app, (existsb_none _ _ Fi), (existsb_none _ _ F1),
      (existsb_none _ _ F2). discriminate.
Qed.

(** The defaults, nothing raises; Ctrl+C is pressed twice. *)
Lemma start_once_after_setup_witness :
  exists a use_fosphor s1 o post,
    Namespace default_args = Namespace a /\
    arg_detect a = false /\
    import_modules (plain quiet) initial_state = (Normal use_fosphor, s1) /\
    fst (RtlsdrFosphor (plain quiet) use_fosphor (arg_freq a) (arg_samp_rate a)
           (arg_gain a) (arg_device a) s1) = Normal tt /\
    skipn (length (trace initial_state))
      (trace (pstate (whole_run (plain quiet) (Namespace default_args) impatient
                        initial_state)))
    = events_of (import_modules (plain quiet)) initial_state
      ++ events_of (RtlsdrFosphor (plain quiet) use_fosphor (arg_freq a)
                      (arg_samp_rate a) (arg_gain a) (arg_device a)) s1
      ++ map ok signal_registrations
      ++ start_banner use_fosphor a
      ++ Called start_call o :: post /\
    existsb (is_top_call "start") post = false.
Proof.
  apply (start_once_after_setup (plain quiet) (Namespace default_args) impatient
           initial_state).
  vm_compute. reflexivity.
Defined.



(** ** --detect *)

Lemma enumeration_nil idxs : enumeration idxs [] = [].
Proof. destruct idxs; reflexivity. Qed.

Lemma opened_nil idxs : opened idxs [] = [].
Proof. destruct idxs; reflexivity. Qed.

(** The loop, round by round: what it leaves in the trace and what it
    returns, for the results the probes meet. *)
Lemma probe_all_enumerated w idxs : forall devices st,
  exists outs,
    loop_results (length idxs) outs = true /\
    fst (probe_all w idxs devices st)
    = Normal (devices ++ map found (opened idxs outs)) /\
    trace (snd (probe_all w idxs devices st)) = trace st ++ enumeration idxs outs.
Proof.
  induction idxs as [|i rest IH]; intros devices st.
  - exists []. cbn. rewrite !app_nil_r. auto.
  - destruct (raises w (trace st) (open_source i)) as [e|] eqn:Er.
    + destruct (contains not_found_signature (exn_msg e)) eqn:Ec.
      * exists [Some e].
        assert (Es : probe_all w (i :: rest) devices st
                     = (Normal devices,
                        if i =? 0
                        then log (Print [Text "  No RTL-SDR devices found"%string])
                               (log (Called (open_source i) (Some e)) st)
                        else log (Called (open_source i) (Some e)) st)).
        { cbn [probe_all]. unfold probe, try_except, bind, do. rewrite Er, Ec.
          destruct (i =? 0); reflexivity. }
        rewrite Es. cbn [fst snd length loop_results stops opened enumeration].
        rewrite Ec, opened_nil, enumeration_nil. cbn [map]. unfold probe_events.
        rewrite Ec, !app_nil_r. split; [reflexivity|]. split; [reflexivity|].
        destruct (i =? 0); rewrite ?trace_log, <- ?app_assoc; reflexivity.
      * assert (Es : probe_all w (i :: rest) devices st
                     = probe_all w rest devices
                         (log (Print [Text ("  Error checking device #" ++ dec i
                                            ++ ": " ++ exn_msg e)%string])
                            (log (Called (open_source i) (Some e)) st))).
        { cbn [probe_all]. unfold bind.
          rewrite (probe_other w i devices st e Er Ec). reflexivity. }
        rewrite Es.
        match goal with |- context [probe_all w rest devices ?s] =>
          destruct (IH devices s) as (outs & Hl & Hr & Ht)
        end.
        exists (Some e :: outs).
        cbn [length loop_results stops opened enumeration]. unfold probe_events.
        rewrite Ec. split; [exact Hl|]. split; [exact Hr|].
        rewrite Ht, !trace_log, <- !app_assoc. reflexivity.
    + assert (Es : probe_all w (i :: rest) devices st
                   = probe_all w rest (devices ++ [found i])
                       (log (Print [Text ("  Found device #" ++ dec i ++ ": "
                                          ++ snd (found i))%string])
                          (log (Called (open_source i) None) st))).
      { cbn [probe_all]. unfold bind.
        rewrite (probe_found w i devices st Er). reflexivity. }
      rewrite Es.
      match goal with |- context [probe_all w rest ?d ?s] =>
        destruct (IH d s) as (outs & Hl & Hr & Ht)
      end.
      exists (None :: outs).
      cbn [length loop_results stops opened enumeration]. unfold probe_events.
      split; [exact Hl|]. split.
      * rewrite Hr. cbn [map]. rewrite <- app_assoc. reflexivity.
      * rewrite Ht, !trace_log, <- !app_assoc. reflexivity.
Qed.

Lemma only_import_modules_no_source w :
  only (fun ev => touches_source ev = false) (import_modules w).
Proof.
  unfold import_modules, import_fosphor, import_osmosdr. only_auto; reflexivity.
Qed.

(** C5 (amended). For a namespace with detect set, main runs the
    enumeration and nothing else: it prints the banner, probes the
    indices from 0 on with source(args="rtl=<i>"), going on after a
    device that opened (announced) and after a failure without the
    signature (reported), and stopping at a failure with the signature
    or after index 9; it then prints the report of the devices that
    opened and calls sys.exit(0).  This is the whole trace: nothing is
    called on the flowgraph, which is not constructed, started or
    stopped.  In the program main is reached only when the import block
    has completed: when it has not, the process ends with status 1 and
    no device is probed; and when the parser ends the process, it ends
    with the parser's status. *)
Theorem detect_mode_exits_0 :
  forall (w : world) (st : state),
    (forall (use_fosphor : bool) (a : args),
        arg_detect a = true ->
        exists outs : list (option exn),
          let evs := events_of (main w use_fosphor a) st in
          loop_results 10 outs = true /\
          fst (main w use_fosphor a st) = Exited 0 /\
          evs = Print [Text (nl ++ "Detecting RTL-SDR devices...")%string]
                :: enumeration (range 10) outs
                ++ report (map found (opened (range 10) outs))
                ++ [SysExit 0] /\
          forallb (fun ev => negb (is_top ev)) evs = true /\
          count_top "__init__" evs = 0%nat /\
          count_top "start" evs = 0%nat /\
          count_top "stop" evs = 0%nat /\
          count_top "wait" evs = 0%nat)
    /\
    (forall (a : args),
        arg_detect a = true ->
        (forall uf s1,
            import_modules w st = (Normal uf, s1) ->
            program w (Namespace a) st = main w uf a s1 /\
            fst (program w (Namespace a) st) = Exited 0) /\
        ((forall uf, fst (import_modules w st) <> Normal uf) ->
         fst (program w (Namespace a) st) = Exited 1 /\
         events_of (program w (Namespace a)) st = events_of (import_modules w) st /\
         news "source" (events_of (program w (Namespace a)) st) = []))
    /\
    (forall (c : Z) uf s1,
        import_modules w st = (Normal uf, s1) ->
        program w (ParserExit c) st = (Exited c, log (SysExit c) s1)).
Proof.
  intros w st. split; [|split].
  - intros uf a Hd.
    destruct (main_detect w uf a st Hd) as (Hout & Hev).
    destruct (probe_all_enumerated w (range 10) [] (log detecting_line st))
      as (outs & Hl & Hr & Ht).
    exists outs. cbv zeta.
    assert (Hdet : detect_rtlsdr_devices w st
                   = probe_all w (range 10) [] (log detecting_line st))
      by reflexivity.
    destruct (detect_and_exit_run w st) as (devices & st' & Hret & Hrun & Htr).
    rewrite Hdet, Hr in Hret. injection Hret as <-.
    rewrite Hdet, Ht, trace_log, <- !app_assoc in Htr.
    assert (E : events_of (main w uf a) st
                = detecting_line :: enumeration (range 10) outs
                  ++ report (map found (opened (range 10) outs)) ++ [SysExit 0]).
    { rewrite Hev. apply events_of_eq. rewrite Hrun. exact Htr. }
    assert (Hall : Forall (fun ev => is_top ev = false) (events_of (main w uf a) st)).
    { rewrite Hev. apply only_events, only_detect_and_exit; reflexivity. }
    split; [exact Hl|]. split; [exact Hout|]. split; [exact E|].
    split.
    { apply forallb_forall. intros ev Hin. rewrite Forall_forall in Hall.
      rewrite (Hall ev Hin). reflexivity. }
    repeat split; apply count_top_none, Hall.
  - intros a Hd. split.
    + intros uf s1 Ei.
      assert (Ep : program w (Namespace a) st = main w uf a s1).
      { unfold program. unfold bind at 1. rewrite Ei. reflexivity. }
      split; [exact Ep|]. rewrite Ep. exact (proj1 (main_detect w uf a s1 Hd)).
    + intros Hn.
      pose proof (never_raises_import_modules w st) as Hnr.
      pose proof (exits_1_import_modules w st) as Hex.
      destruct (only_import_modules_no_source w st) as (evs & Et & F).
      assert (Ep : program w (Namespace a) st
                   = (Exited 1, snd (import_modules w st))).
      { unfold program. unfold bind at 1.
        destruct (import_modules w st) as [[uf|e|c] s1]; cbn [fst snd] in *.
        - destruct (Hn uf eq_refl).
        - destruct (Hnr e eq_refl).
        - rewrite (Hex c eq_refl). reflexivity. }
      assert (Ev : events_of (program w (Namespace a)) st
                   = events_of (import_modules w) st)
        by (unfold events_of; rewrite Ep; reflexivity).
      rewrite Ev, Ep. split; [reflexivity|]. split; [reflexivity|].
      rewrite (events_of_eq _ _ _ Et). apply untouched_news, F.
  - intros c uf s1 Ei. unfold program. unfold bind at 1. rewrite Ei. reflexivity.
Qed.

(** --detect with two dongles plugged in. *)
Lemma detect_mode_exits_0_witness :
  exists outs : list (option exn),
    loop_results 10 outs = true /\
    fst (main two_devices true detect_args initial_state) = Exited 0 /\
    events_of (main two_devices true detect_args) initial_state
    = Print [Text (nl ++ "Detecting RTL-SDR devices...")%string]
      :: enumeration (range 10) outs
      ++ report (map found (opened (range 10) outs))
      ++ [SysExit 0] /\
    forallb (fun ev => negb (is_top ev))
      (events_of (main two_devices true detect_args) initial_state) = true /\
    count_top "__init__" (events_of (main two_devices true detect_args) initial_state)
    = 0%nat /\
    count_top "start" (events_of (main two_devices true detect_args) initial_state)
    = 0%nat /\
    count_top "stop" (events_of (main two_devices true detect_args) initial_state)
    = 0%nat /\
    count_top "wait" (events_of (main two_devices true detect_args) initial_state)
    = 0%nat.
Proof.
  apply (proj1 (detect_mode_exits_0 two_devices initial_state) true detect_args).
  reflexivity.
Defined.

(** --detect where gr-osmosdr is not installed: the import block ends
    the process with status 1 before main is reached; nothing is
    probed. *)
Lemma detect_mode_exits_0_counterexample :
  fst (program no_osmosdr (Namespace detect_args) initial_state) = Exited 1 /\
  news "source" (events_of (program no_osmosdr (Namespace detect_args)) initial_state)
  = [] /\
  ~ detect_always_exits_0 no_osmosdr initial_state.
Proof.
  split; [vm_compute; reflexivity|]. split; [vm_compute; reflexivity|].
  intros H. specialize (H detect_args eq_refl). vm_compute in H. discriminate H.
Qed.
